(** * The headless agent's decision-and-generation pipeline

    A shallow embedding of [agent_headless.py] (class [HeadlessTwitterAgent])
    and the properties of its content pipeline: action selection, the
    content strategies, prompt construction, length enforcement and
    dispatch.

    Python objects are dynamically typed, so values that come out of
    [json.loads] are modelled by the type [val]; operations that Python
    would reject at run time raise an exception of type [exn].  Everything
    outside the process (the generative text service, the news provider,
    the browser, the file system, the random source) is gathered in the
    record [World]; the methods run in a state-and-exception monad whose
    state holds the agent's mutable fields and the trace of its effects. *)

From Stdlib Require Import ZArith Ascii String.
From stdpp Require Import base option list gmap strings pretty.

Local Open Scope string_scope.

(** ** Python values and exceptions *)

Module Py.

(** Exceptions the code can meet. All of them derive from [Exception];
    [JSONDecodeError] derives from [ValueError]. *)
Inductive exn : Set :=
| AttributeError
| TypeError
| KeyError
| IndexError
| ValueError
| JSONDecodeError
| URLError
| OSError
| TimeoutException
| NoSuchElementException
| StaleElementReferenceException
| WebDriverException
| OverflowError.

#[global] Instance exn_eq_dec : EqDecision exn.
Proof. solve_decision. Defined.

(** The outcome of evaluating an expression: a value or a raised exception. *)
Inductive Res (A : Type) : Type :=
| Ok (a : A)
| Raise (e : exn).
Arguments Ok {A} a.
Arguments Raise {A} e.

(** A value as [json.loads] builds it. A float is kept as its IEEE 754
    binary64 bit pattern: the code only ever tests floats for truth. *)
#[warnings="-register-all"]
Inductive val : Type :=
| VNone
| VBool (b : bool)
| VInt (z : Z)
| VFloat (bits : Z)
| VStr (s : string)
| VList (l : list val)
| VDict (d : gmap string val).

(** [bool(v)]. *)
Definition truthy (v : val) : bool :=
  match v with
  | VNone => false
  | VBool b => b
  | VInt z => negb (z =? 0)%Z
  | VFloat bits => negb (Z.land bits (2 ^ 63 - 1) =? 0)%Z
  | VStr s => negb (Nat.eqb (String.length s) 0)
  | VList l => negb (Nat.eqb (length l) 0)
  | VDict d => negb (Nat.eqb (size d) 0)
  end.

(** [v == s] for a string literal [s]. *)
Definition eq_str (v : val) (s : string) : bool :=
  match v with
  | VStr t => String.eqb t s
  | _ => false
  end.

(** [d.get(k)] and [d.get(k, dflt)] on a dict. *)
Definition dict_get (d : gmap string val) (k : string) : val :=
  default VNone (d !! k).

Definition dict_get_default (d : gmap string val) (k : string) (dflt : val) : val :=
  default dflt (d !! k).

(** [d[k]] on a dict. *)
Definition dict_item (d : gmap string val) (k : string) : Res val :=
  match d !! k with
  | Some v => Ok v
  | None => Raise KeyError
  end.

(** [v.get(k)] on an arbitrary value: only a dict has the method. *)
Definition get (v : val) (k : string) : Res val :=
  match v with
  | VDict d => Ok (dict_get d k)
  | _ => Raise AttributeError
  end.

(** [v[k]] with a string key. *)
Definition item (v : val) (k : string) : Res val :=
  match v with
  | VDict d => dict_item d k
  | _ => Raise TypeError
  end.

(** [v[i]] with an integer index inside the bounds or not; the dicts of
    this program have string keys only. *)
Definition index (v : val) (i : nat) : Res val :=
  match v with
  | VList l => match l !! i with Some x => Ok x | None => Raise IndexError end
  | VStr s => match String.get i s with
              | Some c => Ok (VStr (String c EmptyString))
              | None => Raise IndexError
              end
  | VDict _ => Raise KeyError
  | _ => Raise TypeError
  end.

(** [len(v)]. *)
Definition len (v : val) : Res nat :=
  match v with
  | VStr s => Ok (String.length s)
  | VList l => Ok (length l)
  | VDict d => Ok (size d)
  | _ => Raise TypeError
  end.

(** [s[:n]] on a string. *)
Definition str_take (n : nat) (s : string) : string := String.substring 0 n s.

(** [v[:n]]. *)
Definition slice_to (n : nat) (v : val) : Res val :=
  match v with
  | VStr s => Ok (VStr (str_take n s))
  | VList l => Ok (VList (take n l))
  | _ => Raise TypeError
  end.

(** [sep.join(l)]. *)
Fixpoint join (sep : string) (l : list string) : string :=
  match l with
  | [] => ""
  | [x] => x
  | x :: rest => x ++ sep ++ join sep rest
  end.

(** [ascii] stands for a code point below 256. *)
Definition code (c : ascii) : nat := nat_of_ascii c.

(** [c.lower()]: A-Z and the capital letters of Latin-1. *)
Definition lower_char (c : ascii) : ascii :=
  let n := code c in
  if ((65 <=? n) && (n <=? 90))%nat then ascii_of_nat (n + 32)
  else if ((192 <=? n) && (n <=? 222) && negb (n =? 215))%nat then ascii_of_nat (n + 32)
  else c.

Fixpoint lower (s : string) : string :=
  match s with
  | EmptyString => EmptyString
  | String c r => String (lower_char c) (lower r)
  end.

(** [needle in s]. *)
Fixpoint contains (needle s : string) : bool :=
  String.prefix needle s ||
  match s with
  | EmptyString => false
  | String _ r => contains needle r
  end.

(** [s.replace(old, "")] for a non-empty [old]: occurrences are removed
    from left to right, without overlap. *)
Fixpoint remove_fuel (fuel : nat) (old s : string) : string :=
  match fuel with
  | O => s
  | S fuel' =>
      match s with
      | EmptyString => EmptyString
      | String c r =>
          if String.prefix old s
          then remove_fuel fuel' old
                 (String.substring (String.length old)
                    (String.length s - String.length old) s)
          else String c (remove_fuel fuel' old r)
      end
  end.

Definition remove (old s : string) : string :=
  remove_fuel (S (String.length s)) old s.

(** Whitespace below code point 256, as [str.isspace] has it. *)
Definition is_space (c : ascii) : bool :=
  let n := code c in
  (((9 <=? n) && (n <=? 13)) || ((28 <=? n) && (n <=? 32))
   || (n =? 133) || (n =? 160))%nat.

Fixpoint lstrip_by (p : ascii -> bool) (s : string) : string :=
  match s with
  | EmptyString => EmptyString
  | String c r => if p c then lstrip_by p r else s
  end.

Definition strip_by (p : ascii -> bool) (s : string) : string :=
  String.rev (lstrip_by p (String.rev (lstrip_by p s))).

(** [s.strip()] and [s.strip('@')]. *)
Definition strip (s : string) : string := strip_by is_space s.
Definition strip_at (s : string) : string :=
  strip_by (fun c => Ascii.eqb c "@"%char) s.

(** [v.strip()]: a method of strings only. *)
Definition val_strip (v : val) : Res string :=
  match v with
  | VStr s => Ok (strip s)
  | _ => Raise AttributeError
  end.

(** [v + s] for a string [s]. *)
Definition add_str (v : val) (s : string) : Res val :=
  match v with
  | VStr t => Ok (VStr (t ++ s))
  | _ => Raise TypeError
  end.

(** [s.endswith("/")]. *)
Definition ends_with_slash (s : string) : bool :=
  match String.get (String.length s - 1) s with
  | Some c => Ascii.eqb c "/"%char
  | None => false
  end.

(** [os.path.join(a, b)] for a relative [b]. *)
Definition path_join (a b : string) : string :=
  if Nat.eqb (String.length a) 0 || ends_with_slash a then a ++ b
  else a ++ "/" ++ b.

(** The line feed of the source's [\n], and the double quote. *)
Definition nl : string := String "010"%char EmptyString.
Definition dq : string := String "034"%char EmptyString.

(** [for x in v]: the items the loop visits. The keys of a dict come in
    the order of the map, not of insertion. *)
Fixpoint chars (s : string) : list val :=
  match s with
  | EmptyString => []
  | String c r => VStr (String c EmptyString) :: chars r
  end.

Definition iter (v : val) : Res (list val) :=
  match v with
  | VList l => Ok l
  | VStr s => Ok (chars s)
  | VDict d => Ok (VStr <$> (map_to_list d).*1)
  | _ => Raise TypeError
  end.

End Py.
Export Py.

(** ** The world outside the process *)

(** An [article] element of the search page: what reading it gives.
    [find_element] raises [NoSuchElementException] when the sub-element is
    not there. *)
Record WebArticle : Type := {
  art_text : Res string;        (* article.text *)
  art_user_name : Res string;   (* text of the User-Name span holding an @ *)
  art_tweet_text : Res string;  (* text of the tweetText div *)
  art_href : Res string         (* href of the link selected by its href *)
}.

(** Every interaction with the outside takes the number of interactions
    made before it (the state's [clock]), so that an answer may change
    from one call to the next. *)
Record World : Type := {
  (* str() of a float, a list or a dict inside an f-string *)
  py_repr : val -> string;
  (* json.loads *)
  json_loads : string -> Res val;
  (* urllib.parse.quote *)
  url_quote : string -> string;
  (* the raw output of the random generator *)
  random_bits : nat -> N;
  (* POST to the generative service, body decoded: key, prompt *)
  gemini : nat -> val -> string -> Res val;
  (* GET newsapi.org/v2/everything, body decoded: q, apiKey, pageSize, sortBy *)
  newsapi : nat -> val -> val -> nat -> string -> Res val;
  (* urllib.request.urlretrieve: url, destination *)
  urlretrieve : nat -> val -> string -> Res unit;
  (* the file system *)
  getcwd : nat -> Res string;
  file_exists : nat -> val -> bool;
  os_remove : nat -> string -> Res unit;
  (* python-docx: whether it is installed, and the paragraphs of a file *)
  docx_available : bool;
  docx_paragraphs : nat -> val -> Res (list string);
  (* the browser *)
  edge_start : nat -> Res unit;
  login_flow : nat -> gmap string val -> Res unit;
  save_screenshot : nat -> Res unit;
  trending_page : nat -> Res (list (Res string));
  search_page : nat -> string -> Res (list WebArticle);
  compose_post : nat -> val -> option string -> Res unit;
  compose_reply : nat -> string -> val -> Res unit;
  driver_quit : nat -> Res unit
}.

(** ** State and effects *)

(** What the agent hands to the remote interaction surface. *)
Inductive Dispatch : Type :=
| Post (text : val) (image_path : option string)
| Reply (url : string) (text : val).

Record State : Type := {
  tweet_history : list string;       (* self.tweet_history *)
  driver : bool;                     (* self.driver is not None *)
  clock : nat;                       (* interactions with the world so far *)
  ai_calls : list string;            (* prompts given to call_ai_model, latest first *)
  log : list (string * string);      (* (level, message), latest first *)
  dispatched : list Dispatch         (* latest first *)
}.

Definition M (A : Type) : Type := State -> Res A * State.

#[global] Instance M_ret : MRet M := fun A a s => (Ok a, s).

#[global] Instance M_bind : MBind M := fun A B f m s =>
  match m s with
  | (Ok a, s') => f a s'
  | (Raise e, s') => (Raise e, s')
  end.

(** An expression that may raise, without effect. *)
Definition lift {A} (r : Res A) : M A := fun s => (r, s).

(** [try: body / except <the exceptions h accepts>: handler]. *)
Definition try_except {A} (body : M A) (h : exn -> option (M A)) : M A := fun s =>
  match body s with
  | (Ok a, s') => (Ok a, s')
  | (Raise e, s') =>
      match h e with
      | Some handler => handler s'
      | None => (Raise e, s')
      end
  end.

(** [except Exception]. *)
Definition any_exception {A} (handler : M A) : exn -> option (M A) :=
  fun _ => Some handler.

(** [except NoSuchElementException]. *)
Definition no_such_element {A} (handler : M A) : exn -> option (M A) :=
  fun e => match e with NoSuchElementException => Some handler | _ => None end.

(** [except (json.JSONDecodeError, AttributeError)]. *)
Definition decode_or_attribute {A} (handler : M A) : exn -> option (M A) :=
  fun e => match e with
           | JSONDecodeError | AttributeError => Some handler
           | _ => None
           end.

(** One interaction with the world: its number. *)
Definition tick : M nat := fun s =>
  (Ok (clock s),
   {| tweet_history := tweet_history s; driver := driver s;
      clock := S (clock s); ai_calls := ai_calls s; log := log s;
      dispatched := dispatched s |}).

Definition record_ai_call (prompt : string) : M unit := fun s =>
  (Ok tt,
   {| tweet_history := tweet_history s; driver := driver s;
      clock := clock s; ai_calls := prompt :: ai_calls s; log := log s;
      dispatched := dispatched s |}).

Definition record_dispatch (d : Dispatch) : M unit := fun s =>
  (Ok tt,
   {| tweet_history := tweet_history s; driver := driver s;
      clock := clock s; ai_calls := ai_calls s; log := log s;
      dispatched := d :: dispatched s |}).

Definition set_driver (b : bool) : M unit := fun s =>
  (Ok tt,
   {| tweet_history := tweet_history s; driver := b;
      clock := clock s; ai_calls := ai_calls s; log := log s;
      dispatched := dispatched s |}).

Definition get_state : M State := fun s => (Ok s, s).

(** [_log_message]: the timestamp and the text of a caught exception are
    left out of the recorded message. *)
Definition _log_message (message level : string) : M unit := fun s =>
  (Ok tt,
   {| tweet_history := tweet_history s; driver := driver s;
      clock := clock s; ai_calls := ai_calls s;
      log := (level, message) :: log s;
      dispatched := dispatched s |}).

(** ** The agent *)

(** The unit a strategy produces: the dict with the keys [text] and
    [query_for_image]. Both keys are always there, so the default of
    [content_package.get("query_for_image", text)] is never used. *)
Record ContentPackage : Type := {
  text : val;
  query_for_image : val
}.

(** The dict [_find_tweet_to_engage_with] returns. *)
Record EngagementTarget : Type := {
  author : string;
  target_text : string;
  url : string
}.

(** The bound methods [_get_generation_function] chooses from. *)
Inductive generation_function : Set :=
| analyze_and_generate_from_global_trends
| generate_from_news_article
| generate_from_word_file.

Definition TWITTER_CHAR_LIMIT : nat := 280.

(** [random.random()] returns a float [m / 2^53] with [0 <= m < 2^53];
    the model keeps the numerator [m]. *)
Definition two53 : Z := 2 ^ 53.

(** The literal [0.40] denotes the binary64 number
    [3602879701896397 / 2^53]; [below_0_40 m] is [m / 2^53 < 0.40]. *)
Definition literal_0_40 : Z := 3602879701896397.
Definition below_0_40 (m : Z) : bool := (m <? literal_0_40)%Z.

Section Agent.

Variable W : World.
Variables config secrets : gmap string val.

(** [HeadlessTwitterAgent(config, secrets)]: the state [__init__] leaves. *)
Definition __init__ : State :=
  {| tweet_history := []; driver := false; clock := 0; ai_calls := [];
     log := [("INFO", "Headless agent initialized.")]; dispatched := [] |}.

(** The value inside an f-string. *)
Definition format (v : val) : string :=
  match v with
  | VStr s => s
  | VNone => "None"
  | VBool true => "True"
  | VBool false => "False"
  | VInt z => pretty z
  | _ => py_repr W v
  end.

(** The random source: [randbelow n] for [0 < n], [random.random()]. *)
Definition randbelow (n : nat) : M nat :=
  k ← tick; mret (N.to_nat (random_bits W k) `mod` n).

Definition random_random : M Z :=
  k ← tick; mret (Z.of_N (random_bits W k) `mod` two53)%Z.

(** [random.choice(seq)]. *)
Definition random_choice (seq : val) : M val :=
  n ← lift (len seq);
  if Nat.eqb n 0 then lift (Raise IndexError)
  else i ← randbelow n; lift (index seq i).

(** [random.sample(population, k)] by the pool method of CPython: the
    picked slot is refilled with the last live element. (Above 85
    elements CPython draws positions until it meets an unused one; the
    lists it can return are the same.) *)
Fixpoint random_sample {A} (pool : list A) (k : nat) : M (list A) :=
  match k with
  | O => mret []
  | S k' =>
      j ← randbelow (length pool);
      match pool !! j, last pool with
      | Some x, Some y =>
          rest ← random_sample (take (length pool - 1) (<[j:=y]> pool)) k';
          mret (x :: rest)
      | _, _ => lift (Raise ValueError)
      end
  end.

(** [os.path.exists(path)]: [os.stat] refuses what is neither a path nor
    a file descriptor, and only [OSError] and [ValueError] are absorbed. *)
Definition os_path_exists (path : val) : M bool :=
  match path with
  | VStr _ | VBool _ => n ← tick; mret (file_exists W n path)
  | VInt z =>
      if ((- 2 ^ 31 <=? z) && (z <? 2 ^ 31))%Z
      then n ← tick; mret (file_exists W n path)
      else lift (Raise OverflowError)
  | _ => lift (Raise TypeError)
  end.

(** [call_ai_model]. *)
Definition call_ai_model (prompt : string) (skip_json_parse : bool) : M (option string) :=
  record_ai_call prompt;;
  try_except
    (key ← lift (dict_item secrets "GEMINI_API_KEY");
     n ← tick;
     result ← lift (gemini W n key prompt);
     candidates ← lift (get result "candidates");
     if truthy candidates then
       candidates ← lift (item result "candidates");
       first ← lift (index candidates 0);
       reason ← lift (get first "finishReason");
       if negb (eq_str reason "SAFETY") then
         content ← lift (item first "content");
         parts ← lift (item content "parts");
         part ← lift (index parts 0);
         raw ← lift (item part "text");
         text_response ← lift (val_strip raw);
         mret (Some (if skip_json_parse then text_response
                     else remove "```" (remove "```json" text_response)))
       else mret None
     else mret None)
    (any_exception (_log_message "Error calling AI model" "ERROR";; mret None)).

(** The prompt of [_truncate_or_summarize]. *)
Definition summarize_prompt (text : val) : string :=
  "Summarize the following text to be well under " ++ pretty TWITTER_CHAR_LIMIT
  ++ " characters for a tweet. Keep the original tone and key message."
  ++ nl ++ nl ++ "TEXT:" ++ nl ++ "---" ++ nl ++ format text.

(** [_truncate_or_summarize]. *)
Definition _truncate_or_summarize (text : val) : M val :=
  n ← lift (len text);
  if (n <=? TWITTER_CHAR_LIMIT)%nat then mret text
  else
    let prompt := summarize_prompt text in
    summarized_text ← call_ai_model prompt true;
    let hard :=
      head ← lift (slice_to (TWITTER_CHAR_LIMIT - 3) text);
      lift (add_str head "...") in
    match summarized_text with
    | None => hard
    | Some summary =>
        if Nat.eqb (String.length summary) 0
           || negb (String.length summary <=? TWITTER_CHAR_LIMIT)%nat
        then hard
        else mret (VStr summary)
    end.

(** [_create_master_prompt]. *)
Definition master_prompt (history_context task : string) (personality niche : val)
    (is_reply : bool) : string :=
  let output_json :=
    if is_reply
    then dq ++ "analysis" ++ dq ++ ": " ++ dq ++ "Justification for your reply." ++ dq
         ++ ", " ++ dq ++ "tweet_text" ++ dq ++ ": " ++ dq
         ++ "The reply text. DO NOT use @ mentions." ++ dq
    else dq ++ "analysis" ++ dq ++ ": " ++ dq ++ "A brief summary." ++ dq
         ++ ", " ++ dq ++ "tweet_text" ++ dq ++ ": " ++ dq
         ++ "The final tweet text." ++ dq in
  let main_task := "**TASK:** " ++ task in
  "**Persona:** You are a '" ++ format personality ++ "' expert in '" ++ format niche
  ++ "'." ++ nl ++ "**Your Recent Activity:**" ++ nl ++ history_context ++ nl
  ++ main_task ++ nl ++ "**Output Format (Strictly JSON):**" ++ nl ++ "```json" ++ nl
  ++ "{" ++ nl ++ "  " ++ output_json ++ nl ++ "}" ++ nl ++ "```".

Definition history_context (history : list string) : string :=
  match history with
  | [] => "No recent activity."
  | _ => join nl history
  end.

Definition _create_master_prompt (task : string) (personality niche : val)
    (is_reply : bool) : M string :=
  s ← get_state;
  mret (master_prompt (history_context (tweet_history s)) task personality niche is_reply).

(** [_create_engagement_prompt]. *)
Definition _create_engagement_prompt (target : EngagementTarget) : M string :=
  let niche := dict_get_default config "niche" (VStr "") in
  let personality := dict_get_default config "tone" (VStr "Thought Leader") in
  let task :=
    "You've found a tweet from @" ++ author target ++ " that says: " ++ dq
    ++ target_text target ++ dq ++ nl
    ++ "Your task is to write a valuable, insightful reply." in
  _create_master_prompt task personality niche true.

(** [_get_generation_function]: a list or a dict cannot be a key of
    [source_map]. *)
Definition _get_generation_function (mode : val) : M (option generation_function) :=
  if truthy (dict_get_default config "auto_niche" (VBool false))
  then mret (Some analyze_and_generate_from_global_trends)
  else
    match mode with
    | VStr m =>
        mret (if String.eqb m "strategic_mix" then Some analyze_and_generate_from_global_trends
              else if String.eqb m "post_only_controversy" then Some analyze_and_generate_from_global_trends
              else if String.eqb m "post_only_news" then Some generate_from_news_article
              else if String.eqb m "post_only_word" then Some generate_from_word_file
              else None)
    | VList _ | VDict _ => lift (Raise TypeError)
    | _ => mret None
    end.

(** [_download_image]. *)
Definition _download_image (image_url : val) : M (option string) :=
  try_except
    (n ← tick;
     cwd ← lift (getcwd W n);
     let image_path := path_join cwd "temp_post_image.jpg" in
     n ← tick;
     lift (urlretrieve W n image_url image_path);;
     present ← os_path_exists (VStr image_path);
     if (present : bool) then mret (Some image_path) else mret None)
    (any_exception (_log_message "Failed to download image" "ERROR";; mret None)).

(** [[article for article in articles if article.get("urlToImage")]]. *)
Fixpoint with_images (articles : list val) : Res (list val) :=
  match articles with
  | [] => Ok []
  | article :: rest =>
      match get article "urlToImage" with
      | Raise e => Raise e
      | Ok image =>
          match with_images rest with
          | Raise e => Raise e
          | Ok kept => Ok (if truthy image then article :: kept else kept)
          end
      end
  end.

(** [_get_image_from_newsapi]. *)
Definition _get_image_from_newsapi (query : val) : M (option string) :=
  let api_key := dict_get secrets "NEWSAPI_KEY" in
  if negb (truthy api_key) then mret None
  else
    try_except
      (n ← tick;
       api_data ← lift (newsapi W n query api_key 20 "relevancy");
       status ← lift (get api_data "status");
       if negb (eq_str status "ok") then mret None
       else
         articles ← lift (get api_data "articles");
         if negb (truthy articles) then mret None
         else
           articles ← lift (item api_data "articles");
           visited ← lift (iter articles);
           articles_with_images ← lift (with_images visited);
           if negb (truthy (VList articles_with_images)) then mret None
           else
             chosen ← random_choice (VList articles_with_images);
             image_url ← lift (item chosen "urlToImage");
             _download_image image_url)
      (any_exception (_log_message "Error fetching image from NewsAPI" "ERROR";; mret None)).

(** [_cleanup_temp_image]. *)
Definition _cleanup_temp_image (image_path : option string) : M unit :=
  match image_path with
  | None => mret tt
  | Some path =>
      if negb (truthy (VStr path)) then mret tt
      else
        present ← os_path_exists (VStr path);
        if (present : bool) then
          try_except (n ← tick; lift (os_remove W n path))
            (any_exception (_log_message "Could not delete temp image" "WARN"))
        else mret tt
  end.

(** [_generate_from_news_article]. *)
Definition _generate_from_news_article : M (option ContentPackage) :=
  let api_key := dict_get secrets "NEWSAPI_KEY" in
  let niche := dict_get config "niche" in
  if negb (truthy api_key) then mret None
  else
    try_except
      (n ← tick;
       api_data ← lift (newsapi W n niche api_key 50 "publishedAt");
       status ← lift (get api_data "status");
       if negb (eq_str status "ok") then mret None
       else
         articles ← lift (get api_data "articles");
         if negb (truthy articles) then mret None
         else
           articles ← lift (item api_data "articles");
           chosen ← random_choice articles;
           headline ← lift (get chosen "title");
           if negb (truthy headline) then mret None
           else
             let task := "Analyze this news headline: '" ++ format headline
                         ++ "'. Formulate an insightful tweet about it." in
             prompt ← _create_master_prompt task (dict_get config "tone") niche false;
             response_json ← call_ai_model prompt false;
             match response_json with
             | None => mret None
             | Some response =>
                 if negb (truthy (VStr response)) then mret None
                 else
                   parsed ← lift (json_loads W response);
                   tweet_text ← lift (get parsed "tweet_text");
                   mret (Some {| text := tweet_text; query_for_image := headline |})
             end)
      (any_exception (_log_message "Error in News engine" "ERROR";; mret None)).

(** [[elem.text for elem in elements if elem.text]]: an element's text is
    the same at both reads. *)
Fixpoint texts_of (elements : list (Res string)) : Res (list string) :=
  match elements with
  | [] => Ok []
  | elem :: rest =>
      match elem with
      | Raise e => Raise e
      | Ok t =>
          match texts_of rest with
          | Raise e => Raise e
          | Ok kept => Ok (if truthy (VStr t) then t :: kept else kept)
          end
      end
  end.

(** [_analyze_and_generate_from_global_trends]. *)
Definition _analyze_and_generate_from_global_trends : M (option ContentPackage) :=
  try_except
    (n ← tick;
     elements ← lift (trending_page W n);
     trends_text_list ← lift (texts_of elements);
     match trends_text_list with
     | [] => mret None
     | _ =>
         let trends_blob := join nl trends_text_list in
         let task := "From these trends, find the most interesting one and write an engaging tweet:"
                     ++ nl ++ trends_blob in
         prompt ← _create_master_prompt task (dict_get config "tone") (VStr "Current Events") false;
         response_json ← call_ai_model prompt false;
         match response_json with
         | None => mret None
         | Some response =>
             if negb (truthy (VStr response)) then mret None
             else
               parsed ← lift (json_loads W response);
               tweet_text ← lift (get parsed "tweet_text");
               parsed ← lift (json_loads W response);
               analysis ← lift (get parsed "analysis");
               mret (Some {| text := tweet_text;
                             query_for_image := if truthy analysis then analysis else tweet_text |})
         end
     end)
    (any_exception (_log_message "Error in Trend Analysis engine" "ERROR";; mret None)).

(** [_generate_from_word_file]. *)
Definition _generate_from_word_file : M (option ContentPackage) :=
  let filepath := dict_get config "word_file_path" in
  if negb (truthy filepath) then mret None
  else
    present ← os_path_exists filepath;
    if negb present then mret None
    else
      try_except
        (if negb (docx_available W) then mret None
         else
           n ← tick;
           paragraphs ← lift (docx_paragraphs W n filepath);
           let content := join nl paragraphs in
           let task := "Create a compelling tweet that captures the main idea of this text:"
                       ++ nl ++ "---" ++ nl ++ str_take 4000 content in
           prompt ← _create_master_prompt task (dict_get config "tone") (VStr "document analysis") false;
           response_json ← call_ai_model prompt false;
           match response_json with
           | None => mret None
           | Some response =>
               if negb (truthy (VStr response)) then mret None
               else
                 parsed ← lift (json_loads W response);
                 tweet_text ← lift (get parsed "tweet_text");
                 query ← lift (slice_to 100 tweet_text);
                 mret (Some {| text := tweet_text; query_for_image := query |})
           end)
        (any_exception (_log_message "Error reading Word file" "ERROR";; mret None)).

(** Calling the bound method [_get_generation_function] returned. *)
Definition call_generation (g : generation_function) : M (option ContentPackage) :=
  match g with
  | analyze_and_generate_from_global_trends => _analyze_and_generate_from_global_trends
  | generate_from_news_article => _generate_from_news_article
  | generate_from_word_file => _generate_from_word_file
  end.

(** [_post_tweet_in_browser]: the hand-over is recorded, then the browser
    is driven. *)
Definition _post_tweet_in_browser (text : val) (image_path : option string) : M unit :=
  record_dispatch (Post text image_path);;
  try_except
    (n ← tick;
     lift (compose_post W n text image_path);;
     _log_message "Tweet sent." "SUCCESS")
    (any_exception (_log_message "Error posting on Twitter" "ERROR")).

(** [_reply_on_twitter]. *)
Definition _reply_on_twitter (url : string) (text : val) : M unit :=
  record_dispatch (Reply url text);;
  try_except
    (n ← tick;
     lift (compose_reply W n url text);;
     _log_message "Reply sent." "SUCCESS")
    (any_exception (_log_message "Error replying on Twitter" "ERROR")).

(** [urllib.parse.quote(v)]. *)
Definition quote (v : val) : Res string :=
  match v with
  | VStr s => Ok (url_quote W s)
  | _ => Raise TypeError
  end.

(** An item is flagged as promoted when the word occurs in its text. *)
Definition promoted (article_text : string) : bool :=
  contains "promoted" (lower article_text).

(** The body of the [try] inside the loop of [_find_tweet_to_engage_with]:
    [Some] is the returned dict, [None] falls through to the next item.
    The dict is built key by key, from left to right. *)
Definition inspect (article : WebArticle) : M (option EngagementTarget) :=
  article_text ← lift (art_text article);
  if negb (promoted article_text) then
    user_name ← lift (art_user_name article);
    tweet_text ← lift (art_tweet_text article);
    href ← lift (art_href article);
    mret (Some {| author := strip_at user_name; target_text := tweet_text; url := href |})
  else mret None.

(** The [for] loop over the sample. *)
Fixpoint engage_loop (sample : list WebArticle) : M (option EngagementTarget) :=
  match sample with
  | [] => mret None
  | article :: rest =>
      found ← try_except (inspect article) (no_such_element (mret None));
      match found with
      | Some target => mret (Some target)
      | None => engage_loop rest
      end
  end.

(** [_find_tweet_to_engage_with]. *)
Definition _find_tweet_to_engage_with : M (option EngagementTarget) :=
  try_except
    (let niche := dict_get_default config "niche" (VStr "") in
     search_url ← (if truthy niche
                   then quoted ← lift (quote niche);
                        mret ("https://x.com/search?q=" ++ quoted ++ "&src=typed_query&f=live")
                   else mret "https://x.com/home");
     n ← tick;
     articles ← lift (search_page W n search_url);
     sample ← random_sample articles (min (length articles) 10);
     engage_loop sample)
    (any_exception (_log_message "Error finding tweet" "ERROR";; mret None)).

(** The trailer step shared by both actions:
    [if self.config.get("required_text"): text = f"{text}\n\n{...}"]. *)
Definition append_required_text (text : val) : M val :=
  if truthy (dict_get config "required_text") then
    required ← lift (dict_item config "required_text");
    mret (VStr (format text ++ nl ++ nl ++ format required))
  else mret text.

(** [perform_post_action]. *)
Definition perform_post_action (mode : val) : M unit :=
  generation ← _get_generation_function mode;
  match generation with
  | None => mret tt
  | Some g =>
      content_package ← call_generation g;
      match content_package with
      | None => _log_message "Content engine failed to return content." "WARN"
      | Some package =>
          if truthy (text package) then
            enforced ← _truncate_or_summarize (text package);
            image_path ← (if truthy (dict_get_default config "attach_image" (VBool false))
                          then _get_image_from_newsapi (query_for_image package)
                          else mret None);
            final ← append_required_text enforced;
            _post_tweet_in_browser final image_path;;
            _cleanup_temp_image image_path
          else mret tt
      end
  end.

(** [perform_reply_action]. *)
Definition perform_reply_action : M unit :=
  target ← _find_tweet_to_engage_with;
  match target with
  | None => _log_message "Could not find content to engage with." "WARN"
  | Some target =>
      prompt ← _create_engagement_prompt target;
      response_json ← call_ai_model prompt false;
      match response_json with
      | None => mret tt
      | Some response =>
          if negb (truthy (VStr response)) then mret tt
          else
            try_except
              (parsed ← lift (json_loads W response);
               tweet_text ← lift (get parsed "tweet_text");
               if truthy tweet_text then
                 enforced ← _truncate_or_summarize tweet_text;
                 final ← append_required_text enforced;
                 _reply_on_twitter (url target) final
               else mret tt)
              (decode_or_attribute
                 (_log_message "Failed to parse AI JSON for engagement." "ERROR"))
      end
  end.

(** [_setup_driver]. *)
Definition _setup_driver : M bool :=
  _log_message "Setting up headless browser..." "INFO";;
  try_except
    (n ← tick;
     lift (edge_start W n);;
     set_driver true;;
     _log_message "Headless browser started successfully." "INFO";;
     mret true)
    (any_exception
       (_log_message "CRITICAL: Could not start headless browser" "ERROR";; mret false)).

(** [_login_to_twitter]: the steps of the form are one interaction, and
    of the progress messages the first and the last are recorded; the
    screenshot is taken in the handler, where nothing catches what it
    raises. *)
Definition _login_to_twitter : M bool :=
  _log_message "Attempting to log in to X.com..." "INFO";;
  try_except
    (n ← tick;
     lift (login_flow W n secrets);;
     _log_message "Login successful." "SUCCESS";;
     mret true)
    (any_exception
       (_log_message "Login failed" "ERROR";;
        n ← tick;
        lift (save_screenshot W n);;
        mret false)).

(** [_shutdown_browser]. *)
Definition _shutdown_browser : M unit :=
  s ← get_state;
  if driver s then n ← tick; lift (driver_quit W n) else mret tt.

(** The action selector, lines 116-118 of [run_action_cycle]: the value
    of the variable [action_type]. *)
Definition action_type (mode : val) : M string :=
  if eq_str mode "strategic_mix" then
    draw ← random_random;
    mret (if below_0_40 draw then "reply" else "post")
  else if eq_str mode "reply_only" then mret "reply"
  else mret "post".

(** [run_action_cycle]. *)
Definition run_action_cycle : M unit :=
  started ← _setup_driver;
  if negb started then mret tt
  else
    logged_in ← _login_to_twitter;
    (if (logged_in : bool) then
       _log_message "--- New Action Cycle ---" "HEAD";;
       let mode := dict_get_default config "action_mode" (VStr "strategic_mix") in
       action ← action_type mode;
       if String.eqb action "reply" then perform_reply_action
       else perform_post_action mode
     else mret tt);;
    _shutdown_browser.

End Agent.

(** ** Worlds to run the agent in *)

(** A world in which nothing outside answers: every service and every
    browser step fails, no file exists, the random source gives zeros. *)
Definition silent_world : World :=
  {| py_repr := fun _ => "<object>";
     json_loads := fun _ => Raise JSONDecodeError;
     url_quote := fun s => s;
     random_bits := fun _ => 0%N;
     gemini := fun _ _ _ => Raise URLError;
     newsapi := fun _ _ _ _ _ => Raise URLError;
     urlretrieve := fun _ _ _ => Raise URLError;
     getcwd := fun _ => Ok "/work";
     file_exists := fun _ _ => false;
     os_remove := fun _ _ => Raise OSError;
     docx_available := false;
     docx_paragraphs := fun _ _ => Raise OSError;
     edge_start := fun _ => Raise WebDriverException;
     login_flow := fun _ _ => Raise TimeoutException;
     save_screenshot := fun _ => Ok tt;
     trending_page := fun _ => Raise TimeoutException;
     search_page := fun _ _ => Raise TimeoutException;
     compose_post := fun _ _ _ => Raise TimeoutException;
     compose_reply := fun _ _ _ => Raise TimeoutException;
     driver_quit := fun _ => Ok tt |}.

(** [c * n]: the string of [n] copies of [c]. *)
Fixpoint repeat_char (c : ascii) (n : nat) : string :=
  match n with
  | O => EmptyString
  | S n' => String c (repeat_char c n')
  end.

(** A world in which the browser works and the services answer as
    staged: the random source, the body the generative service sends, the
    JSON parser, the body the news provider sends, the trending page and
    the search page. *)
Definition staged_world (bits : nat -> N) (ai : Res val) (parse : string -> Res val)
    (news : Res val) (trends : Res (list (Res string)))
    (found : Res (list WebArticle)) : World :=
  {| py_repr := fun _ => "<object>";
     json_loads := parse;
     url_quote := fun s => s;
     random_bits := bits;
     gemini := fun _ _ _ => ai;
     newsapi := fun _ _ _ _ _ => news;
     urlretrieve := fun _ _ _ => Raise URLError;
     getcwd := fun _ => Ok "/work";
     file_exists := fun _ _ => false;
     os_remove := fun _ _ => Raise OSError;
     docx_available := false;
     docx_paragraphs := fun _ _ => Raise OSError;
     edge_start := fun _ => Ok tt;
     login_flow := fun _ _ => Ok tt;
     save_screenshot := fun _ => Ok tt;
     trending_page := fun _ => trends;
     search_page := fun _ _ => found;
     compose_post := fun _ _ _ => Ok tt;
     compose_reply := fun _ _ _ => Ok tt;
     driver_quit := fun _ => Ok tt |}.

(** The silent services with a given random source. *)
Definition with_random (bits : nat -> N) : World :=
  staged_world bits (Raise URLError) (fun _ => Raise JSONDecodeError) (Raise URLError)
    (Raise TimeoutException) (Raise TimeoutException).

(** The body of a successful answer of the generative service. *)
Definition gemini_body (reply : string) : val :=
  VDict {[ "candidates" :=
    VList [ VDict {[ "content" :=
      VDict {[ "parts" := VList [ VDict {[ "text" := VStr reply ]} ] ]} ]} ] ]}.

(** A parser that knows one document. *)
Definition parse_only (document : string) (value : val) : string -> Res val :=
  fun r => if String.eqb r document then Ok value else Raise JSONDecodeError.

(** Secrets as the entry point builds them. *)
Definition all_secrets : gmap string val :=
  {[ "GEMINI_API_KEY" := VStr "g-key"; "NEWSAPI_KEY" := VStr "n-key";
     "TWITTER_USERNAME" := VStr "bot"; "TWITTER_PASSWORD" := VStr "pw" ]}.

(** The trending page shows one topic and the service answers with an
    object that has an empty analysis and no text. *)
Definition analysis_only_reply : string :=
  "{" ++ dq ++ "analysis" ++ dq ++ ": " ++ dq ++ dq ++ "}".

Definition analysis_only_world : World :=
  staged_world (fun _ => 0%N) (Ok (gemini_body analysis_only_reply))
    (parse_only analysis_only_reply (VDict {[ "analysis" := VStr "" ]}))
    (Raise URLError) (Ok [Ok "#Rocq"]) (Raise TimeoutException).

(** The same page, and an answer with both fields. *)
Definition full_reply : string :=
  "{" ++ dq ++ "analysis" ++ dq ++ ": " ++ dq ++ "proof assistants" ++ dq ++ ", "
  ++ dq ++ "tweet_text" ++ dq ++ ": " ++ dq ++ "Proofs that run." ++ dq ++ "}".

Definition full_reply_value : val :=
  VDict {[ "analysis" := VStr "proof assistants"; "tweet_text" := VStr "Proofs that run." ]}.

Definition full_reply_world : World :=
  staged_world (fun _ => 0%N) (Ok (gemini_body full_reply))
    (parse_only full_reply full_reply_value)
    (Raise URLError) (Ok [Ok "#Rocq"]) (Raise TimeoutException).

(** The news provider returns one article. *)
Definition nasa_response : val :=
  VDict {[ "status" := VStr "ok";
           "articles" := VList [ VDict {[ "title" := VStr "NASA announces new mission" ]} ] ]}.

Definition nasa_world : World :=
  staged_world (fun _ => 7%N) (Ok (gemini_body full_reply))
    (parse_only full_reply full_reply_value)
    (Ok nasa_response) (Raise TimeoutException) (Raise TimeoutException).

Definition space_news_config : gmap string val :=
  {[ "action_mode" := VStr "post_only_news"; "niche" := VStr "space" ]}.

(** The service answers "Hello"; the configuration asks for a trailer. *)
Definition hello_reply : string :=
  "{" ++ dq ++ "analysis" ++ dq ++ ": " ++ dq ++ "greeting" ++ dq ++ ", "
  ++ dq ++ "tweet_text" ++ dq ++ ": " ++ dq ++ "Hello" ++ dq ++ "}".

Definition hello_world : World :=
  staged_world (fun _ => 0%N) (Ok (gemini_body hello_reply))
    (parse_only hello_reply
       (VDict {[ "analysis" := VStr "greeting"; "tweet_text" := VStr "Hello" ]}))
    (Raise URLError) (Ok [Ok "#Rocq"]) (Raise TimeoutException).

Definition bot_config : gmap string val :=
  {[ "action_mode" := VStr "post_only_controversy";
     "required_text" := VStr "Posted by Bot" ]}.

(** A search page with a promoted item, a suitable one and one whose
    link is not found. *)
Definition promoted_item : WebArticle :=
  {| art_text := Ok "Ads @ads Promoted Buy now";
     art_user_name := Ok "@ads";
     art_tweet_text := Ok "Buy now";
     art_href := Ok "https://x.com/ads/status/1" |}.

Definition good_item : WebArticle :=
  {| art_text := Ok "Bob @bob Verified software";
     art_user_name := Ok "@bob";
     art_tweet_text := Ok "Verified software";
     art_href := Ok "https://x.com/bob/status/2" |}.

Definition linkless_item : WebArticle :=
  {| art_text := Ok "Ann @ann Formal proofs";
     art_user_name := Ok "@ann";
     art_tweet_text := Ok "Formal proofs";
     art_href := Raise NoSuchElementException |}.

(** An item that went stale before its link was read. *)
Definition stale_item : WebArticle :=
  {| art_text := Ok "Cy @cy Type theory";
     art_user_name := Ok "@cy";
     art_tweet_text := Ok "Type theory";
     art_href := Raise StaleElementReferenceException |}.

Definition stale_world : World :=
  staged_world (fun _ => 0%N) (Raise URLError) (fun _ => Raise JSONDecodeError)
    (Raise URLError) (Raise TimeoutException)
    (Ok [stale_item; good_item]).

Definition search_world : World :=
  staged_world (fun _ => 0%N) (Raise URLError) (fun _ => Raise JSONDecodeError)
    (Raise URLError) (Raise TimeoutException)
    (Ok [promoted_item; good_item; linkless_item]).

(** The service answers with a text of 300 characters, also when it is
    asked to summarize. *)
Definition long_reply : string :=
  "{" ++ dq ++ "tweet_text" ++ dq ++ ": " ++ dq ++ repeat_char "A" 300 ++ dq ++ "}".

Definition long_world : World :=
  staged_world (fun _ => 0%N) (Ok (gemini_body long_reply))
    (parse_only long_reply (VDict {[ "tweet_text" := VStr (repeat_char "A" 300) ]}))
    (Raise URLError) (Ok [Ok "#Rocq"]) (Raise TimeoutException).

(** ** Vocabulary of the properties *)

(** A computation that always returns. *)
Definition returns {A} (m : M A) : Prop :=
  forall s, exists a s', m s = (Ok a, s').

(** The answer of the news provider to the request of
    [_generate_from_news_article] made in state [s]. *)
Definition news_response W (config secrets : gmap string val) (s : State) : Res val :=
  newsapi W (clock s) (dict_get config "niche") (dict_get secrets "NEWSAPI_KEY")
    50 "publishedAt".

(** The position [random.choice] picks among [n] articles in that run:
    the draw follows the request. *)
Definition chosen_index W (s : State) (n : nat) : nat :=
  N.to_nat (random_bits W (S (clock s))) `mod` n.

(** [m] keeps the state property [I], and what it returns satisfies [post]. *)
Definition yields {A} (I : State -> Prop) (m : M A) (post : A -> Prop) : Prop :=
  forall s, I s -> I (snd (m s)) /\ forall a, fst (m s) = Ok a -> post a.

Definition keeps {A} (I : State -> Prop) (m : M A) : Prop :=
  yields I m (fun _ => True).

(** The prompts the agent sends when its history is [history]: the
    resummarization request, or a prompt of the prompt builder that
    renders this history. *)
Definition agent_prompt W (history : list string) (prompt : string) : Prop :=
  (exists text, prompt = summarize_prompt W text)
  \/ (exists task personality niche is_reply,
        prompt = master_prompt W (history_context history) task personality niche is_reply).

(** The operations of the agent, with their arguments. *)
Inductive operation : Type :=
| op_log_message (message level : string)
| op_setup_driver
| op_login_to_twitter
| op_run_action_cycle
| op_perform_post_action (mode : val)
| op_perform_reply_action
| op_call_ai_model (prompt : string) (skip_json_parse : bool)
| op_truncate_or_summarize (text : val)
| op_get_generation_function (mode : val)
| op_get_image_from_newsapi (query : val)
| op_download_image (image_url : val)
| op_cleanup_temp_image (image_path : option string)
| op_generate_from_news_article
| op_analyze_and_generate_from_global_trends
| op_generate_from_word_file
| op_post_tweet_in_browser (text : val) (image_path : option string)
| op_reply_on_twitter (url : string) (text : val)
| op_find_tweet_to_engage_with
| op_create_engagement_prompt (target : EngagementTarget)
| op_create_master_prompt (task : string) (personality niche : val) (is_reply : bool)
| op_shutdown_browser.

(** Runs a computation for its effects. *)
Definition ignore {A} (m : M A) : M unit := m;; mret tt.

Definition invoke W (config secrets : gmap string val) (op : operation) : M unit :=
  match op with
  | op_log_message message level => _log_message message level
  | op_setup_driver => ignore (_setup_driver W)
  | op_login_to_twitter => ignore (_login_to_twitter W secrets)
  | op_run_action_cycle => run_action_cycle W config secrets
  | op_perform_post_action mode => perform_post_action W config secrets mode
  | op_perform_reply_action => perform_reply_action W config secrets
  | op_call_ai_model prompt skip => ignore (call_ai_model W secrets prompt skip)
  | op_truncate_or_summarize text => ignore (_truncate_or_summarize W secrets text)
  | op_get_generation_function mode => ignore (_get_generation_function config mode)
  | op_get_image_from_newsapi query => ignore (_get_image_from_newsapi W secrets query)
  | op_download_image image_url => ignore (_download_image W image_url)
  | op_cleanup_temp_image image_path => _cleanup_temp_image W image_path
  | op_generate_from_news_article => ignore (_generate_from_news_article W config secrets)
  | op_analyze_and_generate_from_global_trends =>
      ignore (_analyze_and_generate_from_global_trends W config secrets)
  | op_generate_from_word_file => ignore (_generate_from_word_file W config secrets)
  | op_post_tweet_in_browser text image_path => _post_tweet_in_browser W text image_path
  | op_reply_on_twitter url text => _reply_on_twitter W url text
  | op_find_tweet_to_engage_with => ignore (_find_tweet_to_engage_with W config)
  | op_create_engagement_prompt target => ignore (_create_engagement_prompt W config target)
  | op_create_master_prompt task personality niche is_reply =>
      ignore (_create_master_prompt W task personality niche is_reply)
  | op_shutdown_browser => _shutdown_browser W
  end.

(** The state after a sequence of operations, each run to its end
    whether it returns or raises. *)
Definition run_operations W (config secrets : gmap string val) (ops : list operation)
    (s : State) : State :=
  fold_left (fun st op => snd (invoke W config secrets op st)) ops s.

(** The hand-overs made so far are [sent]. *)
Definition same_dispatches (sent : list Dispatch) (s : State) : Prop :=
  dispatched s = sent.

(** The first of the three fields, in the order of extraction, that
    cannot be read, if any. *)
Definition first_failure (article : WebArticle) : option exn :=
  match art_user_name article with
  | Raise e => Some e
  | Ok _ =>
      match art_tweet_text article with
      | Raise e => Some e
      | Ok _ =>
          match art_href article with
          | Raise e => Some e
          | Ok _ => None
          end
      end
  end.

(** [target] was made from [article]: the item is not flagged as
    promoted and its author handle, body text and permalink were all
    extracted. *)
Definition suitable (article : WebArticle) (target : EngagementTarget) : Prop :=
  exists t user_name tweet_text href,
    art_text article = Ok t /\ promoted t = false
    /\ art_user_name article = Ok user_name
    /\ art_tweet_text article = Ok tweet_text
    /\ art_href article = Ok href
    /\ target = {| author := strip_at user_name; target_text := tweet_text; url := href |}.

(** The loop went on to the next item: an element was not found while
    reading the item, or the item is flagged as promoted, or one of its
    fields is not found. *)
Definition passed_over (article : WebArticle) : Prop :=
  art_text article = Raise NoSuchElementException
  \/ exists t, art_text article = Ok t
               /\ (promoted t = true \/ first_failure article = Some NoSuchElementException).

(** The address [_find_tweet_to_engage_with] opens: the live search for
    the niche, or the home timeline when no niche is configured. *)
Definition search_url W (config : gmap string val) : Res string :=
  let niche := dict_get_default config "niche" (VStr "") in
  if truthy niche then
    match quote W niche with
    | Ok quoted => Ok ("https://x.com/search?q=" ++ quoted ++ "&src=typed_query&f=live")
    | Raise e => Raise e
    end
  else Ok "https://x.com/home".

(** Reading the item fails with [e]: its text cannot be read, or the
    item is not flagged as promoted and [e] is the first failure among
    its three fields. *)
Definition reading_fails (article : WebArticle) (e : exn) : Prop :=
  art_text article = Raise e
  \/ exists t, art_text article = Ok t /\ promoted t = false
               /\ first_failure article = Some e.

(** The three ways out of the enforcer on a string: the text itself, an
    accepted summary, or the hard truncation. *)
Definition enforced_from (t out : string) : Prop :=
  (out = t /\ String.length t <= TWITTER_CHAR_LIMIT)
  \/ (TWITTER_CHAR_LIMIT < String.length t
      /\ 0 < String.length out <= TWITTER_CHAR_LIMIT)
  \/ (TWITTER_CHAR_LIMIT < String.length t
      /\ out = str_take (TWITTER_CHAR_LIMIT - 3) t ++ "...").

(** ** Vocabulary of the further properties *)

(** From a state with [P], [m] ends in a state with [Q], whether it
    returns or raises. *)
Definition leads {A} (P Q : State -> Prop) (m : M A) : Prop :=
  forall s, P s -> Q (snd (m s)).

(** [len(v)] exists and is within the limit. *)
Definition within_limit (v : val) : Prop :=
  exists n, len v = Ok n /\ n <= TWITTER_CHAR_LIMIT.

(** The calls to the AI and the hand-overs of [s'] are those of [s]. *)
Definition same_trace (s s' : State) : Prop :=
  ai_calls s' = ai_calls s /\ dispatched s' = dispatched s.

(** One hand-over [d] with [ok d] was made on top of [sent]. *)
Definition one_more (sent : list Dispatch) (ok : Dispatch -> Prop) (s : State) : Prop :=
  exists d, dispatched s = d :: sent /\ ok d.

(** A post, whose text is within the limit when no trailer is configured
    and which has no image when none is asked for. *)
Definition post_of (config : gmap string val) (d : Dispatch) : Prop :=
  exists t image_path,
    d = Post t image_path
    /\ (truthy (dict_get config "required_text") = false -> within_limit t)
    /\ (truthy (dict_get_default config "attach_image" (VBool false)) = false ->
        image_path = None).

(** A reply, with the same bound. *)
Definition reply_of (config : gmap string val) (d : Dispatch) : Prop :=
  exists u t,
    d = Reply u t
    /\ (truthy (dict_get config "required_text") = false -> within_limit t).

(** The body of a well-formed answer of the generative service has a
    first candidate that is not blocked and whose first part carries the
    text [raw]. *)
Definition answer_with (raw : string) (result : val) : Prop :=
  exists d candidate more content part more_parts,
    result = VDict d
    /\ d !! "candidates" = Some (VList (VDict candidate :: more))
    /\ dict_get candidate "finishReason" <> VStr "SAFETY"
    /\ candidate !! "content" = Some (VDict content)
    /\ content !! "parts" = Some (VList (VDict part :: more_parts))
    /\ part !! "text" = Some (VStr raw).

(** ** The entry point *)

(** What opening and loading [config.json] gives. *)
Inductive config_file : Type :=
| ConfigLoaded (config : val)
| ConfigNotFound
| ConfigUnreadable.

(** How the script ends: the cycle was run (what it raised is caught and
    printed as a fatal error), or the secrets check ended the process
    with [sys.exit(1)], or the configuration could not be loaded. *)
Inductive main_result : Type :=
| Ran (result : Res unit) (final : State)
| SecretsMissing
| NoConfig
| BadConfig.

(** [os.environ.get(name)]. *)
Definition from_env (env : string -> option string) (name : string) : val :=
  match env name with
  | Some value => VStr value
  | None => VNone
  end.

(** The [secrets] dict of the entry point. *)
Definition secrets_of (env : string -> option string) : gmap string val :=
  {[ "GEMINI_API_KEY" := from_env env "GEMINI_API_KEY";
     "NEWSAPI_KEY" := from_env env "NEWSAPI_KEY";
     "TWITTER_USERNAME" := from_env env "TWITTER_USERNAME";
     "TWITTER_PASSWORD" := from_env env "TWITTER_PASSWORD" ]}.

(** [all(secrets.values())]. *)
Definition all_values (d : gmap string val) : bool :=
  forallb truthy (map_to_list d).*2.

(** [run_action_cycle] of an agent built on any loaded configuration:
    what is not a dict has no [get]. *)
Definition run_action_cycle_on W (config : val) (secrets : gmap string val) : M unit :=
  match config with
  | VDict d => run_action_cycle W d secrets
  | _ =>
      started ← _setup_driver W;
      if negb started then mret tt
      else
        logged_in ← _login_to_twitter W secrets;
        (if (logged_in : bool) then
           _log_message "--- New Action Cycle ---" "HEAD";;
           lift (Raise AttributeError)
         else mret tt);;
        _shutdown_browser W
  end.

(** The [__main__] block. *)
Definition main W (file : config_file) (env : string -> option string) : main_result :=
  match file with
  | ConfigNotFound => NoConfig
  | ConfigUnreadable => BadConfig
  | ConfigLoaded config =>
      let secrets := secrets_of env in
      if negb (all_values secrets) then SecretsMissing
      else
        let (result, final) := run_action_cycle_on W config secrets __init__ in
        Ran result final
  end.

(** A world in which the browser starts and the login fails. *)
Definition locked_out_world : World :=
  {| py_repr := fun _ => "<object>";
     json_loads := fun _ => Raise JSONDecodeError;
     url_quote := fun s => s;
     random_bits := fun _ => 0%N;
     gemini := fun _ _ _ => Raise URLError;
     newsapi := fun _ _ _ _ _ => Raise URLError;
     urlretrieve := fun _ _ _ => Raise URLError;
     getcwd := fun _ => Ok "/work";
     file_exists := fun _ _ => false;
     os_remove := fun _ _ => Raise OSError;
     docx_available := false;
     docx_paragraphs := fun _ _ => Raise OSError;
     edge_start := fun _ => Ok tt;
     login_flow := fun _ _ => Raise TimeoutException;
     save_screenshot := fun _ => Ok tt;
     trending_page := fun _ => Raise TimeoutException;
     search_page := fun _ _ => Raise TimeoutException;
     compose_post := fun _ _ _ => Ok tt;
     compose_reply := fun _ _ _ => Ok tt;
     driver_quit := fun _ => Ok tt |}.

(** The service answers with a number where the text should be. *)
Definition numeric_reply : string := "{" ++ dq ++ "tweet_text" ++ dq ++ ": 5}".

Definition numeric_world : World :=
  staged_world (fun _ => 0%N) (Ok (gemini_body numeric_reply))
    (parse_only numeric_reply (VDict {[ "tweet_text" := VInt 5 ]}))
    (Raise URLError) (Ok [Ok "#Rocq"]) (Ok [good_item]).

(** The service answers "Hello" and the search page shows a suitable item. *)
Definition hello_search_world : World :=
  staged_world (fun _ => 0%N) (Ok (gemini_body hello_reply))
    (parse_only hello_reply
       (VDict {[ "analysis" := VStr "greeting"; "tweet_text" := VStr "Hello" ]}))
    (Raise URLError) (Ok [Ok "#Rocq"]) (Ok [promoted_item; good_item]).

(** The state in which the action of a cycle starts, after a successful
    start of the browser and login. *)
Definition action_start W (secrets : gmap string val) (s : State) : State :=
  snd (_log_message "--- New Action Cycle ---" "HEAD"
         (snd (_login_to_twitter W secrets (snd (_setup_driver W s))))).

(** The search page shows a suitable item and the service answers with
    prose that is not JSON. *)
Definition prose_world : World :=
  staged_world (fun _ => 0%N) (Ok (gemini_body "Sorry, I cannot help."))
    (fun _ => Raise JSONDecodeError)
    (Raise URLError) (Ok [Ok "#Rocq"]) (Ok [good_item]).

(** A world in which the news provider answers with two articles, one of
    them with an image, and the download leaves the file on disk. *)
Definition image_response : val :=
  VDict {[ "status" := VStr "ok";
           "articles" := VList [ VDict {[ "title" := VStr "No picture" ]};
                                 VDict {[ "title" := VStr "Moon";
                                          "urlToImage" := VStr "https://img.example/moon.jpg" ]} ] ]}.

Definition image_world : World :=
  {| py_repr := fun _ => "<object>";
     json_loads := fun _ => Raise JSONDecodeError;
     url_quote := fun s => s;
     random_bits := fun _ => 0%N;
     gemini := fun _ _ _ => Raise URLError;
     newsapi := fun _ _ _ _ _ => Ok image_response;
     urlretrieve := fun _ _ _ => Ok tt;
     getcwd := fun _ => Ok "/work";
     file_exists := fun _ _ => true;
     os_remove := fun _ _ => Ok tt;
     docx_available := false;
     docx_paragraphs := fun _ _ => Raise OSError;
     edge_start := fun _ => Ok tt;
     login_flow := fun _ _ => Ok tt;
     save_screenshot := fun _ => Ok tt;
     trending_page := fun _ => Raise TimeoutException;
     search_page := fun _ _ => Raise TimeoutException;
     compose_post := fun _ _ _ => Ok tt;
     compose_reply := fun _ _ _ => Ok tt;
     driver_quit := fun _ => Ok tt |}.

(** The names of the four secrets, and an environment that has them all. *)
Definition secret_names : list string :=
  ["GEMINI_API_KEY"; "NEWSAPI_KEY"; "TWITTER_USERNAME"; "TWITTER_PASSWORD"].

Definition full_env : string -> option string := fun _ => Some "secret".

(** A world in which the document is on disk, the reader is installed,
    and the service answers with both fields. *)
Definition document_world : World :=
  {| py_repr := fun _ => "<object>";
     json_loads := parse_only full_reply full_reply_value;
     url_quote := fun s => s;
     random_bits := fun _ => 0%N;
     gemini := fun _ _ _ => Ok (gemini_body full_reply);
     newsapi := fun _ _ _ _ _ => Raise URLError;
     urlretrieve := fun _ _ _ => Raise URLError;
     getcwd := fun _ => Ok "/work";
     file_exists := fun _ _ => true;
     os_remove := fun _ _ => Ok tt;
     docx_available := true;
     docx_paragraphs := fun _ _ => Ok ["Proof assistants check proofs."; "They run."];
     edge_start := fun _ => Ok tt;
     login_flow := fun _ _ => Ok tt;
     save_screenshot := fun _ => Ok tt;
     trending_page := fun _ => Raise TimeoutException;
     search_page := fun _ _ => Raise TimeoutException;
     compose_post := fun _ _ _ => Ok tt;
     compose_reply := fun _ _ _ => Ok tt;
     driver_quit := fun _ => Ok tt |}.

Definition document_config : gmap string val :=
  {[ "action_mode" := VStr "post_only_word"; "word_file_path" := VStr "notes.docx" ]}.

(** The task the document strategy gives the prompt builder. *)
Definition document_task (paragraphs : list string) : string :=
  "Create a compelling tweet that captures the main idea of this text:"
  ++ nl ++ "---" ++ nl ++ str_take 4000 (join nl paragraphs).

(** * Properties *)

(** ** Strings *)

Lemma str_length_app (a b : string) :
  String.length (a ++ b) = String.length a + String.length b.
Proof. induction a as [|c a IH]; simpl; [reflexivity | now rewrite IH]. Qed.

Lemma str_length_take (n : nat) (s : string) :
  String.length (str_take n s) = min n (String.length s).
Proof.
  unfold str_take. revert s.
  induction n as [|n IH]; intros [|c s]; simpl; try reflexivity.
  now rewrite IH.
Qed.

Lemma length_repeat_char (c : ascii) (n : nat) :
  String.length (repeat_char c n) = n.
Proof. induction n; simpl; congruence. Qed.

(** The string operations on small inputs. *)
Example strip_example : strip ("  " ++ nl ++ "a b " ++ nl) = "a b".
Proof. reflexivity. Qed.

Example strip_at_example : strip_at "@@bob@" = "bob".
Proof. reflexivity. Qed.

Example remove_fences_example :
  remove "```" (remove "```json" ("```json" ++ nl ++ "{}" ++ nl ++ "```")) = nl ++ "{}" ++ nl.
Proof. reflexivity. Qed.

Example remove_no_overlap_example : remove "ab" "aabb" = "ab" /\ remove "aa" "aaa" = "a".
Proof. split; reflexivity. Qed.

Example promoted_example :
  promoted "Ads @ads PROMOTED" = true /\ promoted "Bob @bob promotes proofs" = false.
Proof. split; reflexivity. Qed.

Example join_example : join ", " ["a"; "b"; "c"] = "a, b, c".
Proof. reflexivity. Qed.

Example path_join_example :
  path_join "/work" "temp_post_image.jpg" = "/work/temp_post_image.jpg"
  /\ path_join "/" "temp_post_image.jpg" = "/temp_post_image.jpg".
Proof. split; reflexivity. Qed.

(** ** Running a computation *)

Lemma run_bind {A B} (m : M A) (f : A -> M B) (s : State) :
  (m ≫= f) s = match m s with
               | (Ok a, s') => f a s'
               | (Raise e, s') => (Raise e, s')
               end.
Proof. reflexivity. Qed.

Lemma run_bind_ok {A B} (m : M A) (f : A -> M B) (s s' : State) (a : A) :
  m s = (Ok a, s') -> (m ≫= f) s = f a s'.
Proof. intros H. rewrite run_bind, H. reflexivity. Qed.

Lemma run_ret {A} (a : A) (s : State) : (mret a : M A) s = (Ok a, s).
Proof. reflexivity. Qed.

Lemma returns_ret {A} (a : A) : returns (mret a : M A).
Proof. intros s. now exists a, s. Qed.

Lemma returns_bind {A B} (m : M A) (f : A -> M B) :
  returns m -> (forall a, returns (f a)) -> returns (m ≫= f).
Proof.
  intros Hm Hf s. destruct (Hm s) as (a & s' & E).
  rewrite (run_bind_ok _ _ _ _ _ E). apply Hf.
Qed.

Lemma returns_log (message level : string) : returns (_log_message message level).
Proof. intros s. eexists _, _. reflexivity. Qed.

(** [try: ... except Exception: ...] returns as soon as its handler does. *)
Lemma returns_try_any {A} (body handler : M A) :
  returns handler -> returns (try_except body (any_exception handler)).
Proof.
  intros Hh s. unfold try_except.
  destruct (body s) as [[a|e] s']; simpl; [now exists a, s' | apply Hh].
Qed.

Lemma call_ai_model_returns W secrets prompt skip :
  returns (call_ai_model W secrets prompt skip).
Proof.
  unfold call_ai_model. apply returns_bind.
  - intros s. eexists _, _. reflexivity.
  - intros _. apply returns_try_any, returns_bind.
    + apply returns_log.
    + intros _. apply returns_ret.
Qed.

(** ** The length enforcer *)

(** The deterministic fallback has exactly 280 characters on a text
    longer than the limit. *)
Lemma hard_truncation_length (t : string) :
  TWITTER_CHAR_LIMIT < String.length t ->
  String.length (str_take (TWITTER_CHAR_LIMIT - 3) t ++ "...") = TWITTER_CHAR_LIMIT.
Proof.
  intros H. rewrite str_length_app, str_length_take. unfold TWITTER_CHAR_LIMIT in *.
  cbn [String.length]. lia.
Qed.

(** What [_truncate_or_summarize] does on a string longer than the limit,
    by the answer of the resummarization call. *)
Lemma truncate_long W secrets (t : string) (s s1 : State) (answer : option string) :
  TWITTER_CHAR_LIMIT < String.length t ->
  call_ai_model W secrets (summarize_prompt W (VStr t)) true s = (Ok answer, s1) ->
  _truncate_or_summarize W secrets (VStr t) s =
    (Ok (VStr (match answer with
               | Some summary =>
                   if Nat.eqb (String.length summary) 0
                      || negb (String.length summary <=? TWITTER_CHAR_LIMIT)%nat
                   then str_take (TWITTER_CHAR_LIMIT - 3) t ++ "..."
                   else summary
               | None => str_take (TWITTER_CHAR_LIMIT - 3) t ++ "..."
               end)), s1).
Proof.
  intros Hlen Hcall. unfold _truncate_or_summarize.
  rewrite run_bind. unfold lift at 1. cbn [len].
  destruct (Nat.leb_spec (String.length t) TWITTER_CHAR_LIMIT) as [Hle|_]; [lia|].
  cbv zeta. rewrite (run_bind_ok _ _ _ _ _ Hcall).
  destruct answer as [summary|]; [|reflexivity].
  destruct (Nat.eqb (String.length summary) 0
            || negb (String.length summary <=? TWITTER_CHAR_LIMIT)%nat); reflexivity.
Qed.

(** A text within the limit comes back as it is. *)
Lemma truncate_short W secrets (t : string) (s : State) :
  String.length t <= TWITTER_CHAR_LIMIT ->
  _truncate_or_summarize W secrets (VStr t) s = (Ok (VStr t), s).
Proof.
  intros H. unfold _truncate_or_summarize. rewrite run_bind. unfold lift. cbn [len].
  destruct (Nat.leb_spec (String.length t) TWITTER_CHAR_LIMIT) as [_|Hgt];
    [reflexivity | lia].
Qed.

Lemma truncate_cases W secrets (t : string) (s : State) :
  exists (out : string) (s' : State),
    _truncate_or_summarize W secrets (VStr t) s = (Ok (VStr out), s')
    /\ enforced_from t out.
Proof.
  destruct (Nat.le_gt_cases (String.length t) TWITTER_CHAR_LIMIT) as [Hle|Hgt].
  - exists t, s. split; [apply (truncate_short W secrets t s Hle)|]. left. now split.
  - destruct (call_ai_model_returns W secrets (summarize_prompt W (VStr t)) true s)
      as (answer & s1 & Hcall).
    eexists _, s1. split; [exact (truncate_long W secrets t s s1 answer Hgt Hcall)|].
    right. destruct answer as [summary|]; [|right; now split].
    destruct (Nat.eqb (String.length summary) 0) eqn:E0; cbn [orb]; [right; now split|].
    apply Nat.eqb_neq in E0.
    destruct (Nat.leb_spec (String.length summary) TWITTER_CHAR_LIMIT); cbn [negb];
      [left; split; [exact Hgt | lia] | right; now split].
Qed.

(** C9. The length enforcer is the identity on a text that already
    complies: for every string [t] of at most 280 characters
    [_truncate_or_summarize] returns [t] itself, without calling the AI or
    changing the state; applying it again to its result gives [t] again. *)
Theorem enforce_identity_on_short W secrets (t : string) (s : State) :
  String.length t <= 280 ->
  _truncate_or_summarize W secrets (VStr t) s = (Ok (VStr t), s)
  /\ (x ← _truncate_or_summarize W secrets (VStr t);
      _truncate_or_summarize W secrets x) s = (Ok (VStr t), s).
Proof.
  intros H. pose proof (truncate_short W secrets t s H) as E.
  split; [exact E|]. rewrite (run_bind_ok _ _ _ _ _ E). exact E.
Qed.

Lemma enforce_identity_on_short_witness :
  _truncate_or_summarize silent_world ∅ (VStr "Hello") __init__ = (Ok (VStr "Hello"), __init__).
Proof.
  refine (proj1 (enforce_identity_on_short silent_world ∅ "Hello" __init__ _)).
  simpl. lia.
Defined.

(** C1. For every input string the length enforcer returns a string of at
    most 280 characters, whatever the resummarization call does (fail,
    or answer with a text that is itself too long). *)
Theorem enforce_within_limit W secrets (t : string) (s : State) :
  exists (out : string) (s' : State),
    _truncate_or_summarize W secrets (VStr t) s = (Ok (VStr out), s')
    /\ String.length out <= 280.
Proof.
  destruct (truncate_cases W secrets t s) as (out & s' & Hrun & Hout).
  exists out, s'. split; [exact Hrun|].
  unfold enforced_from, TWITTER_CHAR_LIMIT in Hout.
  destruct Hout as [[-> Hle]|[[_ Hsum]|[Hgt ->]]].
  - exact Hle.
  - lia.
  - pose proof (hard_truncation_length t Hgt) as Hhard.
    unfold TWITTER_CHAR_LIMIT in Hhard. lia.
Qed.

(** C2. For every string longer than 280 characters, if the
    resummarization call returns nothing or a string longer than 280
    characters, the enforcer returns the first 277 characters of the
    original text followed by three dots, which is 280 characters long. *)
Theorem enforce_hard_truncation W secrets (t : string) (s s1 : State)
    (answer : option string) :
  280 < String.length t ->
  call_ai_model W secrets (summarize_prompt W (VStr t)) true s = (Ok answer, s1) ->
  (answer = None \/ exists summary, answer = Some summary /\ 280 < String.length summary) ->
  _truncate_or_summarize W secrets (VStr t) s = (Ok (VStr (str_take 277 t ++ "...")), s1)
  /\ String.length (str_take 277 t ++ "...") = 280.
Proof.
  intros Hlen Hcall Hans. split; [|exact (hard_truncation_length t Hlen)].
  rewrite (truncate_long W secrets t s s1 answer Hlen Hcall).
  destruct Hans as [->|(summary & -> & Hlong)]; [reflexivity|].
  destruct (Nat.leb_spec (String.length summary) TWITTER_CHAR_LIMIT) as [Hle|_];
    [unfold TWITTER_CHAR_LIMIT in Hle; lia|].
  now rewrite orb_true_r.
Qed.

Lemma enforce_hard_truncation_witness :
  _truncate_or_summarize silent_world ∅ (VStr (repeat_char "A" 300)) __init__ =
    (Ok (VStr (str_take 277 (repeat_char "A" 300) ++ "...")),
     snd (call_ai_model silent_world ∅
            (summarize_prompt silent_world (VStr (repeat_char "A" 300))) true __init__))
  /\ String.length (str_take 277 (repeat_char "A" 300) ++ "...") = 280.
Proof.
  apply (enforce_hard_truncation silent_world ∅ (repeat_char "A" 300) __init__ _ None).
  - rewrite length_repeat_char. lia.
  - vm_compute. reflexivity.
  - left. reflexivity.
Defined.

(** ** The action selector *)

Lemma eq_str_true (v : val) (k : string) : eq_str v k = true <-> v = VStr k.
Proof.
  destruct v; simpl; try (split; intros; congruence).
  rewrite String.eqb_eq. split; congruence.
Qed.

Lemma eq_str_false (v : val) (k : string) : v <> VStr k -> eq_str v k = false.
Proof.
  intros H. destruct (eq_str v k) eqn:E; [|reflexivity].
  apply eq_str_true in E. contradiction.
Qed.

(** On the floats [random.random()] can return, being below the literal
    [0.40] is being below four tenths. *)
Lemma below_0_40_exact (m : Z) :
  below_0_40 m = true <-> (10 * m < 4 * two53)%Z.
Proof.
  unfold below_0_40, literal_0_40, two53. rewrite Z.ltb_lt.
  change (2 ^ 53)%Z with 9007199254740992%Z. lia.
Qed.

(** C3. The action selector as a function of [action_mode] and of one
    uniform draw [m / 2^53]: under [reply_only] it yields "reply" and
    draws nothing; under [strategic_mix] it yields "reply" exactly when
    the draw is below 0.40 and "post" otherwise; under every other value
    of [action_mode] it yields "post" and draws nothing. *)
Theorem action_selector W (mode : val) (s : State) :
  (mode = VStr "reply_only" -> action_type W mode s = (Ok "reply", s))
  /\ (mode = VStr "strategic_mix" ->
      let m := (Z.of_N (random_bits W (clock s)) `mod` two53)%Z in
      (0 <= m < two53)%Z
      /\ ((10 * m < 4 * two53)%Z -> fst (action_type W mode s) = Ok "reply")
      /\ (~ (10 * m < 4 * two53)%Z -> fst (action_type W mode s) = Ok "post"))
  /\ (mode <> VStr "reply_only" -> mode <> VStr "strategic_mix" ->
      action_type W mode s = (Ok "post", s)).
Proof.
  split; [|split].
  - intros ->. reflexivity.
  - intros -> m. split; [apply Z.mod_pos_bound; reflexivity|].
    unfold action_type. cbn [eq_str String.eqb Ascii.eqb Bool.eqb andb].
    unfold random_random. rewrite !run_bind. cbn [tick fst snd].
    fold m. cbn -[below_0_40 m]. 
    destruct (below_0_40 m) eqn:E.
    + split; [reflexivity|]. intros Hn. apply below_0_40_exact in E. contradiction.
    + split; [|reflexivity]. intros Hlt. apply below_0_40_exact in Hlt. congruence.
  - intros H1 H2. unfold action_type.
    rewrite (eq_str_false _ _ H1), (eq_str_false _ _ H2). reflexivity.
Qed.

Lemma action_selector_witness :
  action_type silent_world (VStr "reply_only") __init__ = (Ok "reply", __init__)
  /\ fst (action_type (with_random (fun _ => 0%N)) (VStr "strategic_mix") __init__)
     = Ok "reply"
  /\ fst (action_type (with_random (fun _ => (2 ^ 52)%N)) (VStr "strategic_mix")
            __init__) = Ok "post"
  /\ action_type silent_world (VStr "post_only_news") __init__ = (Ok "post", __init__).
Proof.
  split; [|split; [|split]].
  - apply (action_selector silent_world (VStr "reply_only") __init__). reflexivity.
  - apply (action_selector (with_random (fun _ => 0%N))
             (VStr "strategic_mix") __init__); [reflexivity|].
    vm_compute. reflexivity.
  - apply (action_selector (with_random (fun _ => (2 ^ 52)%N))
             (VStr "strategic_mix") __init__); [reflexivity|].
    vm_compute. intros H. discriminate H.
  - apply (action_selector silent_world (VStr "post_only_news") __init__); intros H; discriminate H.
Defined.

(** ** Inverting a run *)

Lemma bind_ok_inv {A B} (m : M A) (f : A -> M B) s b s' :
  (m ≫= f) s = (Ok b, s') ->
  exists a s1, m s = (Ok a, s1) /\ f a s1 = (Ok b, s').
Proof.
  rewrite run_bind. destruct (m s) as [[a|e] s1]; [|discriminate].
  intros H. now exists a, s1.
Qed.

Lemma lift_ok_inv {A} (r : Res A) s a s' :
  lift r s = (Ok a, s') -> r = Ok a /\ s' = s.
Proof. unfold lift. intros H. injection H as -> ->. now split. Qed.

Lemma ret_ok_inv {A} (x : A) s a s' :
  (mret x : M A) s = (Ok a, s') -> a = x /\ s' = s.
Proof. rewrite run_ret. intros H. injection H as -> ->. now split. Qed.

Lemma tick_inv s n s' :
  tick s = (Ok n, s') -> n = clock s /\ s' = snd (tick s).
Proof. intros H. rewrite H. injection H as <- _. now split. Qed.

(** A [try] whose handler answers [None] yields a package only when
    its body does. *)
Lemma try_none_inv {A} (fallback : M unit) (h : M (option A)) s x s' :
  try_except h (any_exception (fallback;; mret None)) s = (Ok (Some x), s') ->
  h s = (Ok (Some x), s').
Proof.
  unfold try_except, any_exception. destruct (h s) as [[a|e] s1]; [easy|].
  rewrite run_bind. destruct (fallback s1) as [[u|e'] s2]; [|discriminate].
  rewrite run_ret. discriminate.
Qed.

(** Decomposes a hypothesis stating that a sequence of steps returned. *)
Tactic Notation "minv" hyp(H) "as" ident(a) ident(s1) ident(H1) :=
  apply bind_ok_inv in H; destruct H as (a & s1 & H1 & H); cbv beta in H.

(** The same when the first step is pure or a tick. *)
Tactic Notation "minv_lift" hyp(H) "as" ident(a) ident(E) :=
  let s1 := fresh "s" in
  let H1 := fresh "H" in
  apply bind_ok_inv in H; destruct H as (a & s1 & H1 & H); cbv beta in H;
  apply lift_ok_inv in H1; destruct H1 as [E ->].

Tactic Notation "minv_tick" hyp(H) :=
  let a := fresh "n" in
  let s1 := fresh "s" in
  let H1 := fresh "H" in
  apply bind_ok_inv in H; destruct H as (a & s1 & H1 & H); cbv beta in H;
  apply tick_inv in H1; destruct H1 as [-> ->].

(** Closes a goal whose hypothesis says that [mret None] gave [Some]. *)
Ltac ret_absurd H :=
  apply ret_ok_inv in H; destruct H as [H _]; discriminate H.

(** ** The strategies *)

Lemma get_ok_inv (v : val) (k : string) (x : val) :
  get v k = Ok x -> exists d, v = VDict d /\ x = dict_get d k.
Proof. destruct v; simpl; try discriminate. intros H. injection H as <-. eauto. Qed.

(** A non-success status or an empty list of articles ends the news
    strategy with nothing. *)
Lemma news_failure W config secrets s d :
  news_response W config secrets s = Ok (VDict d) ->
  dict_get d "status" <> VStr "ok" \/ truthy (dict_get d "articles") = false ->
  fst (_generate_from_news_article W config secrets s) = Ok None.
Proof.
  intros Hresp Hbad. unfold _generate_from_news_article.
  destruct (negb (truthy (dict_get secrets "NEWSAPI_KEY"))); [reflexivity|].
  unfold try_except. rewrite run_bind. cbn [tick fst snd].
  rewrite run_bind. unfold lift at 1. unfold news_response in Hresp. rewrite Hresp.
  rewrite run_bind. unfold lift at 1. cbn [get].
  destruct Hbad as [Hst|Hart].
  - rewrite (eq_str_false _ _ Hst). reflexivity.
  - destruct (eq_str (dict_get d "status") "ok"); [|reflexivity]. cbn [negb].
    rewrite run_bind. unfold lift at 1. rewrite Hart. reflexivity.
Qed.

(** So does an empty headline of the chosen article. *)
Lemma news_empty_headline W config secrets s d l a :
  news_response W config secrets s = Ok (VDict d) ->
  d !! "articles" = Some (VList l) ->
  l !! chosen_index W s (length l) = Some (VDict a) ->
  truthy (dict_get a "title") = false ->
  fst (_generate_from_news_article W config secrets s) = Ok None.
Proof.
  intros Hresp Harts Hl Htitle. unfold _generate_from_news_article.
  destruct (negb (truthy (dict_get secrets "NEWSAPI_KEY"))); [reflexivity|].
  unfold try_except. rewrite run_bind. cbn [tick fst snd].
  rewrite run_bind. unfold lift at 1. unfold news_response in Hresp. rewrite Hresp.
  rewrite run_bind. unfold lift at 1. cbn [get].
  destruct (negb (eq_str (dict_get d "status") "ok")); [reflexivity|].
  rewrite run_bind. unfold lift at 1.
  destruct (negb (truthy (dict_get d "articles"))) eqn:Et; [reflexivity|].
  rewrite run_bind. unfold lift at 1. cbn [item]. unfold dict_item. rewrite Harts.
  unfold random_choice. rewrite !run_bind. unfold lift at 1. cbn [len].
  destruct (Nat.eqb (length l) 0) eqn:E0.
  { apply Nat.eqb_eq in E0. apply length_zero_iff_nil in E0. subst l. discriminate Hl. }
  rewrite run_bind. unfold randbelow. rewrite run_bind. cbn [tick fst snd clock].
  rewrite run_ret. unfold lift at 1. cbn [index]. unfold chosen_index in Hl. rewrite Hl.
  rewrite run_bind. unfold lift at 1. cbn [get]. rewrite Htitle. reflexivity.
Qed.

(** A package of the news strategy carries the headline of the article
    the random choice fell on. *)
Lemma news_package W config secrets s pkg s' :
  _generate_from_news_article W config secrets s = (Ok (Some pkg), s') ->
  exists d articles n chosen,
    news_response W config secrets s = Ok (VDict d)
    /\ dict_get d "status" = VStr "ok"
    /\ d !! "articles" = Some articles
    /\ len articles = Ok n
    /\ index articles (chosen_index W s n) = Ok chosen
    /\ get chosen "title" = Ok (query_for_image pkg)
    /\ truthy (query_for_image pkg) = true.
Proof.
  unfold _generate_from_news_article. intros H.
  destruct (negb (truthy (dict_get secrets "NEWSAPI_KEY"))); [ret_absurd H|].
  apply try_none_inv in H.
  minv_tick H.
  minv_lift H as api_data E1.
  minv_lift H as status E2.
  destruct (negb (eq_str status "ok")) eqn:Est; [ret_absurd H|].
  minv_lift H as articles0 E3.
  destruct (negb (truthy articles0)); [ret_absurd H|].
  minv_lift H as articles E4.
  minv H as chosen s1 Hchoice.
  minv_lift H as headline E5.
  destruct (negb (truthy headline)) eqn:Eh; [ret_absurd H|].
  minv H as prompt s2 Hprompt. minv H as answer s3 Hcall.
  destruct answer as [response|]; [|ret_absurd H].
  destruct (negb (truthy (VStr response))); [ret_absurd H|].
  minv_lift H as parsed E6.
  minv_lift H as tweet_text E7.
  apply ret_ok_inv in H as [E8 ->]. injection E8 as ->.
  apply get_ok_inv in E2 as (d & -> & ->).
  apply negb_false_iff, eq_str_true in Est.
  cbn [item] in E4. unfold dict_item in E4.
  destruct (d !! "articles") as [x|] eqn:Ea; [|discriminate]. injection E4 as <-.
  unfold random_choice in Hchoice.
  minv_lift Hchoice as n En.
  destruct (Nat.eqb n 0); [apply lift_ok_inv in Hchoice as [? _]; discriminate|].
  minv Hchoice as i s4 Hrand.
  unfold randbelow in Hrand. minv_tick Hrand. apply ret_ok_inv in Hrand as [-> ->].
  apply lift_ok_inv in Hchoice as [Hidx ->].
  exists d, x, n, chosen. cbn [query_for_image]. apply negb_false_iff in Eh.
  repeat split; try assumption.
Qed.

(** C4. The news-derived strategy returns nothing when the provider's
    response has a non-success status or an empty article list, or when
    the headline of the randomly chosen article is empty; and whenever it
    produces a package, the package's [query_for_image] is the headline of
    the chosen article. In particular, when the provider returns the
    single article titled "NASA announces new mission", every package
    produced has that title as its [query_for_image]. *)
Theorem news_strategy W config secrets (s : State) :
  (forall d,
      news_response W config secrets s = Ok (VDict d) ->
      dict_get d "status" <> VStr "ok" \/ truthy (dict_get d "articles") = false ->
      fst (_generate_from_news_article W config secrets s) = Ok None)
  /\ (forall d l a,
      news_response W config secrets s = Ok (VDict d) ->
      d !! "articles" = Some (VList l) ->
      l !! chosen_index W s (length l) = Some (VDict a) ->
      truthy (dict_get a "title") = false ->
      fst (_generate_from_news_article W config secrets s) = Ok None)
  /\ (forall pkg s',
      _generate_from_news_article W config secrets s = (Ok (Some pkg), s') ->
      exists d articles n chosen,
        news_response W config secrets s = Ok (VDict d)
        /\ d !! "articles" = Some articles
        /\ len articles = Ok n
        /\ index articles (chosen_index W s n) = Ok chosen
        /\ get chosen "title" = Ok (query_for_image pkg))
  /\ (forall pkg s',
      news_response W config secrets s = Ok nasa_response ->
      _generate_from_news_article W config secrets s = (Ok (Some pkg), s') ->
      query_for_image pkg = VStr "NASA announces new mission").
Proof.
  split; [|split; [|split]].
  - intros d. apply news_failure.
  - intros d l a. apply news_empty_headline.
  - intros pkg s' H.
    destruct (news_package _ _ _ _ _ _ H) as (d & articles & n & chosen & H1 & _ & H2 & H3 & H4 & H5 & _).
    now exists d, articles, n, chosen.
  - intros pkg s' Hresp H.
    destruct (news_package _ _ _ _ _ _ H) as (d & articles & n & chosen & H1 & _ & H2 & H3 & H4 & H5 & _).
    rewrite Hresp in H1. injection H1 as <-.
    vm_compute in H2. injection H2 as <-.
    cbn [len length] in H3. injection H3 as <-.
    unfold chosen_index in H4. rewrite Nat.mod_1_r in H4.
    cbn in H4. injection H4 as <-.
    destruct pkg as [tweet query]. cbn [query_for_image] in *.
    vm_compute in H5. congruence.
Qed.

Lemma news_strategy_witness :
  exists pkg s',
    _generate_from_news_article nasa_world space_news_config all_secrets __init__
      = (Ok (Some pkg), s')
    /\ query_for_image pkg = VStr "NASA announces new mission".
Proof.
  eexists _, _. split; [vm_compute; reflexivity|].
  eapply (news_strategy nasa_world space_news_config all_secrets __init__);
    vm_compute; reflexivity.
Defined.

(** A package of the trend strategy: the text and analysis fields of
    the parsed answer, the image query being [analysis or text]. *)
Lemma trends_package W config secrets s pkg s' :
  _analyze_and_generate_from_global_trends W config secrets s = (Ok (Some pkg), s') ->
  exists prompt s1 response d,
    call_ai_model W secrets prompt false s1 = (Ok (Some response), s')
    /\ json_loads W response = Ok (VDict d)
    /\ text pkg = dict_get d "tweet_text"
    /\ query_for_image pkg =
         (if truthy (dict_get d "analysis") then dict_get d "analysis"
          else dict_get d "tweet_text").
Proof.
  unfold _analyze_and_generate_from_global_trends. intros H.
  apply try_none_inv in H.
  minv_tick H.
  minv_lift H as elements E1.
  minv_lift H as trends E2.
  destruct trends as [|t ts]; [ret_absurd H|].
  minv H as prompt s1 Hprompt. minv H as answer s2 Hcall.
  destruct answer as [response|]; [|ret_absurd H].
  destruct (negb (truthy (VStr response))); [ret_absurd H|].
  minv_lift H as parsed E3.
  minv_lift H as tweet_text E4.
  minv_lift H as parsed' E5.
  minv_lift H as analysis E6.
  apply ret_ok_inv in H as [E7 ->]. injection E7 as ->.
  rewrite E3 in E5. injection E5 as <-.
  apply get_ok_inv in E4 as (d & -> & ->).
  apply get_ok_inv in E6 as (d' & Ed & ->). injection Ed as <-.
  exists prompt, s1, response, d. auto.
Qed.

(** The run behind the counterexample: one trend on the page, and an
    answer that parses to an object with an empty analysis and no text.
    The package has [None] in both fields. *)
Example trends_analysis_only_run :
  fst (_analyze_and_generate_from_global_trends analysis_only_world ∅ all_secrets __init__)
  = Ok (Some {| text := VNone; query_for_image := VNone |}).
Proof. vm_compute. reflexivity. Qed.

(** C5 as stated does not hold: with no text available, the image query
    is not always the analysis field. When the analysis field is itself
    empty, the query is the (missing) text. *)
Lemma trends_query_counterexample :
  ~ (forall W config secrets s pkg s' prompt s1 response d,
        _analyze_and_generate_from_global_trends W config secrets s = (Ok (Some pkg), s') ->
        call_ai_model W secrets prompt false s1 = (Ok (Some response), s') ->
        json_loads W response = Ok (VDict d) ->
        truthy (dict_get d "tweet_text") = false ->
        query_for_image pkg = dict_get d "analysis").
Proof.
  intros claim.
  destruct (_analyze_and_generate_from_global_trends analysis_only_world ∅ all_secrets __init__)
    as [r s'] eqn:Hrun.
  assert (Hr : r = Ok (Some {| text := VNone; query_for_image := VNone |})).
  { change r with (fst (r, s')). rewrite <- Hrun. apply trends_analysis_only_run. }
  subst r.
  destruct (trends_package _ _ _ _ _ _ Hrun) as (prompt & s1 & response & d & Hcall & Hparse & _ & _).
  pose proof (claim _ _ _ _ _ _ _ _ _ _ Hrun Hcall Hparse) as Hq.
  unfold json_loads, analysis_only_world, staged_world, parse_only in Hparse.
  destruct (String.eqb response analysis_only_reply); [|discriminate].
  injection Hparse as <-.
  specialize (Hq eq_refl). vm_compute in Hq. discriminate Hq.
Qed.

(** C5, amended. For the trend-derived strategy, whenever a package is
    produced from an answer that parses to an object, [query_for_image]
    is the answer's analysis field when that field is non-empty, whether
    or not the text is available; when the analysis field is absent or
    empty, [query_for_image] is the text field. *)
Theorem trends_query_for_image W config secrets s pkg s' :
  _analyze_and_generate_from_global_trends W config secrets s = (Ok (Some pkg), s') ->
  exists prompt s1 response d,
    call_ai_model W secrets prompt false s1 = (Ok (Some response), s')
    /\ json_loads W response = Ok (VDict d)
    /\ text pkg = dict_get d "tweet_text"
    /\ (truthy (dict_get d "analysis") = true ->
        query_for_image pkg = dict_get d "analysis")
    /\ (truthy (dict_get d "analysis") = false ->
        query_for_image pkg = dict_get d "tweet_text").
Proof.
  intros H.
  destruct (trends_package _ _ _ _ _ _ H) as (prompt & s1 & response & d & H1 & H2 & H3 & H4).
  exists prompt, s1, response, d. repeat split; try assumption.
  - intros Ht. now rewrite Ht in H4.
  - intros Ht. now rewrite Ht in H4.
Qed.

Lemma trends_query_for_image_witness :
  exists prompt s1 response d,
    call_ai_model full_reply_world all_secrets prompt false s1
      = (Ok (Some response),
         snd (_analyze_and_generate_from_global_trends full_reply_world ∅ all_secrets __init__))
    /\ json_loads full_reply_world response = Ok (VDict d)
    /\ VStr "Proofs that run." = dict_get d "tweet_text"
    /\ (truthy (dict_get d "analysis") = true ->
        VStr "proof assistants" = dict_get d "analysis")
    /\ (truthy (dict_get d "analysis") = false ->
        VStr "proof assistants" = dict_get d "tweet_text").
Proof.
  apply (trends_query_for_image full_reply_world ∅ all_secrets __init__
           {| text := VStr "Proofs that run."; query_for_image := VStr "proof assistants" |}).
  vm_compute. reflexivity.
Defined.

(** ** Properties kept along a run *)

Create HintDb keeps discriminated.

Section Kept.

Variable W : World.
Variables config secrets : gmap string val.
Variable I : State -> Prop.
Variable sendable : string -> Prop.

Hypothesis I_tick : forall s, I s -> I (snd (tick s)).
Hypothesis I_log : forall message level s, I s -> I (snd (_log_message message level s)).
Hypothesis I_driver : forall b s, I s -> I (snd (set_driver b s)).
Hypothesis I_dispatch : forall d s, I s -> I (snd (record_dispatch d s)).
Hypothesis I_ai_call :
  forall prompt s, sendable prompt -> I s -> I (snd (record_ai_call prompt s)).
Hypothesis sendable_summary : forall text, sendable (summarize_prompt W text).
Hypothesis sendable_master :
  forall s task personality niche is_reply,
    I s ->
    sendable (master_prompt W (history_context (tweet_history s)) task personality niche
                is_reply).

Lemma yields_ret {A} (a : A) (post : A -> Prop) : post a -> yields I (mret a) post.
Proof. intros Hp s Hs. split; [exact Hs|]. intros a' E. injection E as <-. exact Hp. Qed.

Lemma keeps_ret {A} (a : A) : keeps I (mret a : M A).
Proof. now apply yields_ret. Qed.

Lemma keeps_lift {A} (r : Res A) : keeps I (lift r).
Proof. intros s Hs. now split. Qed.

Lemma keeps_bind_yields {A B} (m : M A) (f : A -> M B) (post : A -> Prop) :
  yields I m post -> (forall a, post a -> keeps I (f a)) -> keeps I (m ≫= f).
Proof.
  intros Hm Hf s Hs. destruct (Hm s Hs) as [Hi Hp]. rewrite run_bind.
  destruct (m s) as [[a|e] s1]; cbn [fst snd] in *; [|now split].
  apply (Hf a (Hp a eq_refl) s1 Hi).
Qed.

Lemma keeps_bind {A B} (m : M A) (f : A -> M B) :
  keeps I m -> (forall a, keeps I (f a)) -> keeps I (m ≫= f).
Proof. intros Hm Hf. apply (keeps_bind_yields m f (fun _ => True) Hm). auto. Qed.

Lemma keeps_try {A} (body : M A) (h : exn -> option (M A)) :
  keeps I body -> (forall e handler, h e = Some handler -> keeps I handler) ->
  keeps I (try_except body h).
Proof.
  intros Hb Hh s Hs. destruct (Hb s Hs) as [Hi _]. unfold try_except.
  destruct (body s) as [[a|e] s1]; cbn [fst snd] in *; [now split|].
  destruct (h e) as [handler|] eqn:E; [|now split].
  apply (Hh e handler E s1 Hi).
Qed.

Lemma keeps_try_any {A} (body handler : M A) :
  keeps I body -> keeps I handler -> keeps I (try_except body (any_exception handler)).
Proof. intros Hb Hh. apply keeps_try; [exact Hb|]. intros e h' E. now injection E as <-. Qed.

Lemma keeps_try_no_such_element {A} (body handler : M A) :
  keeps I body -> keeps I handler -> keeps I (try_except body (no_such_element handler)).
Proof.
  intros Hb Hh. apply keeps_try; [exact Hb|]. intros e h' E.
  destruct e; try discriminate. now injection E as <-.
Qed.

Lemma keeps_try_decode {A} (body handler : M A) :
  keeps I body -> keeps I handler -> keeps I (try_except body (decode_or_attribute handler)).
Proof.
  intros Hb Hh. apply keeps_try; [exact Hb|]. intros e h' E.
  destruct e; try discriminate; now injection E as <-.
Qed.

Lemma keeps_tick : keeps I tick.
Proof. intros s Hs. split; [now apply I_tick | trivial]. Qed.

Lemma keeps_log message level : keeps I (_log_message message level).
Proof. intros s Hs. split; [now apply I_log | trivial]. Qed.

Lemma keeps_set_driver b : keeps I (set_driver b).
Proof. intros s Hs. split; [now apply I_driver | trivial]. Qed.

Lemma keeps_record_dispatch d : keeps I (record_dispatch d).
Proof. intros s Hs. split; [now apply I_dispatch | trivial]. Qed.

Lemma keeps_record_ai_call prompt : sendable prompt -> keeps I (record_ai_call prompt).
Proof. intros Hp s Hs. split; [now apply I_ai_call | trivial]. Qed.

Lemma keeps_get_state : keeps I get_state.
Proof. intros s Hs. now split. Qed.

(** One step of a proof that a method keeps [I]. *)
Ltac keeps_step :=
  lazymatch goal with
  | |- keeps _ (mret _) => apply keeps_ret
  | |- keeps _ (lift _) => apply keeps_lift
  | |- keeps _ tick => apply keeps_tick
  | |- keeps _ get_state => apply keeps_get_state
  | |- keeps _ (_log_message _ _) => apply keeps_log
  | |- keeps _ (set_driver _) => apply keeps_set_driver
  | |- keeps _ (record_dispatch _) => apply keeps_record_dispatch
  | |- keeps _ (try_except _ (any_exception _)) => apply keeps_try_any
  | |- keeps _ (try_except _ (no_such_element _)) => apply keeps_try_no_such_element
  | |- keeps _ (try_except _ (decode_or_attribute _)) => apply keeps_try_decode
  | |- keeps _ (_ ≫= _) => apply keeps_bind; [|intros ?]
  | |- keeps _ (if ?b then _ else _) => destruct b
  | |- keeps _ (match ?x with _ => _ end) => destruct x
  | |- keeps _ (let _ := _ in _) => cbv zeta
  end.

Ltac keeps_auto := repeat (first [solve [auto 2 with keeps nocore] | keeps_step]).

Lemma keeps_randbelow n : keeps I (randbelow W n).
Proof. unfold randbelow. keeps_auto. Qed.

Hint Resolve keeps_randbelow : keeps.

Lemma keeps_random_random : keeps I (random_random W).
Proof. unfold random_random. keeps_auto. Qed.

Lemma keeps_random_choice seq : keeps I (random_choice W seq).
Proof. unfold random_choice. keeps_auto. Qed.

Lemma keeps_random_sample {A} (pool : list A) k : keeps I (random_sample W pool k).
Proof.
  revert pool. induction k as [|k IH]; intros pool; simpl; [apply keeps_ret|].
  apply keeps_bind; [apply keeps_randbelow|]. intros j.
  destruct (pool !! j); [|apply keeps_lift].
  destruct (last pool); [|apply keeps_lift].
  apply keeps_bind; [apply IH|]. intros rest. apply keeps_ret.
Qed.

Lemma keeps_os_path_exists path : keeps I (os_path_exists W path).
Proof. unfold os_path_exists. keeps_auto. Qed.

Lemma keeps_call_ai_model prompt skip :
  sendable prompt -> keeps I (call_ai_model W secrets prompt skip).
Proof.
  intros Hp. unfold call_ai_model.
  apply keeps_bind; [now apply keeps_record_ai_call|]. intros _.
  keeps_auto.
Qed.

Lemma keeps_truncate_or_summarize text : keeps I (_truncate_or_summarize W secrets text).
Proof.
  unfold _truncate_or_summarize.
  apply keeps_bind; [apply keeps_lift|]. intros n.
  destruct (n <=? TWITTER_CHAR_LIMIT)%nat; [apply keeps_ret|]. cbv zeta.
  apply keeps_bind; [apply keeps_call_ai_model, sendable_summary|]. intros answer.
  keeps_auto.
Qed.

Lemma yields_create_master_prompt task personality niche is_reply :
  yields I (_create_master_prompt W task personality niche is_reply) sendable.
Proof.
  intros s Hs. split; [exact Hs|]. intros a E. injection E as <-.
  now apply sendable_master.
Qed.

Lemma yields_create_engagement_prompt target :
  yields I (_create_engagement_prompt W config target) sendable.
Proof. apply yields_create_master_prompt. Qed.

Hint Resolve keeps_random_random keeps_random_choice keeps_random_sample
  keeps_os_path_exists keeps_truncate_or_summarize : keeps.

(** After a prompt of the builder, the call that sends it. *)
Ltac keeps_prompt_then_call :=
  lazymatch goal with
  | |- keeps _ (_create_master_prompt _ _ _ _ _ ≫= _) =>
      apply (keeps_bind_yields _ _ _ (yields_create_master_prompt _ _ _ _))
  | |- keeps _ (_create_engagement_prompt _ _ _ ≫= _) =>
      apply (keeps_bind_yields _ _ _ (yields_create_engagement_prompt _))
  end;
  let prompt := fresh "prompt" in
  let Hp := fresh "Hp" in
  intros prompt Hp;
  apply keeps_bind; [apply keeps_call_ai_model, Hp|]; intros ?.

Ltac keeps_method := repeat (first [keeps_prompt_then_call | solve [auto 2 with keeps nocore] | keeps_step]).

Lemma keeps_get_generation_function mode : keeps I (_get_generation_function config mode).
Proof. unfold _get_generation_function. keeps_method. Qed.

Lemma keeps_download_image image_url : keeps I (_download_image W image_url).
Proof. unfold _download_image. keeps_method. Qed.

Hint Resolve keeps_download_image : keeps.

Lemma keeps_get_image_from_newsapi query : keeps I (_get_image_from_newsapi W secrets query).
Proof. unfold _get_image_from_newsapi. keeps_method. Qed.

Lemma keeps_cleanup_temp_image image_path : keeps I (_cleanup_temp_image W image_path).
Proof. unfold _cleanup_temp_image. keeps_method. Qed.

Lemma keeps_generate_from_news_article :
  keeps I (_generate_from_news_article W config secrets).
Proof. unfold _generate_from_news_article. keeps_method. Qed.

Lemma keeps_analyze_and_generate_from_global_trends :
  keeps I (_analyze_and_generate_from_global_trends W config secrets).
Proof. unfold _analyze_and_generate_from_global_trends. keeps_method. Qed.

Lemma keeps_generate_from_word_file :
  keeps I (_generate_from_word_file W config secrets).
Proof. unfold _generate_from_word_file. keeps_method. Qed.

Lemma keeps_call_generation g : keeps I (call_generation W config secrets g).
Proof.
  destruct g; simpl;
    [apply keeps_analyze_and_generate_from_global_trends
    |apply keeps_generate_from_news_article
    |apply keeps_generate_from_word_file].
Qed.

Lemma keeps_inspect article : keeps I (inspect article).
Proof. unfold inspect. keeps_method. Qed.

Hint Resolve keeps_inspect : keeps.

Lemma keeps_engage_loop sample : keeps I (engage_loop sample).
Proof.
  induction sample as [|article rest IH]; simpl; [apply keeps_ret|].
  apply keeps_bind; [keeps_method|]. intros [target|]; [apply keeps_ret | exact IH].
Qed.

Hint Resolve keeps_engage_loop : keeps.

Lemma keeps_find_tweet_to_engage_with : keeps I (_find_tweet_to_engage_with W config).
Proof. unfold _find_tweet_to_engage_with. keeps_method. Qed.

Lemma keeps_append_required_text text : keeps I (append_required_text W config text).
Proof. unfold append_required_text. keeps_method. Qed.

Lemma keeps_post_tweet_in_browser text image_path :
  keeps I (_post_tweet_in_browser W text image_path).
Proof. unfold _post_tweet_in_browser. keeps_method. Qed.

Lemma keeps_reply_on_twitter url text : keeps I (_reply_on_twitter W url text).
Proof. unfold _reply_on_twitter. keeps_method. Qed.

Hint Resolve keeps_get_generation_function keeps_get_image_from_newsapi
  keeps_cleanup_temp_image keeps_call_generation keeps_find_tweet_to_engage_with
  keeps_append_required_text keeps_post_tweet_in_browser keeps_reply_on_twitter : keeps.

Lemma keeps_perform_post_action mode : keeps I (perform_post_action W config secrets mode).
Proof. unfold perform_post_action. keeps_method. Qed.

Lemma keeps_perform_reply_action : keeps I (perform_reply_action W config secrets).
Proof. unfold perform_reply_action. keeps_method. Qed.

Lemma keeps_setup_driver : keeps I (_setup_driver W).
Proof. unfold _setup_driver. keeps_method. Qed.

Lemma keeps_login_to_twitter : keeps I (_login_to_twitter W secrets).
Proof. unfold _login_to_twitter. keeps_method. Qed.

Lemma keeps_shutdown_browser : keeps I (_shutdown_browser W).
Proof. unfold _shutdown_browser. keeps_method. Qed.

Lemma keeps_action_type mode : keeps I (action_type W mode).
Proof. unfold action_type. keeps_method. Qed.

Hint Resolve keeps_perform_post_action keeps_perform_reply_action keeps_setup_driver
  keeps_login_to_twitter keeps_shutdown_browser keeps_action_type : keeps.

Lemma keeps_run_action_cycle : keeps I (run_action_cycle W config secrets).
Proof. unfold run_action_cycle. keeps_method. Qed.

End Kept.

(** ** Unavailable sources *)

Lemma returns_try_any_none {A} (body : M (option A)) message level :
  returns (try_except body (any_exception (_log_message message level;; mret None))).
Proof.
  apply returns_try_any, returns_bind; [apply returns_log | intros _; apply returns_ret].
Qed.

Lemma trends_returns W config secrets :
  returns (_analyze_and_generate_from_global_trends W config secrets).
Proof. apply returns_try_any_none. Qed.

Lemma news_returns W config secrets :
  returns (_generate_from_news_article W config secrets).
Proof.
  unfold _generate_from_news_article.
  destruct (negb (truthy (dict_get secrets "NEWSAPI_KEY")));
    [apply returns_ret | apply returns_try_any_none].
Qed.

Lemma find_returns W config : returns (_find_tweet_to_engage_with W config).
Proof. apply returns_try_any_none. Qed.

Lemma trends_unavailable W config secrets s :
  (exists e, trending_page W (clock s) = Raise e)
  \/ (exists elements, trending_page W (clock s) = Ok elements /\ texts_of elements = Ok []) ->
  exists s', _analyze_and_generate_from_global_trends W config secrets s = (Ok None, s')
             /\ ai_calls s' = ai_calls s.
Proof.
  intros H. unfold _analyze_and_generate_from_global_trends, try_except.
  rewrite run_bind. cbn [tick]. rewrite run_bind. unfold lift at 1.
  destruct H as [(e & ->)|(elements & -> & Ht)].
  - eexists. split; reflexivity.
  - rewrite run_bind. unfold lift at 1. rewrite Ht. eexists. split; reflexivity.
Qed.

Lemma news_unavailable W config secrets s :
  (exists e, news_response W config secrets s = Raise e)
  \/ (exists d, news_response W config secrets s = Ok (VDict d)
                /\ (dict_get d "status" <> VStr "ok" \/ truthy (dict_get d "articles") = false)) ->
  exists s', _generate_from_news_article W config secrets s = (Ok None, s')
             /\ ai_calls s' = ai_calls s.
Proof.
  intros H. unfold _generate_from_news_article.
  destruct (negb (truthy (dict_get secrets "NEWSAPI_KEY"))); [now exists s|].
  unfold try_except. rewrite run_bind. cbn [tick]. rewrite run_bind. unfold lift at 1.
  unfold news_response in H.
  destruct H as [(e & ->)|(d & -> & Hbad)].
  - eexists. split; reflexivity.
  - rewrite run_bind. unfold lift at 1. cbn [get].
    destruct Hbad as [Hst|Hart].
    + rewrite (eq_str_false _ _ Hst). eexists. split; reflexivity.
    + destruct (eq_str (dict_get d "status") "ok"); [|eexists; split; reflexivity].
      cbn [negb]. rewrite run_bind. unfold lift at 1. rewrite Hart.
      eexists. split; reflexivity.
Qed.

Lemma word_file_unset W config secrets s :
  truthy (dict_get config "word_file_path") = false ->
  _generate_from_word_file W config secrets s = (Ok None, s).
Proof. intros H. unfold _generate_from_word_file. now rewrite H. Qed.

Lemma word_file_missing W config secrets s path :
  dict_get config "word_file_path" = VStr path ->
  file_exists W (clock s) (VStr path) = false ->
  exists s', _generate_from_word_file W config secrets s = (Ok None, s')
             /\ ai_calls s' = ai_calls s.
Proof.
  intros Hp Hmiss. unfold _generate_from_word_file. rewrite Hp.
  destruct (negb (truthy (VStr path))); [now exists s|].
  rewrite run_bind. unfold os_path_exists. rewrite run_bind. cbn [tick]. rewrite run_ret.
  rewrite Hmiss. eexists. split; reflexivity.
Qed.

(** A configured path that is not a path at all, such as a list, is
    another matter: [os.path.exists] is called before the [try] and
    its [TypeError] reaches the caller. A number that is no file
    descriptor does the same with [OverflowError]. *)
Example word_file_path_not_a_path :
  fst (_generate_from_word_file silent_world
         {[ "word_file_path" := VList [VStr "notes.docx"] ]} all_secrets __init__)
  = Raise TypeError.
Proof. vm_compute. reflexivity. Qed.

Example word_file_path_too_large :
  fst (_generate_from_word_file silent_world
         {[ "word_file_path" := VInt (2 ^ 31) ]} all_secrets __init__)
  = Raise OverflowError.
Proof. vm_compute. reflexivity. Qed.

Lemma reply_without_target W config secrets s s1 :
  _find_tweet_to_engage_with W config s = (Ok None, s1) ->
  exists s', perform_reply_action W config secrets s = (Ok tt, s')
             /\ ai_calls s' = ai_calls s1 /\ dispatched s' = dispatched s1.
Proof.
  intros H. unfold perform_reply_action. rewrite (run_bind_ok _ _ _ _ _ H).
  eexists. repeat split.
Qed.

(** A strategy whose input source is unavailable returns nothing and
    does not raise: the trend strategy when the trending page fails to
    load or lists no topic, the news strategy when the request fails or
    the response has a non-success status or no article, the document
    strategy when the path is unset, or is a string and the file is
    missing, the reply action when no engagement target was found. None
    of these runs calls the AI, and with no configured path the document
    strategy leaves the state as it was. The trend strategy, the news
    strategy and the engagement discovery return in every world. *)
Theorem unavailable_source_returns_nothing W config secrets (s : State) :
  (returns (_analyze_and_generate_from_global_trends W config secrets)
   /\ returns (_generate_from_news_article W config secrets)
   /\ returns (_find_tweet_to_engage_with W config))
  /\ ((exists e, trending_page W (clock s) = Raise e)
      \/ (exists elements, trending_page W (clock s) = Ok elements
                           /\ texts_of elements = Ok []) ->
      exists s', _analyze_and_generate_from_global_trends W config secrets s = (Ok None, s')
                 /\ ai_calls s' = ai_calls s)
  /\ ((exists e, news_response W config secrets s = Raise e)
      \/ (exists d, news_response W config secrets s = Ok (VDict d)
                    /\ (dict_get d "status" <> VStr "ok"
                        \/ truthy (dict_get d "articles") = false)) ->
      exists s', _generate_from_news_article W config secrets s = (Ok None, s')
                 /\ ai_calls s' = ai_calls s)
  /\ (truthy (dict_get config "word_file_path") = false ->
      _generate_from_word_file W config secrets s = (Ok None, s))
  /\ (forall path,
      dict_get config "word_file_path" = VStr path ->
      file_exists W (clock s) (VStr path) = false ->
      exists s', _generate_from_word_file W config secrets s = (Ok None, s')
                 /\ ai_calls s' = ai_calls s)
  /\ (forall s1,
      _find_tweet_to_engage_with W config s = (Ok None, s1) ->
      exists s', perform_reply_action W config secrets s = (Ok tt, s')
                 /\ ai_calls s' = ai_calls s1 /\ dispatched s' = dispatched s1).
Proof.
  split; [split; [|split]|split; [|split; [|split; [|split]]]].
  - apply trends_returns.
  - apply news_returns.
  - apply find_returns.
  - apply trends_unavailable.
  - apply news_unavailable.
  - apply word_file_unset.
  - intros path. apply word_file_missing.
  - intros s1. apply reply_without_target.
Qed.

Lemma unavailable_source_returns_nothing_witness :
  _generate_from_word_file silent_world ∅ all_secrets __init__ = (Ok None, __init__)
  /\ (exists s', _analyze_and_generate_from_global_trends silent_world ∅ all_secrets __init__
                   = (Ok None, s')
                 /\ ai_calls s' = ai_calls __init__)
  /\ (exists s', _generate_from_word_file silent_world
                   {[ "word_file_path" := VStr "notes.docx" ]} all_secrets __init__
                   = (Ok None, s')
                 /\ ai_calls s' = ai_calls __init__).
Proof.
  split; [|split].
  - apply (unavailable_source_returns_nothing silent_world ∅ all_secrets __init__).
    reflexivity.
  - apply (unavailable_source_returns_nothing silent_world ∅ all_secrets __init__).
    left. exists TimeoutException. reflexivity.
  - apply (unavailable_source_returns_nothing silent_world
             {[ "word_file_path" := VStr "notes.docx" ]} all_secrets __init__)
      with (path := "notes.docx"); reflexivity.
Defined.



(** ** The history *)

(** No operation writes [tweet_history]. *)
Lemma invoke_keeps_history W config secrets (h : list string) (op : operation) :
  keeps (fun s => tweet_history s = h) (invoke W config secrets op).
Proof.
  set (I := fun s => tweet_history s = h).
  assert (Ht : forall s, I s -> I (snd (tick s))) by (intros s Hs; exact Hs).
  assert (Hl : forall m l s, I s -> I (snd (_log_message m l s))) by (intros m l s Hs; exact Hs).
  assert (Hd : forall b s, I s -> I (snd (set_driver b s))) by (intros b s Hs; exact Hs).
  assert (Hp : forall d s, I s -> I (snd (record_dispatch d s))) by (intros d s Hs; exact Hs).
  assert (Ha : forall p s, True -> I s -> I (snd (record_ai_call p s)))
    by (intros p s _ Hs; exact Hs).
  assert (Hs1 : forall text, (fun _ : string => True) (summarize_prompt W text)) by easy.
  assert (Hs2 : forall s task p n r, I s ->
            (fun _ : string => True)
              (master_prompt W (history_context (tweet_history s)) task p n r)) by easy.
  assert (Hignore : forall A (m : M A), keeps I m -> keeps I (ignore m)).
  { intros A m Hm. apply keeps_bind; [exact Hm|]. intros _. apply keeps_ret. }
  destruct op; cbn [invoke]; try apply Hignore.
  - now apply keeps_log.
  - now apply keeps_setup_driver.
  - now apply keeps_login_to_twitter.
  - now apply (keeps_run_action_cycle W config secrets I (fun _ => True)).
  - now apply (keeps_perform_post_action W config secrets I (fun _ => True)).
  - now apply (keeps_perform_reply_action W config secrets I (fun _ => True)).
  - now apply (keeps_call_ai_model W secrets I (fun _ => True)).
  - now apply (keeps_truncate_or_summarize W secrets I (fun _ => True)).
  - now apply keeps_get_generation_function.
  - now apply (keeps_get_image_from_newsapi W secrets I).
  - now apply keeps_download_image.
  - now apply keeps_cleanup_temp_image.
  - now apply (keeps_generate_from_news_article W config secrets I (fun _ => True)).
  - now apply (keeps_analyze_and_generate_from_global_trends W config secrets I (fun _ => True)).
  - now apply (keeps_generate_from_word_file W config secrets I (fun _ => True)).
  - now apply keeps_post_tweet_in_browser.
  - now apply keeps_reply_on_twitter.
  - now apply keeps_find_tweet_to_engage_with.
  - intros s Hs. now split.
  - intros s Hs. now split.
  - now apply keeps_shutdown_browser.
Qed.

Lemma run_operations_keeps_history W config secrets (ops : list operation) (s : State) :
  tweet_history (run_operations W config secrets ops s) = tweet_history s.
Proof.
  unfold run_operations. revert s.
  induction ops as [|op ops IH]; intros s; [reflexivity|]. cbn [fold_left].
  rewrite IH. now apply (invoke_keeps_history W config secrets (tweet_history s) op s).
Qed.

(** With an empty history, the cycle sends only prompts that carry
    the marker, or resummarization requests. *)
Lemma run_action_cycle_prompts W config secrets :
  keeps (fun s => tweet_history s = [] /\ Forall (agent_prompt W []) (ai_calls s))
        (run_action_cycle W config secrets).
Proof.
  apply (keeps_run_action_cycle W config secrets _ (agent_prompt W [])).
  - intros s Hs. exact Hs.
  - intros m l s Hs. exact Hs.
  - intros b s Hs. exact Hs.
  - intros d s Hs. exact Hs.
  - intros p s Hp [Hh Hf]. split; [exact Hh|]. cbn. now constructor.
  - intros t. left. now exists t.
  - intros s task p n r [Hh _]. right. rewrite Hh. now exists task, p, n, r.
Qed.

(** C10. The history list [tweet_history] is empty after [__init__] and
    no operation of the agent changes it; so in every state the agent
    can reach, the prompt builder renders the marker "No recent
    activity.", and every prompt the action cycle sends to the AI is
    either such a prompt or a resummarization request. Such a prompt
    carries the marker as its whole activity section, between the
    heading of that section and the task. *)
Theorem history_stays_empty W config secrets :
  tweet_history __init__ = []
  /\ (forall (op : operation) (s : State),
        tweet_history (snd (invoke W config secrets op s)) = tweet_history s)
  /\ (forall (ops : list operation) task personality niche is_reply,
        let s := run_operations W config secrets ops __init__ in
        _create_master_prompt W task personality niche is_reply s
        = (Ok (master_prompt W "No recent activity." task personality niche is_reply), s))
  /\ Forall (fun prompt =>
               (exists text, prompt = summarize_prompt W text)
               \/ (exists task personality niche is_reply,
                     prompt = master_prompt W "No recent activity." task personality niche
                                is_reply))
            (ai_calls (snd (run_action_cycle W config secrets __init__)))
  /\ (forall task personality niche is_reply,
        exists output_format,
          master_prompt W "No recent activity." task personality niche is_reply
          = "**Persona:** You are a '" ++ format W personality ++ "' expert in '"
            ++ format W niche ++ "'." ++ nl
            ++ "**Your Recent Activity:**" ++ nl
            ++ "No recent activity." ++ nl
            ++ "**TASK:** " ++ task ++ nl ++ output_format).
Proof.
  split; [reflexivity|split; [|split; [|split]]].
  - intros op s. now apply (invoke_keeps_history W config secrets (tweet_history s) op s).
  - intros ops task personality niche is_reply s.
    unfold _create_master_prompt. rewrite run_bind. cbn [get_state]. rewrite run_ret.
    subst s. rewrite run_operations_keeps_history. reflexivity.
  - assert (H0 : tweet_history __init__ = [] /\ Forall (agent_prompt W []) (ai_calls __init__))
      by (split; [reflexivity | constructor]).
    destruct (run_action_cycle_prompts W config secrets __init__ H0) as [[_ Hf] _].
    exact Hf.
  - intros task personality niche is_reply. unfold master_prompt. cbv zeta.
    eexists. reflexivity.
Qed.

(** ** Dispatch *)

Lemma truthy_str (t : string) : t <> "" -> truthy (VStr t) = true.
Proof. destruct t; [congruence | reflexivity]. Qed.

(** A computation that returns and keeps [I] ends in a state with [I]. *)
Lemma returns_keeps {A} (I : State -> Prop) (m : M A) (s : State) :
  returns m -> keeps I m -> I s -> exists a s', m s = (Ok a, s') /\ I s'.
Proof.
  intros Hr Hk Hs. destruct (Hr s) as (a & s' & E). exists a, s'. split; [exact E|].
  destruct (Hk s Hs) as [Hi _]. now rewrite E in Hi.
Qed.

Section Undispatched.

Variable W : World.
Variables config secrets : gmap string val.
Variable sent : list Dispatch.

Lemma call_generation_dispatches g :
  keeps (same_dispatches sent) (call_generation W config secrets g).
Proof. now apply (keeps_call_generation W config secrets (same_dispatches sent) (fun _ => True)). Qed.

Lemma truncate_dispatches text :
  keeps (same_dispatches sent) (_truncate_or_summarize W secrets text).
Proof. now apply (keeps_truncate_or_summarize W secrets (same_dispatches sent) (fun _ => True)). Qed.

Lemma get_image_dispatches query :
  keeps (same_dispatches sent) (_get_image_from_newsapi W secrets query).
Proof. now apply (keeps_get_image_from_newsapi W secrets (same_dispatches sent)). Qed.

Lemma cleanup_dispatches image_path :
  keeps (same_dispatches sent) (_cleanup_temp_image W image_path).
Proof. now apply (keeps_cleanup_temp_image W (same_dispatches sent)). Qed.

End Undispatched.

Lemma get_image_returns W secrets query : returns (_get_image_from_newsapi W secrets query).
Proof.
  unfold _get_image_from_newsapi.
  destruct (negb (truthy (dict_get secrets "NEWSAPI_KEY")));
    [apply returns_ret | apply returns_try_any_none].
Qed.

Lemma returns_tick : returns tick.
Proof. intros s. eexists _, _. reflexivity. Qed.

Lemma os_path_exists_str_returns W path : returns (os_path_exists W (VStr path)).
Proof.
  unfold os_path_exists. apply returns_bind; [apply returns_tick|]. intros n.
  apply returns_ret.
Qed.

Lemma cleanup_returns W image_path : returns (_cleanup_temp_image W image_path).
Proof.
  unfold _cleanup_temp_image. destruct image_path as [path|]; [|apply returns_ret].
  destruct (negb (truthy (VStr path))); [apply returns_ret|].
  apply returns_bind; [apply os_path_exists_str_returns|]. intros [|]; [|apply returns_ret].
  apply returns_try_any, returns_log.
Qed.

(** The hand-over of a post: recorded once, and the method returns
    whatever the browser does. *)
Lemma post_tweet_dispatch W text image_path s :
  exists s', _post_tweet_in_browser W text image_path s = (Ok tt, s')
             /\ dispatched s' = Post text image_path :: dispatched s.
Proof.
  unfold _post_tweet_in_browser. rewrite run_bind. cbn [record_dispatch].
  unfold try_except. rewrite run_bind. cbn [tick]. rewrite run_bind. unfold lift.
  destruct (compose_post W _ text image_path) as [[]|e]; eexists; split; reflexivity.
Qed.

(** The trailer step with a configured trailer. *)
Lemma append_required_text_configured W config (e r : string) (s : State) :
  config !! "required_text" = Some (VStr r) -> r <> "" ->
  append_required_text W config (VStr e) s = (Ok (VStr (e ++ nl ++ nl ++ r)), s).
Proof.
  intros Hc Hr. unfold append_required_text, dict_get, dict_item. rewrite Hc.
  change (default VNone (Some (VStr r))) with (VStr r).
  rewrite (truthy_str r Hr). reflexivity.
Qed.

(** C6. With a non-empty [required_text] configured, the text handed to
    the browser is the length-enforced text of the strategy followed by
    two line feeds and the trailer. The trailer is appended after the
    enforcement and is not counted against the limit: the enforced part
    has at most 280 characters and the dispatched text is longer by two
    plus the length of the trailer. *)
Theorem required_text_after_enforcement W config secrets mode (s s1 : State)
    (g : generation_function) (pkg : ContentPackage) (t r : string) :
  config !! "required_text" = Some (VStr r) -> r <> "" ->
  _get_generation_function config mode s = (Ok (Some g), s) ->
  call_generation W config secrets g s = (Ok (Some pkg), s1) ->
  text pkg = VStr t -> t <> "" ->
  exists (e : string) (s2 s' : State) (image_path : option string),
    _truncate_or_summarize W secrets (VStr t) s1 = (Ok (VStr e), s2)
    /\ String.length e <= 280
    /\ perform_post_action W config secrets mode s = (Ok tt, s')
    /\ dispatched s' = Post (VStr (e ++ nl ++ nl ++ r)) image_path :: dispatched s
    /\ String.length (e ++ nl ++ nl ++ r) = String.length e + 2 + String.length r.
Proof.
  intros Hc Hr Hgen Hcall Htext Ht.
  destruct (truncate_cases W secrets t s1) as (e & s2 & Htrunc & Hout).
  assert (Hlen : String.length e <= 280).
  { unfold enforced_from, TWITTER_CHAR_LIMIT in Hout.
    destruct Hout as [[-> Hle]|[[_ Hsum]|[Hgt ->]]]; [exact Hle | lia |].
    pose proof (hard_truncation_length t Hgt) as Hhard.
    unfold TWITTER_CHAR_LIMIT in Hhard. lia. }
  assert (Hd1 : dispatched s1 = dispatched s).
  { destruct (call_generation_dispatches W config secrets (dispatched s) g s eq_refl) as [Hi _].
    now rewrite Hcall in Hi. }
  assert (Hd2 : dispatched s2 = dispatched s).
  { destruct (truncate_dispatches W secrets (dispatched s) (VStr t) s1 Hd1) as [Hi _].
    now rewrite Htrunc in Hi. }
  set (image :=
         if truthy (dict_get_default config "attach_image" (VBool false))
         then _get_image_from_newsapi W secrets (query_for_image pkg)
         else mret None).
  assert (Himg : exists image_path s3, image s2 = (Ok image_path, s3)
                                       /\ dispatched s3 = dispatched s).
  { subst image. destruct (truthy (dict_get_default config "attach_image" (VBool false))).
    - apply (returns_keeps (same_dispatches (dispatched s))); [apply get_image_returns | apply get_image_dispatches | exact Hd2].
    - exists None, s2. now split. }
  destruct Himg as (image_path & s3 & Himg & Hd3).
  destruct (post_tweet_dispatch W (VStr (e ++ nl ++ nl ++ r)) image_path s3)
    as (s4 & Hpost & Hd4).
  destruct (returns_keeps (same_dispatches (dispatched s4)) (_cleanup_temp_image W image_path) s4
              (cleanup_returns W image_path) (cleanup_dispatches W _ image_path) eq_refl)
    as ([] & s5 & Hclean & Hd5).
  exists e, s2, s5, image_path. split; [exact Htrunc|]. split; [exact Hlen|].
  split; [|split].
  - unfold perform_post_action.
    rewrite (run_bind_ok _ _ _ _ _ Hgen). rewrite (run_bind_ok _ _ _ _ _ Hcall).
    rewrite Htext, (truthy_str t Ht).
    rewrite (run_bind_ok _ _ _ _ _ Htrunc).
    fold image. rewrite (run_bind_ok _ _ _ _ _ Himg).
    rewrite (run_bind_ok _ _ _ _ _ (append_required_text_configured W config e r s3 Hc Hr)).
    rewrite (run_bind_ok _ _ _ _ _ Hpost). exact Hclean.
  - unfold same_dispatches in Hd5. rewrite Hd5, Hd4, Hd3. reflexivity.
  - rewrite !str_length_app. cbn [String.length nl]. lia.
Qed.

(** The scenarios of the trailer: "Hello" with the trailer "Posted by
    Bot"; and a text of 300 characters whose resummarization is too long
    as well, which is cut to 280 characters and then, with the trailer,
    dispatched with 295. *)
Example hello_dispatch :
  dispatched (snd (perform_post_action hello_world bot_config all_secrets
                     (VStr "post_only_controversy") __init__))
  = [Post (VStr ("Hello" ++ nl ++ nl ++ "Posted by Bot")) None].
Proof. vm_compute. reflexivity. Qed.

Example long_dispatch :
  dispatched (snd (perform_post_action long_world ∅ all_secrets
                     (VStr "post_only_controversy") __init__))
  = [Post (VStr (repeat_char "A" 277 ++ "...")) None]
  /\ String.length (repeat_char "A" 277 ++ "...") = 280.
Proof. split; vm_compute; reflexivity. Qed.

Example long_dispatch_with_trailer :
  dispatched (snd (perform_post_action long_world bot_config all_secrets
                     (VStr "post_only_controversy") __init__))
  = [Post (VStr (repeat_char "A" 277 ++ "..." ++ nl ++ nl ++ "Posted by Bot")) None]
  /\ String.length (repeat_char "A" 277 ++ "..." ++ nl ++ nl ++ "Posted by Bot") = 295.
Proof. split; vm_compute; reflexivity. Qed.

Lemma required_text_after_enforcement_witness :
  exists (e : string) (s2 s' : State) (image_path : option string),
    _truncate_or_summarize hello_world all_secrets (VStr "Hello")
      (snd (_analyze_and_generate_from_global_trends hello_world bot_config all_secrets __init__))
    = (Ok (VStr e), s2)
    /\ String.length e <= 280
    /\ perform_post_action hello_world bot_config all_secrets (VStr "post_only_controversy")
         __init__ = (Ok tt, s')
    /\ dispatched s' = Post (VStr (e ++ nl ++ nl ++ "Posted by Bot")) image_path
                         :: dispatched __init__
    /\ String.length (e ++ nl ++ nl ++ "Posted by Bot") = String.length e + 2 + 13.
Proof.
  apply (required_text_after_enforcement hello_world bot_config all_secrets
           (VStr "post_only_controversy") __init__ _
           analyze_and_generate_from_global_trends
           {| text := VStr "Hello"; query_for_image := VStr "greeting" |}).
  - vm_compute. reflexivity.
  - discriminate.
  - vm_compute. reflexivity.
  - vm_compute. reflexivity.
  - reflexivity.
  - discriminate.
Defined.

(** ** Engagement target discovery *)

(** Picking slot [j] and refilling it with the last element leaves the
    other elements of the pool. *)
Lemma pool_step {A} (pool : list A) (j : nat) (x y : A) :
  pool !! j = Some x -> last pool = Some y ->
  x :: take (length pool - 1) (<[j:=y]> pool) ≡ₚ pool.
Proof.
  intros Hj Hlast. apply last_Some in Hlast as [init ->].
  rewrite length_app. cbn [length]. replace (length init + 1 - 1) with (length init) by lia.
  destruct (decide (j < length init)) as [Hlt|Hge].
  - rewrite lookup_app_l in Hj by exact Hlt.
    rewrite insert_app_l by exact Hlt.
    rewrite take_app_length' by now rewrite length_insert.
    rewrite (insert_take_drop init j y Hlt).
    rewrite <- (take_drop_middle init j x Hj) at 3.
    solve_Permutation.
  - assert (j = length init) as ->.
    { apply lookup_lt_Some in Hj. rewrite length_app in Hj. cbn in Hj. lia. }
    rewrite list_lookup_middle in Hj by reflexivity. injection Hj as <-.
    rewrite insert_app_r_alt by lia. rewrite Nat.sub_diag. cbn [insert list_insert].
    rewrite take_app_length. apply Permutation_cons_append.
Qed.

(** A sample has the asked size and is drawn without replacement. *)
Lemma random_sample_spec {A} W (pool : list A) (k : nat) s l s' :
  random_sample W pool k s = (Ok l, s') -> length l = k /\ l ⊆+ pool.
Proof.
  revert pool s l s'. induction k as [|k IH]; intros pool s l s' H; cbn [random_sample] in H.
  - apply ret_ok_inv in H as [-> _]. split; [reflexivity | apply submseteq_nil_l].
  - minv H as j s1 Hj.
    destruct (pool !! j) as [x|] eqn:Ex; [|apply lift_ok_inv in H as [? _]; discriminate].
    destruct (last pool) as [y|] eqn:Ey; [|apply lift_ok_inv in H as [? _]; discriminate].
    minv H as rest s2 Hrest. apply ret_ok_inv in H as [-> _].
    destruct (IH _ _ _ _ Hrest) as [Hlen Hsub]. split; [cbn; now rewrite Hlen|].
    rewrite <- (pool_step pool j x y Ex Ey). now apply submseteq_skip.
Qed.

(** Sampling at most as many items as there are always succeeds. *)
Lemma random_sample_returns {A} W (pool : list A) (k : nat) s :
  k <= length pool -> exists l s', random_sample W pool k s = (Ok l, s').
Proof.
  revert pool s. induction k as [|k IH]; intros pool s Hk; cbn [random_sample].
  - now exists [], s.
  - rewrite run_bind. unfold randbelow. rewrite run_bind. cbn [tick]. rewrite run_ret.
    set (j := N.to_nat (random_bits W (clock s)) `mod` length pool).
    assert (Hj : j < length pool) by (apply Nat.mod_upper_bound; lia).
    destruct (lookup_lt_is_Some_2 pool j Hj) as [x Ex]. rewrite Ex.
    destruct (last pool) as [y|] eqn:Ey.
    2:{ apply last_None in Ey. subst pool. cbn in Hk. lia. }
    destruct (IH (take (length pool - 1) (<[j:=y]> pool)) (snd (tick s))) as (rest & s' & E).
    { rewrite length_take, length_insert. lia. }
    rewrite run_bind. cbn [snd tick] in E |- *. rewrite E. rewrite run_ret.
    now exists (x :: rest), s'.
Qed.

(** An item flagged as promoted is passed over. *)
Lemma engage_loop_promoted (article : WebArticle) rest t s :
  art_text article = Ok t -> promoted t = true ->
  engage_loop (article :: rest) s = engage_loop rest s.
Proof.
  intros Ht Hp. cbn [engage_loop]. rewrite run_bind. unfold try_except, inspect.
  rewrite run_bind. unfold lift at 1. rewrite Ht, Hp. reflexivity.
Qed.

(** So is an item one of whose fields is not found. *)
Lemma engage_loop_not_found (article : WebArticle) rest t s :
  art_text article = Ok t -> promoted t = false ->
  first_failure article = Some NoSuchElementException ->
  engage_loop (article :: rest) s = engage_loop rest s.
Proof.
  intros Ht Hp Hf. cbn [engage_loop]. rewrite run_bind. unfold try_except, inspect.
  rewrite run_bind. unfold lift at 1. rewrite Ht, Hp. cbn [negb].
  unfold first_failure in Hf. rewrite !run_bind. unfold lift.
  destruct (art_user_name article) as [u|e]; [|injection Hf as ->; reflexivity].
  destruct (art_tweet_text article) as [x|e]; [|injection Hf as ->; reflexivity].
  destruct (art_href article) as [h|e]; [discriminate|injection Hf as ->; reflexivity].
Qed.

(** Any other failure while reading the fields leaves the loop. *)
Lemma engage_loop_other_failure (article : WebArticle) rest t e s :
  art_text article = Ok t -> promoted t = false ->
  first_failure article = Some e -> e <> NoSuchElementException ->
  engage_loop (article :: rest) s = (Raise e, s).
Proof.
  intros Ht Hp Hf He. cbn [engage_loop]. rewrite run_bind. unfold try_except, inspect.
  rewrite run_bind. unfold lift at 1. rewrite Ht, Hp. cbn [negb].
  unfold first_failure in Hf. rewrite !run_bind. unfold lift.
  destruct (art_user_name article) as [u|e1];
    [|injection Hf as ->; destruct e; try reflexivity; contradiction].
  destruct (art_tweet_text article) as [x|e1];
    [|injection Hf as ->; destruct e; try reflexivity; contradiction].
  destruct (art_href article) as [h|e1];
    [discriminate|injection Hf as ->; destruct e; try reflexivity; contradiction].
Qed.

Lemma inspect_some (article : WebArticle) target s s' :
  try_except (inspect article) (no_such_element (mret None)) s = (Ok (Some target), s') ->
  s' = s /\ suitable article target.
Proof.
  unfold try_except, inspect, suitable. rewrite !run_bind. unfold lift.
  destruct (art_text article) as [t|e] eqn:Et; [|destruct e; discriminate].
  destruct (promoted t) eqn:Ep; cbn [negb]; [discriminate|].
  rewrite !run_bind.
  destruct (art_user_name article) as [u|e] eqn:Eu; [|destruct e; discriminate].
  rewrite !run_bind.
  destruct (art_tweet_text article) as [x|e] eqn:Ex; [|destruct e; discriminate].
  rewrite !run_bind.
  destruct (art_href article) as [h|e] eqn:Eh; [|destruct e; discriminate].
  rewrite run_ret. intros H. injection H as <- <-.
  split; [reflexivity|]. exists t, u, x, h. repeat split; first [assumption | reflexivity].
Qed.

Lemma inspect_none (article : WebArticle) s s' :
  try_except (inspect article) (no_such_element (mret None)) s = (Ok None, s') ->
  s' = s /\ passed_over article.
Proof.
  unfold try_except, inspect, passed_over, first_failure. rewrite !run_bind. unfold lift.
  destruct (art_text article) as [t|e] eqn:Et.
  - destruct (promoted t) eqn:Ep; cbn [negb].
    + intros H. injection H as <-. split; [reflexivity|]. right. exists t. auto.
    + rewrite !run_bind.
      destruct (art_user_name article) as [u|e] eqn:Eu.
      2:{ destruct e; try discriminate. intros H. injection H as <-.
          split; [reflexivity|]. right. exists t. auto. }
      rewrite !run_bind.
      destruct (art_tweet_text article) as [x|e] eqn:Ex.
      2:{ destruct e; try discriminate. intros H. injection H as <-.
          split; [reflexivity|]. right. exists t. auto. }
      rewrite !run_bind.
      destruct (art_href article) as [h|e] eqn:Eh; [discriminate|].
      destruct e; try discriminate. intros H. injection H as <-.
      split; [reflexivity|]. right. exists t. auto.
  - destruct e; try discriminate. intros H. injection H as <-. split; [reflexivity|]. now left.
Qed.

Lemma engage_loop_some sample target s s' :
  engage_loop sample s = (Ok (Some target), s') ->
  exists before article after,
    sample = (before ++ article :: after)%list
    /\ Forall passed_over before
    /\ suitable article target.
Proof.
  revert s. induction sample as [|article rest IH]; intros s H; cbn [engage_loop] in H.
  - ret_absurd H.
  - minv H as found s1 Hfound. destruct found as [t|].
    + apply ret_ok_inv in H as [E ->]. injection E as ->.
      apply inspect_some in Hfound as [_ Hs].
      exists [], article, rest. repeat split; [constructor | exact Hs].
    + apply inspect_none in Hfound as [-> Hp].
      destruct (IH _ H) as (before & a & after & -> & Hb & Hs).
      exists (article :: before), a, after. repeat split; [now constructor | exact Hs].
Qed.

(** What a found target tells about the run. *)
Lemma find_target W config s target s' :
  _find_tweet_to_engage_with W config s = (Ok (Some target), s') ->
  exists search_url n articles sample before article after,
    search_page W n search_url = Ok articles
    /\ sample ⊆+ articles
    /\ length sample = min (length articles) 10
    /\ sample = (before ++ article :: after)%list
    /\ Forall passed_over before
    /\ suitable article target.
Proof.
  unfold _find_tweet_to_engage_with. intros H. apply try_none_inv in H. cbv zeta in H.
  minv H as search_url s1 Hurl.
  minv_tick H.
  minv_lift H as articles Esearch.
  minv H as sample s2 Hsample.
  apply random_sample_spec in Hsample as [Hlen Hsub].
  apply engage_loop_some in H as (before & article & after & -> & Hb & Hs).
  exists search_url, (clock s1), articles, (before ++ article :: after)%list, before, article, after.
  repeat split; assumption.
Qed.

(** The run behind the counterexample: the first item of the sample
    loses its link to a stale element; discovery ends with nothing
    although the next item of the sample is suitable. *)
Example discovery_stale_run :
  fst (random_sample stale_world [stale_item; good_item] 2 (snd (tick __init__)))
  = Ok [stale_item; good_item]
  /\ fst (_find_tweet_to_engage_with stale_world ∅ __init__) = Ok None.
Proof. split; vm_compute; reflexivity. Qed.

(** C7 as stated does not hold in its last part: an item is not skipped
    whenever the extraction of one of its fields fails. When the failure
    is not [NoSuchElementException], the loop is left and nothing is
    returned. *)
Lemma discovery_skip_counterexample :
  ~ (forall (article : WebArticle) rest t e s,
        art_text article = Ok t -> promoted t = false ->
        first_failure article = Some e ->
        engage_loop (article :: rest) s = engage_loop rest s).
Proof.
  intros claim.
  specialize (claim stale_item [good_item] "Cy @cy Type theory"
                StaleElementReferenceException __init__ eq_refl eq_refl eq_refl).
  vm_compute in claim. discriminate claim.
Qed.

(** The loop goes through the items that are passed over. *)
Lemma engage_loop_skips (before rest : list WebArticle) (s : State) :
  Forall passed_over before ->
  engage_loop (before ++ rest) s = engage_loop rest s.
Proof.
  induction 1 as [|a before Ha _ IH]; [reflexivity|].
  cbn [app]. rewrite <- IH. clear IH.
  destruct Ha as [Ha|(t & Ht & [Hp|Hf])].
  - cbn [engage_loop]. rewrite run_bind. unfold try_except, inspect.
    rewrite run_bind. unfold lift at 1. rewrite Ha. reflexivity.
  - now apply engage_loop_promoted with t.
  - destruct (promoted t) eqn:Hp.
    + now apply engage_loop_promoted with t.
    + now apply engage_loop_not_found with t.
Qed.

(** It returns the target made from a suitable item. *)
Lemma engage_loop_suitable (article : WebArticle) rest target (s : State) :
  suitable article target ->
  engage_loop (article :: rest) s = (Ok (Some target), s).
Proof.
  intros (t & u & x & h & Et & Ep & Eu & Ex & Eh & ->).
  cbn [engage_loop]. rewrite run_bind. unfold try_except, inspect.
  rewrite run_bind. unfold lift at 1. rewrite Et, Ep. cbn [negb].
  rewrite !run_bind. unfold lift. rewrite Eu, Ex, Eh. reflexivity.
Qed.

(** It is left by a failure other than a missing element. *)
Lemma engage_loop_fails (article : WebArticle) rest e (s : State) :
  reading_fails article e -> e <> NoSuchElementException ->
  engage_loop (article :: rest) s = (Raise e, s).
Proof.
  intros [Ht|(t & Ht & Hp & Hf)] He.
  - cbn [engage_loop]. rewrite run_bind. unfold try_except, inspect.
    rewrite run_bind. unfold lift at 1. rewrite Ht.
    destruct e; try reflexivity; contradiction.
  - now apply engage_loop_other_failure with t.
Qed.

(** Without a page, discovery returns nothing. *)
Lemma find_without_page W config (s : State) e :
  search_url W config = Raise e
  \/ (exists url, search_url W config = Ok url
                  /\ search_page W (clock s) url = Raise e) ->
  fst (_find_tweet_to_engage_with W config s) = Ok None.
Proof.
  unfold search_url, _find_tweet_to_engage_with, try_except. cbv zeta. rewrite run_bind.
  destruct (truthy (dict_get_default config "niche" (VStr ""))).
  - rewrite run_bind. unfold lift at 1.
    destruct (quote W (dict_get_default config "niche" (VStr ""))) as [quoted|e0].
    + intros [H|(url & [= <-] & Hpage)]; [discriminate H|].
      rewrite run_ret, run_bind. cbn [tick]. rewrite run_bind. unfold lift at 1.
      now rewrite Hpage.
    + intros _. reflexivity.
  - intros [H|(url & [= <-] & Hpage)]; [discriminate H|].
    rewrite run_ret, run_bind. cbn [tick]. rewrite run_bind. unfold lift at 1.
    now rewrite Hpage.
Qed.

(** Discovery on a page that loaded: the sample is drawn after the page
    is read, and the loop over the sample decides the result. *)
Lemma find_on_page W config (s : State) url articles :
  search_url W config = Ok url ->
  search_page W (clock s) url = Ok articles ->
  exists sample s2,
    random_sample W articles (min (length articles) 10) (snd (tick s)) = (Ok sample, s2)
    /\ length sample = min (length articles) 10
    /\ sample ⊆+ articles
    /\ _find_tweet_to_engage_with W config s
       = match engage_loop sample s2 with
         | (Ok found, s') => (Ok found, s')
         | (Raise _, s') => (_log_message "Error finding tweet" "ERROR";; mret None) s'
         end.
Proof.
  intros Hurl Hpage.
  destruct (random_sample_returns W articles (min (length articles) 10) (snd (tick s))
              (Nat.le_min_l _ _)) as (sample & s2 & E).
  exists sample, s2. split; [exact E|].
  destruct (random_sample_spec _ _ _ _ _ _ E) as [Hlen Hsub].
  split; [exact Hlen|]. split; [exact Hsub|].
  unfold _find_tweet_to_engage_with, try_except. cbv zeta.
  unfold search_url in Hurl. cbv zeta in Hurl. rewrite run_bind.
  destruct (truthy (dict_get_default config "niche" (VStr ""))).
  - rewrite run_bind. unfold lift at 1.
    destruct (quote W (dict_get_default config "niche" (VStr ""))) as [quoted|e];
      [|discriminate Hurl].
    injection Hurl as <-. rewrite run_ret.
    rewrite run_bind. cbn [tick]. rewrite run_bind. unfold lift at 1. rewrite Hpage.
    rewrite run_bind. cbn [tick snd] in E. rewrite E.
    destruct (engage_loop sample s2) as [[found|e] s']; reflexivity.
  - injection Hurl as <-. rewrite run_ret.
    rewrite run_bind. cbn [tick]. rewrite run_bind. unfold lift at 1. rewrite Hpage.
    rewrite run_bind. cbn [tick snd] in E. rewrite E.
    destruct (engage_loop sample s2) as [[found|e] s']; reflexivity.
Qed.

(** C7, amended. Engagement target discovery never raises; without a
    page (the address cannot be built, or the page does not load) it
    returns nothing; and for every list of items the page shows, the
    items it inspects are a sample of at most 10 items drawn from the
    page without replacement, after the page is read, and the loop over
    that sample decides the result. A returned target was made from an item of the sample that
    is not flagged as promoted and whose author handle, body text and
    permalink were all extracted, every item before it in the sample
    having been passed over; the first item of the sample that is not
    passed over gives the target when it is suitable; an item that is
    promoted, or one of whose fields is not found
    ([NoSuchElementException]), is passed over and the next item of the
    sample is tried, so that a sample of such items gives nothing; any
    other failure while an item is read ends discovery with nothing
    returned, whatever follows in the sample. *)
Theorem engagement_discovery W config (s : State) :
  (exists result s', _find_tweet_to_engage_with W config s = (Ok result, s'))
  /\ (forall e,
      search_url W config = Raise e
      \/ (exists url, search_url W config = Ok url
                      /\ search_page W (clock s) url = Raise e) ->
      fst (_find_tweet_to_engage_with W config s) = Ok None)
  /\ (forall url articles,
      search_url W config = Ok url ->
      search_page W (clock s) url = Ok articles ->
      exists sample s2,
        random_sample W articles (min (length articles) 10) (snd (tick s)) = (Ok sample, s2)
        /\ length sample = min (length articles) 10
        /\ length sample <= 10
        /\ sample ⊆+ articles
        /\ (forall target s',
            _find_tweet_to_engage_with W config s = (Ok (Some target), s') ->
            exists before article after,
              sample = (before ++ article :: after)%list
              /\ Forall passed_over before
              /\ suitable article target)
        /\ (forall before article after target,
            sample = (before ++ article :: after)%list ->
            Forall passed_over before -> suitable article target ->
            _find_tweet_to_engage_with W config s = (Ok (Some target), s2))
        /\ (Forall passed_over sample ->
            _find_tweet_to_engage_with W config s = (Ok None, s2))
        /\ (forall before article after e,
            sample = (before ++ article :: after)%list ->
            Forall passed_over before ->
            reading_fails article e -> e <> NoSuchElementException ->
            _find_tweet_to_engage_with W config s
            = (Ok None, snd (_log_message "Error finding tweet" "ERROR" s2)))).
Proof.
  split; [apply find_returns|]. split; [apply find_without_page|].
  intros url articles Hurl Hpage.
  destruct (find_on_page W config s url articles Hurl Hpage)
    as (sample & s2 & E & Hlen & Hsub & Hrun).
  exists sample, s2. split; [exact E|]. split; [exact Hlen|].
  split; [rewrite Hlen; apply Nat.le_min_r|]. split; [exact Hsub|].
  split; [|split; [|split]].
  - intros target s' H. rewrite Hrun in H.
    destruct (engage_loop sample s2) as [[found|e] s3] eqn:El; [|discriminate H].
    injection H as -> ->. now apply engage_loop_some in El.
  - intros before article after target -> Hb Hs. rewrite Hrun.
    rewrite (engage_loop_skips before _ s2 Hb).
    now rewrite (engage_loop_suitable article after target s2 Hs).
  - intros Hall. rewrite Hrun.
    rewrite <- (app_nil_r sample). now rewrite (engage_loop_skips sample [] s2 Hall).
  - intros before article after e -> Hb Hf He. rewrite Hrun.
    rewrite (engage_loop_skips before _ s2 Hb).
    now rewrite (engage_loop_fails article after e s2 Hf He).
Qed.

(** A page with a promoted item, a suitable one and one without a link:
    discovery passes over the first and the last and returns the second. *)
Example discovery_run :
  fst (_find_tweet_to_engage_with search_world ∅ __init__)
  = Ok (Some {| author := "bob"; target_text := "Verified software";
                url := "https://x.com/bob/status/2" |}).
Proof. vm_compute. reflexivity. Qed.

Lemma engagement_discovery_witness :
  exists sample s2,
    random_sample search_world [promoted_item; good_item; linkless_item]
      (min (length [promoted_item; good_item; linkless_item]) 10) (snd (tick __init__))
    = (Ok sample, s2)
    /\ length sample = min (length [promoted_item; good_item; linkless_item]) 10
    /\ length sample <= 10
    /\ sample ⊆+ [promoted_item; good_item; linkless_item]
    /\ (forall target s',
        _find_tweet_to_engage_with search_world ∅ __init__ = (Ok (Some target), s') ->
        exists before article after,
          sample = (before ++ article :: after)%list
          /\ Forall passed_over before
          /\ suitable article target)
    /\ (forall before article after target,
        sample = (before ++ article :: after)%list ->
        Forall passed_over before -> suitable article target ->
        _find_tweet_to_engage_with search_world ∅ __init__ = (Ok (Some target), s2))
    /\ (Forall passed_over sample ->
        _find_tweet_to_engage_with search_world ∅ __init__ = (Ok None, s2))
    /\ (forall before article after e,
        sample = (before ++ article :: after)%list ->
        Forall passed_over before ->
        reading_fails article e -> e <> NoSuchElementException ->
        _find_tweet_to_engage_with search_world ∅ __init__
        = (Ok None, snd (_log_message "Error finding tweet" "ERROR" s2))).
Proof.
  apply (engagement_discovery search_world ∅ __init__) with (url := "https://x.com/home").
  - reflexivity.
  - reflexivity.
Defined.

(** * Further properties *)

(** ** Moving from one state property to another *)

Lemma keeps_leads {A} (I : State -> Prop) (m : M A) : keeps I m -> leads I I m.
Proof. intros H s Hs. now destruct (H s Hs). Qed.

Lemma leads_bind {A B} (P Q R : State -> Prop) (m : M A) (f : A -> M B) :
  leads P Q m -> (forall a, leads Q R (f a)) -> (forall s, Q s -> R s) ->
  leads P R (m ≫= f).
Proof.
  intros Hm Hf Hqr s Hs. specialize (Hm s Hs). rewrite run_bind.
  destruct (m s) as [[a|e] s1]; cbn [snd] in *; [now apply Hf | now apply Hqr].
Qed.

Lemma leads_bind_yields {A B} (I R : State -> Prop) (post : A -> Prop)
    (m : M A) (f : A -> M B) :
  yields I m post -> (forall a, post a -> leads I R (f a)) -> (forall s, I s -> R s) ->
  leads I R (m ≫= f).
Proof.
  intros Hm Hf Hir s Hs. destruct (Hm s Hs) as [Hi Hp]. rewrite run_bind.
  destruct (m s) as [[a|e] s1]; cbn [fst snd] in *; [|now apply Hir].
  now apply (Hf a (Hp a eq_refl)).
Qed.

Lemma leads_weaken {A} (P Q R : State -> Prop) (m : M A) :
  leads P Q m -> (forall s, Q s -> R s) -> leads P R m.
Proof. intros H Hqr s Hs. now apply Hqr, H. Qed.

(** A property of the values joins a property of the states. *)
Lemma yields_of_keeps {A} (I : State -> Prop) (m : M A) (post : A -> Prop) :
  keeps I m -> (forall s a s', m s = (Ok a, s') -> post a) -> yields I m post.
Proof.
  intros Hk Hp s Hs. destruct (Hk s Hs) as [Hi _]. split; [exact Hi|].
  intros a E. destruct (m s) as [r s'] eqn:Em. cbn in E. subst r. now apply (Hp s a s').
Qed.

(** Closes the side conditions of the lemmas on kept properties when the
    property does not depend on what the step changes. *)
Ltac frame := intros; first [assumption | exact I | easy].

(** ** The AI client *)

(** The prompt is recorded at the entry, and nothing after it touches
    what the state records of the agent. *)
Lemma call_ai_model_leads W secrets prompt skip (s : State) :
  leads (fun st => st = s)
        (fun st => ai_calls st = prompt :: ai_calls s /\ dispatched st = dispatched s
                   /\ tweet_history st = tweet_history s /\ driver st = driver s)
        (call_ai_model W secrets prompt skip).
Proof.
  unfold call_ai_model.
  apply leads_bind
    with (Q := fun st => ai_calls st = prompt :: ai_calls s /\ dispatched st = dispatched s
                         /\ tweet_history st = tweet_history s /\ driver st = driver s).
  - intros st ->. repeat split.
  - intros _. apply keeps_leads, keeps_try_any.
    + repeat first
        [ apply keeps_ret | apply keeps_lift
        | apply keeps_tick; frame
        | apply keeps_bind; [|intros ?]
        | match goal with |- keeps _ (if ?b then _ else _) => destruct b end ].
    + apply keeps_bind; [apply keeps_log; frame|]. intros _. apply keeps_ret.
  - trivial.
Qed.

Lemma call_ai_model_trace W secrets prompt skip (s : State) :
  exists answer s',
    call_ai_model W secrets prompt skip s = (Ok answer, s')
    /\ ai_calls s' = prompt :: ai_calls s
    /\ dispatched s' = dispatched s.
Proof.
  destruct (call_ai_model_returns W secrets prompt skip s) as (answer & s' & E).
  exists answer, s'. split; [exact E|].
  pose proof (call_ai_model_leads W secrets prompt skip s s eq_refl) as L.
  rewrite E in L. cbn [snd] in L. now destruct L as (? & ? & _).
Qed.

(** [call_ai_model] catches every exception: it always returns, having
    recorded its prompt once and touched neither the history nor the
    hand-overs nor the browser flag. *)
Theorem call_ai_model_effects W secrets prompt skip (s : State) :
  exists answer s',
    call_ai_model W secrets prompt skip s = (Ok answer, s')
    /\ ai_calls s' = prompt :: ai_calls s
    /\ dispatched s' = dispatched s
    /\ tweet_history s' = tweet_history s
    /\ driver s' = driver s.
Proof.
  destruct (call_ai_model_returns W secrets prompt skip s) as (answer & s' & E).
  exists answer, s'. split; [exact E|].
  pose proof (call_ai_model_leads W secrets prompt skip s s eq_refl) as L.
  now rewrite E in L.
Qed.

(** Without the key in [secrets], no request is made: the call returns
    nothing and the world is not consulted. *)
Theorem call_ai_model_without_key W secrets prompt skip (s : State) :
  secrets !! "GEMINI_API_KEY" = None ->
  exists s', call_ai_model W secrets prompt skip s = (Ok None, s')
             /\ clock s' = clock s.
Proof.
  intros Hk. unfold call_ai_model. rewrite run_bind. cbn [record_ai_call].
  unfold try_except. rewrite run_bind. unfold lift at 1, dict_item. rewrite Hk.
  eexists. split; reflexivity.
Qed.

Lemma call_ai_model_without_key_witness :
  exists s', call_ai_model silent_world ∅ "Hi" false __init__ = (Ok None, s')
             /\ clock s' = clock __init__.
Proof. apply (call_ai_model_without_key silent_world ∅ "Hi" false __init__). reflexivity. Defined.

(** The request made for [prompt] in state [s]. *)
Lemma call_ai_model_request W secrets prompt skip s key :
  secrets !! "GEMINI_API_KEY" = Some key ->
  call_ai_model W secrets prompt skip s =
    try_except
      (result ← lift (gemini W (clock s) key prompt);
       candidates ← lift (get result "candidates");
       if truthy candidates then
         candidates ← lift (item result "candidates");
         first ← lift (index candidates 0);
         reason ← lift (get first "finishReason");
         if negb (eq_str reason "SAFETY") then
           content ← lift (item first "content");
           parts ← lift (item content "parts");
           part ← lift (index parts 0);
           raw ← lift (item part "text");
           text_response ← lift (val_strip raw);
           mret (Some (if skip then text_response
                       else remove "```" (remove "```json" text_response)))
         else mret None
       else mret None)
      (any_exception (_log_message "Error calling AI model" "ERROR";; mret None))
      (snd (tick (snd (record_ai_call prompt s)))).
Proof.
  intros Hk. unfold call_ai_model. rewrite run_bind. cbn [record_ai_call].
  unfold try_except at 1. rewrite run_bind. unfold lift at 1, dict_item. rewrite Hk.
  rewrite run_bind. cbn [tick]. reflexivity.
Qed.

(** A failed request, an answer without candidates and a blocked answer
    all give nothing. *)
Theorem call_ai_model_no_answer W secrets prompt skip (s : State) key :
  secrets !! "GEMINI_API_KEY" = Some key ->
  (exists e, gemini W (clock s) key prompt = Raise e)
  \/ (exists d, gemini W (clock s) key prompt = Ok (VDict d)
                /\ truthy (dict_get d "candidates") = false)
  \/ (exists d candidate more,
        gemini W (clock s) key prompt = Ok (VDict d)
        /\ d !! "candidates" = Some (VList (VDict candidate :: more))
        /\ dict_get candidate "finishReason" = VStr "SAFETY") ->
  fst (call_ai_model W secrets prompt skip s) = Ok None.
Proof.
  intros Hk H. rewrite (call_ai_model_request _ _ _ _ _ _ Hk).
  unfold try_except. rewrite run_bind. unfold lift at 1.
  destruct H as [(e & ->)|[(d & -> & Hc)|(d & candidate & more & -> & Hc & Hr)]].
  - reflexivity.
  - rewrite run_bind. unfold lift at 1. cbn [get]. rewrite Hc. reflexivity.
  - rewrite run_bind. unfold lift at 1. cbn [get]. unfold dict_get at 1. rewrite Hc.
    cbn [default from_option id truthy length Nat.eqb negb].
    rewrite run_bind. unfold lift at 1. cbn [item]. unfold dict_item. rewrite Hc.
    rewrite run_bind. unfold lift at 1. cbn [index lookup list_lookup].
    rewrite run_bind. unfold lift at 1. cbn [get]. rewrite Hr. reflexivity.
Qed.

Lemma call_ai_model_no_answer_witness :
  fst (call_ai_model silent_world all_secrets "Hi" false __init__) = Ok None.
Proof.
  apply (call_ai_model_no_answer silent_world all_secrets "Hi" false __init__ (VStr "g-key")).
  - reflexivity.
  - left. exists URLError. reflexivity.
Defined.

(** A well-formed answer is decoded to the text of its first part,
    stripped of surrounding whitespace; unless the caller asks for the
    raw prose, the code-fence markers are taken out as well. *)
Theorem call_ai_model_answer W secrets prompt skip (s : State) key result raw :
  secrets !! "GEMINI_API_KEY" = Some key ->
  gemini W (clock s) key prompt = Ok result ->
  answer_with raw result ->
  fst (call_ai_model W secrets prompt skip s)
  = Ok (Some (if skip then strip raw else remove "```" (remove "```json" (strip raw)))).
Proof.
  intros Hk Hg (d & candidate & more & content & part & more_parts
                & -> & Hc & Hr & Hct & Hp & Ht).
  rewrite (call_ai_model_request _ _ _ _ _ _ Hk).
  unfold try_except. rewrite run_bind. unfold lift at 1. rewrite Hg.
  rewrite run_bind. unfold lift at 1. cbn [get]. unfold dict_get at 1. rewrite Hc.
  cbn [default from_option id truthy length Nat.eqb negb].
  rewrite run_bind. unfold lift at 1. cbn [item]. unfold dict_item at 1. rewrite Hc.
  rewrite run_bind. unfold lift at 1. cbn [index lookup list_lookup].
  rewrite run_bind. unfold lift at 1. cbn [get]. rewrite (eq_str_false _ _ Hr). cbn [negb].
  rewrite run_bind. unfold lift at 1. cbn [item]. unfold dict_item at 1. rewrite Hct.
  rewrite run_bind. unfold lift at 1. cbn [item]. unfold dict_item at 1. rewrite Hp.
  rewrite run_bind. unfold lift at 1. cbn [index lookup list_lookup].
  rewrite run_bind. unfold lift at 1. cbn [item]. unfold dict_item at 1. rewrite Ht.
  rewrite run_bind. unfold lift at 1. cbn [val_strip]. reflexivity.
Qed.

Lemma call_ai_model_answer_witness :
  fst (call_ai_model hello_world all_secrets "Hi" true __init__) = Ok (Some (strip hello_reply)).
Proof.
  apply (call_ai_model_answer hello_world all_secrets "Hi" true __init__ (VStr "g-key")
           (gemini_body hello_reply) hello_reply).
  - reflexivity.
  - reflexivity.
  - unfold answer_with, gemini_body. eexists _, _, _, _, _, _.
    split; [reflexivity|]. split; [vm_compute; reflexivity|].
    split; [vm_compute; discriminate|]. split; [vm_compute; reflexivity|].
    split; [vm_compute; reflexivity|]. vm_compute; reflexivity.
Defined.

(** ** The length enforcer, further *)

(** Whatever the enforcer returns, for any value it is given, has a
    length within the limit. *)
Lemma truncate_result_within W secrets (text : val) s v s' :
  _truncate_or_summarize W secrets text s = (Ok v, s') -> within_limit v.
Proof.
  unfold _truncate_or_summarize. intros H.
  minv_lift H as n En.
  destruct (Nat.leb_spec n TWITTER_CHAR_LIMIT) as [Hle|Hgt].
  - apply ret_ok_inv in H as [-> _]. now exists n.
  - cbv zeta in H. minv H as answer s1 Hcall.
    assert (Hhard : forall st,
              (head ← lift (slice_to (TWITTER_CHAR_LIMIT - 3) text); lift (add_str head "...")) st
              = (Ok v, s') -> within_limit v).
    { intros st Hh. minv_lift Hh as head Eh. apply lift_ok_inv in Hh as [Ea _].
      destruct text; try discriminate Eh.
      - cbn in Eh. injection Eh as <-. cbn in Ea. injection Ea as <-.
        cbn in En. injection En as <-. exists TWITTER_CHAR_LIMIT. split; [|lia].
        cbn [len]. f_equal. now apply hard_truncation_length.
      - cbn in Eh. injection Eh as <-. discriminate Ea. }
    destruct answer as [summary|]; [|now apply (Hhard s1)].
    destruct (Nat.eqb (String.length summary) 0
              || negb (String.length summary <=? TWITTER_CHAR_LIMIT)%nat) eqn:Eb;
      [now apply (Hhard s1)|].
    apply ret_ok_inv in H as [-> _]. apply orb_false_iff in Eb as [_ Eb].
    apply negb_false_iff, Nat.leb_le in Eb. now exists (String.length summary).
Qed.

(** The enforcer asks the AI at most once, and only about a text over the
    limit; it hands nothing over. *)
Theorem enforcer_asks_at_most_once W secrets (text : val) (s : State) :
  let s' := snd (_truncate_or_summarize W secrets text s) in
  dispatched s' = dispatched s
  /\ (ai_calls s' = ai_calls s
      \/ (ai_calls s' = summarize_prompt W text :: ai_calls s
          /\ exists n, len text = Ok n /\ TWITTER_CHAR_LIMIT < n)).
Proof.
  cbv zeta. unfold _truncate_or_summarize. rewrite run_bind.
  change (lift (len text) s) with (len text, s).
  destruct (len text) as [n|e] eqn:En; [|split; [reflexivity | left; reflexivity]].
  destruct (Nat.leb_spec n TWITTER_CHAR_LIMIT) as [Hle|Hgt];
    [split; [reflexivity | left; reflexivity]|].
  cbv zeta. rewrite run_bind.
  destruct (call_ai_model_trace W secrets (summarize_prompt W text) true s)
    as (answer & s1 & E & Ha & Hd).
  rewrite E.
  assert (Hhard : forall st,
            snd ((head ← lift (slice_to (TWITTER_CHAR_LIMIT - 3) text);
                  lift (add_str head "...")) st) = st).
  { intros st. rewrite run_bind. unfold lift.
    destruct (slice_to (TWITTER_CHAR_LIMIT - 3) text); reflexivity. }
  assert (Hend : snd (match answer with
                      | Some summary =>
                          if Nat.eqb (String.length summary) 0
                             || negb (String.length summary <=? TWITTER_CHAR_LIMIT)%nat
                          then head ← lift (slice_to (TWITTER_CHAR_LIMIT - 3) text);
                               lift (add_str head "...")
                          else mret (VStr summary)
                      | None => head ← lift (slice_to (TWITTER_CHAR_LIMIT - 3) text);
                                lift (add_str head "...")
                      end s1) = s1).
  { destruct answer as [summary|]; [|apply Hhard].
    destruct (Nat.eqb (String.length summary) 0
              || negb (String.length summary <=? TWITTER_CHAR_LIMIT)%nat);
      [apply Hhard | reflexivity]. }
  rewrite Hend. split; [exact Hd|]. right. split; [exact Ha|]. now exists n.
Qed.

(** An answer of the resummarization that is not empty and within the
    limit replaces the text. *)
Theorem enforcer_accepts_summary W secrets (t summary : string) (s s1 : State) :
  TWITTER_CHAR_LIMIT < String.length t ->
  call_ai_model W secrets (summarize_prompt W (VStr t)) true s = (Ok (Some summary), s1) ->
  0 < String.length summary <= TWITTER_CHAR_LIMIT ->
  _truncate_or_summarize W secrets (VStr t) s = (Ok (VStr summary), s1).
Proof.
  intros Hlen Hcall [Hpos Hle].
  rewrite (truncate_long W secrets t s s1 (Some summary) Hlen Hcall).
  destruct (Nat.eqb_spec (String.length summary) 0) as [E0|_]; [lia|].
  destruct (Nat.leb_spec (String.length summary) TWITTER_CHAR_LIMIT); [reflexivity|lia].
Qed.

Lemma enforcer_accepts_summary_witness :
  exists s1,
    _truncate_or_summarize hello_world all_secrets (VStr (repeat_char "A" 300)) __init__
    = (Ok (VStr hello_reply), s1).
Proof.
  eexists.
  apply (enforcer_accepts_summary hello_world all_secrets (repeat_char "A" 300) hello_reply
           __init__).
  - rewrite length_repeat_char. unfold TWITTER_CHAR_LIMIT. lia.
  - vm_compute. reflexivity.
  - vm_compute. lia.
Defined.

(** For any value, what the enforcer returns has a length within the
    limit; it raises only on a value that is not a string (a number has
    no length, a list or a dict over the limit cannot be cut and joined
    to the three dots). *)
Theorem enforcer_on_any_value W secrets (text : val) (s : State) :
  match fst (_truncate_or_summarize W secrets text s) with
  | Ok v => within_limit v
  | Raise e => forall t, text <> VStr t
  end.
Proof.
  destruct (_truncate_or_summarize W secrets text s) as [[v|e] s'] eqn:E; cbn [fst].
  - now apply (truncate_result_within W secrets text s v s').
  - intros t ->. destruct (truncate_cases W secrets t s) as (out & s2 & Hrun & _).
    rewrite Hrun in E. discriminate E.
Qed.

(** ** Choosing the strategy *)

(** With [auto_niche] set, the post action runs the trend strategy
    whatever the mode is, even one that names another strategy or none. *)
Theorem auto_niche_overrides_mode W config secrets (mode : val) (s : State) :
  truthy (dict_get_default config "auto_niche" (VBool false)) = true ->
  _get_generation_function config mode s
  = (Ok (Some analyze_and_generate_from_global_trends), s)
  /\ perform_post_action W config secrets mode s
     = perform_post_action W config secrets (VStr "post_only_controversy") s.
Proof.
  intros H.
  assert (E : forall m, _get_generation_function config m s
                        = (Ok (Some analyze_and_generate_from_global_trends), s)).
  { intros m. unfold _get_generation_function. now rewrite H. }
  split; [apply E|]. unfold perform_post_action.
  now rewrite !(run_bind_ok _ _ _ _ _ (E _)).
Qed.

Lemma auto_niche_overrides_mode_witness :
  _get_generation_function {[ "auto_niche" := VBool true ]} (VStr "post_only_word") __init__
  = (Ok (Some analyze_and_generate_from_global_trends), __init__)
  /\ perform_post_action silent_world {[ "auto_niche" := VBool true ]} all_secrets
       (VStr "post_only_word") __init__
     = perform_post_action silent_world {[ "auto_niche" := VBool true ]} all_secrets
         (VStr "post_only_controversy") __init__.
Proof.
  apply (auto_niche_overrides_mode silent_world {[ "auto_niche" := VBool true ]} all_secrets
           (VStr "post_only_word") __init__).
  reflexivity.
Defined.

(** A mode without a strategy makes the post action a no-op: nothing is
    generated, asked or handed over. *)
Theorem post_action_without_strategy W config secrets (m : string) (s : State) :
  truthy (dict_get_default config "auto_niche" (VBool false)) = false ->
  m <> "strategic_mix" -> m <> "post_only_controversy" ->
  m <> "post_only_news" -> m <> "post_only_word" ->
  perform_post_action W config secrets (VStr m) s = (Ok tt, s).
Proof.
  intros Ha H1 H2 H3 H4. unfold perform_post_action, _get_generation_function.
  rewrite Ha. apply String.eqb_neq in H1, H2, H3, H4.
  rewrite H1, H2, H3, H4. reflexivity.
Qed.

Lemma post_action_without_strategy_witness :
  perform_post_action silent_world ∅ all_secrets (VStr "reply_only") __init__ = (Ok tt, __init__).
Proof.
  apply (post_action_without_strategy silent_world ∅ all_secrets "reply_only" __init__);
    [reflexivity | discriminate..].
Defined.

(** ** The news key *)

(** Without a news key neither the news strategy nor the image search
    makes a request: both return nothing and leave the state as it was. *)
Theorem no_news_key_no_request W config secrets (query : val) (s : State) :
  truthy (dict_get secrets "NEWSAPI_KEY") = false ->
  _generate_from_news_article W config secrets s = (Ok None, s)
  /\ _get_image_from_newsapi W secrets query s = (Ok None, s).
Proof.
  intros H. unfold _generate_from_news_article, _get_image_from_newsapi.
  rewrite H. split; reflexivity.
Qed.

Lemma no_news_key_no_request_witness :
  _generate_from_news_article silent_world ∅ ∅ __init__ = (Ok None, __init__)
  /\ _get_image_from_newsapi silent_world ∅ (VStr "moon") __init__ = (Ok None, __init__).
Proof. apply (no_news_key_no_request silent_world ∅ ∅ (VStr "moon") __init__). reflexivity. Defined.

(** ** The document strategy *)

(** A package of the document strategy carries as its text the
    [tweet_text] of the parsed answer of the AI, which is then a value
    that can be sliced, a string or a list, and its image query is the
    first 100 items of that text. An answer that is not an object, or
    whose [tweet_text] is missing or a number, gives no package. *)
Theorem word_file_package W config secrets (s : State) pkg s' :
  _generate_from_word_file W config secrets s = (Ok (Some pkg), s') ->
  exists prompt s1 response d,
    call_ai_model W secrets prompt false s1 = (Ok (Some response), s')
    /\ json_loads W response = Ok (VDict d)
    /\ text pkg = dict_get d "tweet_text"
    /\ ((exists t, text pkg = VStr t /\ query_for_image pkg = VStr (str_take 100 t))
        \/ (exists l, text pkg = VList l /\ query_for_image pkg = VList (take 100 l))).
Proof.
  unfold _generate_from_word_file. intros H.
  destruct (negb (truthy (dict_get config "word_file_path"))); [ret_absurd H|].
  minv H as present s1 Hex.
  destruct (negb present); [ret_absurd H|].
  apply try_none_inv in H.
  destruct (negb (docx_available W)); [ret_absurd H|].
  minv_tick H.
  minv_lift H as paragraphs E1.
  minv H as prompt s2 Hprompt. minv H as answer s3 Hcall.
  destruct answer as [response|]; [|ret_absurd H].
  destruct (negb (truthy (VStr response))); [ret_absurd H|].
  minv_lift H as parsed E2.
  minv_lift H as tweet_text E3.
  minv_lift H as query E4.
  apply ret_ok_inv in H as [E5 <-]. injection E5 as ->. cbn [text query_for_image].
  apply get_ok_inv in E3 as (d & -> & ->).
  exists prompt, s2, response, d.
  split; [exact Hcall|]. split; [exact E2|]. split; [reflexivity|].
  destruct (dict_get d "tweet_text"); try discriminate E4; cbn in E4; injection E4 as <-; eauto.
Qed.

(** ** One hand-over per cycle *)

Lemma leads_try {A} (P Q R : State -> Prop) (body : M A) (h : exn -> option (M A)) :
  leads P Q body -> (forall e handler, h e = Some handler -> leads Q R handler) ->
  (forall s, Q s -> R s) -> leads P R (try_except body h).
Proof.
  intros Hb Hh Hqr s Hs. specialize (Hb s Hs). unfold try_except.
  destruct (body s) as [[a|e] s1]; cbn [snd] in *; [now apply Hqr|].
  destruct (h e) as [handler|] eqn:E; [now apply (Hh e handler E) | now apply Hqr].
Qed.

Lemma leads_of_keeps {A} (I R : State -> Prop) (m : M A) :
  keeps I m -> (forall s, I s -> R s) -> leads I R m.
Proof. intros Hk Hir. apply leads_weaken with (Q := I); [now apply keeps_leads | exact Hir]. Qed.

(** The hand-over of a reply: recorded once, whatever the browser does. *)
Lemma reply_dispatch W url text s :
  exists s', _reply_on_twitter W url text s = (Ok tt, s')
             /\ dispatched s' = Reply url text :: dispatched s.
Proof.
  unfold _reply_on_twitter. rewrite run_bind. cbn [record_dispatch].
  unfold try_except. rewrite run_bind. cbn [tick]. rewrite run_bind. unfold lift.
  destruct (compose_reply W _ url text) as [[]|e]; eexists; split; reflexivity.
Qed.

(** The trailer step is pure, and the identity when no trailer is configured. *)
Lemma append_required_text_spec W config (enforced : val) :
  yields (fun _ => True) (append_required_text W config enforced)
    (fun final => truthy (dict_get config "required_text") = false -> final = enforced)
  /\ forall s, snd (append_required_text W config enforced s) = s.
Proof.
  unfold append_required_text.
  destruct (truthy (dict_get config "required_text")) eqn:E; split.
  - intros s _. split; [exact I|]. intros a _ H. discriminate H.
  - intros s. rewrite run_bind. unfold lift.
    destruct (dict_item config "required_text"); reflexivity.
  - intros s _. split; [exact I|]. intros a Ha _. now injection Ha as <-.
  - reflexivity.
Qed.

Section OneHandOver.

Variable W : World.
Variables config secrets : gmap string val.
Variable sent : list Dispatch.

Lemma append_required_text_yields (enforced : val) :
  yields (same_dispatches sent) (append_required_text W config enforced)
    (fun final => truthy (dict_get config "required_text") = false -> final = enforced).
Proof.
  destruct (append_required_text_spec W config enforced) as [Hy Hs].
  intros s Hb. split; [now rewrite Hs|]. now apply (Hy s).
Qed.

Lemma truncate_yields (text : val) :
  yields (same_dispatches sent) (_truncate_or_summarize W secrets text) within_limit.
Proof.
  apply yields_of_keeps; [apply truncate_dispatches|].
  intros s a s'. apply truncate_result_within.
Qed.

(** The post action hands over nothing or one post. *)
Lemma post_action_leads (mode : val) :
  leads (same_dispatches sent) (fun s => (same_dispatches sent) s \/ one_more sent (post_of config) s)
        (perform_post_action W config secrets mode).
Proof.
  unfold perform_post_action.
  apply leads_bind with (Q := (same_dispatches sent));
    [apply keeps_leads; apply keeps_get_generation_function| |now left].
  intros [g|]; [|intros s Hs; now left].
  apply leads_bind with (Q := (same_dispatches sent));
    [apply keeps_leads, call_generation_dispatches| |now left].
  intros [package|]; [|intros s Hs; now left].
  destruct (truthy (text package)); [|intros s Hs; now left].
  apply leads_bind_yields with (post := within_limit); [apply truncate_yields| |now left].
  intros enforced Hin.
  apply leads_bind_yields
    with (post := fun image_path : option string =>
                    truthy (dict_get_default config "attach_image" (VBool false)) = false
                    -> image_path = None);
    [| |now left].
  { destruct (truthy (dict_get_default config "attach_image" (VBool false))).
    - apply yields_of_keeps; [apply get_image_dispatches|]. intros ? ? ? _ H. discriminate H.
    - intros s Hs. split; [exact Hs|]. intros a Ha _. now injection Ha as <-. }
  intros image_path Himage.
  apply leads_bind_yields
    with (post := fun final => truthy (dict_get config "required_text") = false
                               -> final = enforced);
    [apply append_required_text_yields| |now left].
  intros final Hfinal s Hs. right.
  destruct (post_tweet_dispatch W final image_path s) as (s1 & Hpost & Hd).
  rewrite (run_bind_ok _ _ _ _ _ Hpost).
  destruct (cleanup_dispatches W (Post final image_path :: sent) image_path s1) as [Hc _].
  { unfold same_dispatches in *. congruence. }
  exists (Post final image_path). split; [exact Hc|].
  exists final, image_path. split; [reflexivity|]. split; [|exact Himage].
  intros Hr. now rewrite (Hfinal Hr).
Qed.

(** The reply action hands over nothing or one reply. *)
Lemma reply_action_leads :
  leads (same_dispatches sent) (fun s => (same_dispatches sent) s \/ one_more sent (reply_of config) s)
        (perform_reply_action W config secrets).
Proof.
  set (after := fun s => (same_dispatches sent) s \/ one_more sent (reply_of config) s).
  unfold perform_reply_action.
  apply leads_bind with (Q := (same_dispatches sent)); [| |now left].
  { apply keeps_leads. now apply keeps_find_tweet_to_engage_with. }
  intros [target|]; [|intros s Hs; now left].
  apply leads_bind with (Q := (same_dispatches sent)); [| |now left].
  { intros s Hs. exact Hs. }
  intros prompt.
  apply leads_bind with (Q := (same_dispatches sent)); [| |now left].
  { apply keeps_leads. now apply (keeps_call_ai_model W secrets (same_dispatches sent) (fun _ => True)). }
  intros [response|]; [|intros s Hs; now left].
  destruct (negb (truthy (VStr response))); [intros s Hs; now left|].
  apply leads_try with (Q := after); [| |trivial].
  - apply leads_bind with (Q := (same_dispatches sent)); [intros s Hs; exact Hs| |now left].
    intros parsed.
    apply leads_bind with (Q := (same_dispatches sent)); [intros s Hs; exact Hs| |now left].
    intros tweet_text. destruct (truthy tweet_text); [|intros s Hs; now left].
    apply leads_bind_yields with (post := within_limit); [apply truncate_yields| |now left].
    intros enforced Hin.
    apply leads_bind_yields
      with (post := fun final => truthy (dict_get config "required_text") = false
                                 -> final = enforced);
      [apply append_required_text_yields| |now left].
    intros final Hfinal s Hs. right.
    destruct (reply_dispatch W (url target) final s) as (s1 & Hreply & Hd).
    rewrite Hreply. exists (Reply (url target) final).
    split; [unfold same_dispatches in Hs; cbn [snd]; congruence|].
    exists (url target), final. split; [reflexivity|]. intros Hr. now rewrite (Hfinal Hr).
  - intros e handler He. destruct e; try discriminate He; injection He as <-;
      intros s Hs; exact Hs.
Qed.

(** Around the action, the cycle hands nothing over. *)
Lemma cycle_leads (R : State -> Prop) :
  (forall s, (same_dispatches sent) s -> R s) ->
  (forall s, R s -> R (snd (tick s))) ->
  leads (same_dispatches sent) R
    (action ← action_type W (dict_get_default config "action_mode" (VStr "strategic_mix"));
     if String.eqb action "reply" then perform_reply_action W config secrets
     else perform_post_action W config secrets
            (dict_get_default config "action_mode" (VStr "strategic_mix"))) ->
  leads (same_dispatches sent) R (run_action_cycle W config secrets).
Proof.
  intros Hbr Htick Haction. unfold run_action_cycle.
  apply leads_bind with (Q := (same_dispatches sent)); [| |exact Hbr].
  { apply keeps_leads. now apply keeps_setup_driver. }
  intros started. destruct (negb started); [intros s Hs; now apply Hbr|].
  apply leads_bind with (Q := (same_dispatches sent)); [| |exact Hbr].
  { apply keeps_leads. now apply keeps_login_to_twitter. }
  intros logged_in.
  apply leads_bind with (Q := R); [| |trivial].
  - destruct logged_in; [|intros s Hs; now apply Hbr].
    apply leads_bind with (Q := (same_dispatches sent)); [intros s Hs; exact Hs| |exact Hbr].
    intros _. exact Haction.
  - intros _. apply keeps_leads. now apply keeps_shutdown_browser.
Qed.

End OneHandOver.

(** What a cycle hands over, whatever the mode. *)
Lemma cycle_hand_over W config secrets (sent : list Dispatch) :
  leads (same_dispatches sent)
        (fun s => same_dispatches sent s
                  \/ one_more sent (fun d => post_of config d \/ reply_of config d) s)
        (run_action_cycle W config secrets).
Proof.
  apply cycle_leads; [now left | trivial |].
  apply leads_bind with (Q := same_dispatches sent); [| |now left].
  { apply keeps_leads. now apply keeps_action_type. }
  intros action. destruct (String.eqb action "reply").
  - eapply leads_weaken; [apply reply_action_leads|].
    intros s [H|(d & Hd & Hok)]; [now left|right]. exists d. split; [exact Hd | now right].
  - eapply leads_weaken; [apply post_action_leads|].
    intros s [H|(d & Hd & Hok)]; [now left|right]. exists d. split; [exact Hd | now left].
Qed.

(** A cycle hands at most one item to the browser, on top of what was
    handed over before. *)
Theorem cycle_hands_over_at_most_once W config secrets (s : State) :
  exists new,
    dispatched (snd (run_action_cycle W config secrets s)) = (new ++ dispatched s)%list
    /\ length new <= 1.
Proof.
  destruct (cycle_hand_over W config secrets (dispatched s) s eq_refl) as [H|(d & Hd & _)].
  - exists []. split; [exact H | cbn; lia].
  - exists [d]. split; [exact Hd | cbn; lia].
Qed.

(** When no trailer is configured, whatever a cycle hands over has a
    text within the limit. *)
Theorem cycle_text_within_limit W config secrets (s : State) (d : Dispatch) :
  truthy (dict_get config "required_text") = false ->
  dispatched (snd (run_action_cycle W config secrets s)) = d :: dispatched s ->
  exists t, within_limit t
            /\ ((exists image_path, d = Post t image_path) \/ (exists u, d = Reply u t)).
Proof.
  intros Hr Hd.
  destruct (cycle_hand_over W config secrets (dispatched s) s eq_refl) as [H|(d' & Hd' & Hok)].
  - unfold same_dispatches in H. rewrite H in Hd.
    apply (f_equal length) in Hd. cbn in Hd. lia.
  - rewrite Hd' in Hd. injection Hd as ->.
    destruct Hok as [(t & image_path & -> & Hin & _)|(u & t & -> & Hin)]; exists t;
      (split; [now apply Hin|]); [left|right]; eauto.
Qed.

Lemma cycle_text_within_limit_witness :
  exists t, within_limit t
            /\ ((exists image_path, Post (VStr (repeat_char "A" 277 ++ "...")) None = Post t image_path)
                \/ (exists u, Post (VStr (repeat_char "A" 277 ++ "...")) None = Reply u t)).
Proof.
  apply (cycle_text_within_limit long_world
           {[ "action_mode" := VStr "post_only_controversy" ]} all_secrets __init__).
  - reflexivity.
  - vm_compute. reflexivity.
Defined.

(** The mode decides the kind of hand-over: under [reply_only] a cycle
    never posts, and under a mode other than [strategic_mix] and
    [reply_only] it never replies. *)
Theorem cycle_kind_by_mode W config secrets (mode : val) (s : State) (d : Dispatch) :
  config !! "action_mode" = Some mode ->
  dispatched (snd (run_action_cycle W config secrets s)) = d :: dispatched s ->
  (mode = VStr "reply_only" -> exists u t, d = Reply u t)
  /\ (mode <> VStr "reply_only" -> mode <> VStr "strategic_mix" ->
      exists t image_path, d = Post t image_path).
Proof.
  intros Hm Hd.
  assert (Emode : dict_get_default config "action_mode" (VStr "strategic_mix") = mode)
    by (unfold dict_get_default; now rewrite Hm).
  assert (Hnew : forall R,
             leads (same_dispatches (dispatched s))
                   (fun st => same_dispatches (dispatched s) st
                              \/ one_more (dispatched s) R st)
                   (run_action_cycle W config secrets) ->
             R d).
  { intros R HR. destruct (HR s eq_refl) as [H|(d' & Hd' & Hok)].
    - unfold same_dispatches in H. rewrite H in Hd.
      apply (f_equal length) in Hd. cbn in Hd. lia.
    - rewrite Hd' in Hd. now injection Hd as ->. }
  split.
  - intros ->.
    destruct (Hnew (reply_of config)) as (u & t & -> & _); [|eauto].
    apply cycle_leads; [now left | trivial |]. rewrite Emode.
    intros st Hst. rewrite run_bind.
    change (action_type W (VStr "reply_only") st) with (Ok "reply", st).
    now apply reply_action_leads.
  - intros H1 H2.
    destruct (Hnew (post_of config)) as (t & image_path & -> & _); [|eauto].
    apply cycle_leads; [now left | trivial |]. rewrite Emode.
    intros st Hst. rewrite run_bind.
    assert (Ea : action_type W mode st = (Ok "post", st)).
    { unfold action_type. now rewrite (eq_str_false _ _ H2), (eq_str_false _ _ H1). }
    rewrite Ea. now apply post_action_leads.
Qed.

Lemma cycle_kind_by_mode_witness :
  (VStr "post_only_controversy" = VStr "reply_only" ->
   exists u t, Post (VStr ("Hello" ++ nl ++ nl ++ "Posted by Bot")) None = Reply u t)
  /\ (VStr "post_only_controversy" <> VStr "reply_only" ->
      VStr "post_only_controversy" <> VStr "strategic_mix" ->
      exists t image_path,
        Post (VStr ("Hello" ++ nl ++ nl ++ "Posted by Bot")) None = Post t image_path).
Proof.
  apply (cycle_kind_by_mode hello_world bot_config all_secrets
           (VStr "post_only_controversy") __init__).
  - vm_compute. reflexivity.
  - vm_compute. reflexivity.
Defined.

(** ** The browser around the action *)

(** When the browser cannot be started, the cycle ends at once: no
    login, no call to the AI, nothing handed over, and no browser to
    shut down. *)
Theorem cycle_without_browser W config secrets (s : State) e :
  edge_start W (clock s) = Raise e ->
  exists s', run_action_cycle W config secrets s = (Ok tt, s')
             /\ same_trace s s' /\ driver s' = driver s /\ clock s' = S (clock s).
Proof.
  intros H. unfold run_action_cycle, _setup_driver.
  rewrite !run_bind. cbn [_log_message]. unfold try_except.
  rewrite run_bind. cbn [tick]. rewrite run_bind. unfold lift at 1. cbn [clock]. rewrite H.
  eexists. split; [reflexivity|]. repeat split.
Qed.

Lemma cycle_without_browser_witness :
  exists s', run_action_cycle silent_world ∅ all_secrets __init__ = (Ok tt, s')
             /\ same_trace __init__ s' /\ driver s' = driver __init__
             /\ clock s' = S (clock __init__).
Proof.
  apply (cycle_without_browser silent_world ∅ all_secrets __init__ WebDriverException).
  reflexivity.
Defined.

(** When the login fails, the action is skipped: no call to the AI and
    nothing handed over; after the screenshot the browser is shut down,
    and the cycle ends as that shutdown ends. *)
Theorem cycle_without_login W config secrets (s : State) e :
  edge_start W (clock s) = Ok tt ->
  login_flow W (S (clock s)) secrets = Raise e ->
  save_screenshot W (S (S (clock s))) = Ok tt ->
  exists s', run_action_cycle W config secrets s = (driver_quit W (S (S (S (clock s)))), s')
             /\ same_trace s s' /\ driver s' = true.
Proof.
  intros Hstart Hlogin Hshot.
  destruct (_setup_driver W s) as [r1 s1] eqn:E1.
  assert (H1 : r1 = Ok true /\ clock s1 = S (clock s) /\ driver s1 = true /\ same_trace s s1).
  { revert E1.
    cbv [_setup_driver mbind M_bind mret M_ret try_except any_exception tick lift
         _log_message set_driver].
    cbn [clock]. rewrite Hstart. intros [= <- <-]. repeat split. }
  destruct H1 as (-> & Hc1 & Hd1 & Ht1).
  destruct (_login_to_twitter W secrets s1) as [r2 s2] eqn:E2.
  assert (H2 : r2 = Ok false /\ clock s2 = S (S (S (clock s))) /\ driver s2 = true
               /\ same_trace s s2).
  { revert E2.
    cbv [_login_to_twitter mbind M_bind mret M_ret try_except any_exception tick lift
         _log_message].
    cbn [clock]. rewrite Hc1, Hlogin. cbn [clock]. rewrite ?Hc1, Hshot.
    intros [= <- <-]. cbn [clock driver]. rewrite ?Hc1. repeat split; try assumption;
      destruct Ht1 as [Ha Hd]; assumption. }
  destruct H2 as (-> & Hc2 & Hd2 & Ht2).
  unfold run_action_cycle.
  rewrite (run_bind_ok _ _ _ _ _ E1). cbn [negb].
  rewrite (run_bind_ok _ _ _ _ _ E2).
  rewrite run_bind, run_ret. unfold _shutdown_browser.
  rewrite run_bind. cbn [get_state]. rewrite Hd2.
  rewrite run_bind. cbn [tick]. unfold lift. rewrite Hc2.
  eexists. split; [reflexivity|]. split; [|exact Hd2].
  destruct Ht2 as [Ha Hd]. split; assumption.
Qed.

Lemma cycle_without_login_witness :
  exists s', run_action_cycle locked_out_world ∅ all_secrets __init__
             = (driver_quit locked_out_world 3, s')
             /\ same_trace __init__ s' /\ driver s' = true.
Proof.
  apply (cycle_without_login locked_out_world ∅ all_secrets __init__ TimeoutException);
    reflexivity.
Defined.

(** The cycle up to its action, when the browser starts and the login
    succeeds. *)
Lemma cycle_from_action W config secrets (s : State) :
  edge_start W (clock s) = Ok tt ->
  login_flow W (S (clock s)) secrets = Ok tt ->
  run_action_cycle W config secrets s
  = ((action ← action_type W (dict_get_default config "action_mode" (VStr "strategic_mix"));
      if String.eqb action "reply" then perform_reply_action W config secrets
      else perform_post_action W config secrets
             (dict_get_default config "action_mode" (VStr "strategic_mix")));;
     _shutdown_browser W) (action_start W secrets s).
Proof.
  intros Hstart Hlogin. unfold action_start.
  assert (E1 : _setup_driver W s = (Ok true, snd (_setup_driver W s))).
  { cbv [_setup_driver mbind M_bind mret M_ret try_except any_exception tick lift
         _log_message set_driver].
    cbn [clock]. rewrite Hstart. reflexivity. }
  assert (Hc : clock (snd (_setup_driver W s)) = S (clock s)).
  { cbv [_setup_driver mbind M_bind mret M_ret try_except any_exception tick lift
         _log_message set_driver].
    cbn [clock]. rewrite Hstart. reflexivity. }
  set (s1 := snd (_setup_driver W s)) in *.
  assert (E2 : _login_to_twitter W secrets s1 = (Ok true, snd (_login_to_twitter W secrets s1))).
  { cbv [_login_to_twitter mbind M_bind mret M_ret try_except any_exception tick lift
         _log_message].
    cbn [clock]. rewrite Hc, Hlogin. reflexivity. }
  unfold run_action_cycle.
  rewrite (run_bind_ok _ _ _ _ _ E1). cbn [negb].
  rewrite (run_bind_ok _ _ _ _ _ E2).
  rewrite !run_bind. cbn [_log_message]. reflexivity.
Qed.

(** Nothing shuts the browser down when the action raises: whatever
    the mode and whichever action was chosen, the post or the reply, the
    cycle raises the same exception from the same state. *)
Theorem cycle_raise_skips_shutdown W config secrets (s s1 s' : State) (action : string) e :
  edge_start W (clock s) = Ok tt ->
  login_flow W (S (clock s)) secrets = Ok tt ->
  action_type W (dict_get_default config "action_mode" (VStr "strategic_mix"))
    (action_start W secrets s) = (Ok action, s1) ->
  (if String.eqb action "reply" then perform_reply_action W config secrets
   else perform_post_action W config secrets
          (dict_get_default config "action_mode" (VStr "strategic_mix"))) s1
  = (Raise e, s') ->
  run_action_cycle W config secrets s = (Raise e, s').
Proof.
  intros Hstart Hlogin Haction Hraise.
  rewrite (cycle_from_action _ _ _ _ Hstart Hlogin).
  rewrite run_bind. rewrite (run_bind_ok _ _ _ _ _ Haction).
  now rewrite Hraise.
Qed.

(** A text that is true but has no length, such as a number, escapes the
    post action as the exception [len] raises: nothing is handed over. *)
Theorem post_action_text_without_length W config secrets (mode : val) (s s1 : State)
    g pkg e :
  _get_generation_function config mode s = (Ok (Some g), s) ->
  call_generation W config secrets g s = (Ok (Some pkg), s1) ->
  truthy (text pkg) = true -> len (text pkg) = Raise e ->
  perform_post_action W config secrets mode s = (Raise e, s1)
  /\ dispatched s1 = dispatched s.
Proof.
  intros Hgen Hcall Ht Hl. split.
  - unfold perform_post_action.
    rewrite (run_bind_ok _ _ _ _ _ Hgen). rewrite (run_bind_ok _ _ _ _ _ Hcall).
    rewrite Ht. unfold _truncate_or_summarize. rewrite !run_bind.
    change (lift (len (text pkg)) s1) with (len (text pkg), s1). now rewrite Hl.
  - destruct (call_generation_dispatches W config secrets (dispatched s) g s eq_refl) as [Hi _].
    now rewrite Hcall in Hi.
Qed.

Lemma post_action_text_without_length_witness :
  exists s1,
    perform_post_action numeric_world ∅ all_secrets (VStr "post_only_controversy") __init__
    = (Raise TypeError, s1)
    /\ dispatched s1 = dispatched __init__.
Proof.
  eexists.
  apply (post_action_text_without_length numeric_world ∅ all_secrets
           (VStr "post_only_controversy") __init__ _
           analyze_and_generate_from_global_trends
           {| text := VInt 5; query_for_image := VInt 5 |} TypeError).
  - reflexivity.
  - vm_compute. reflexivity.
  - reflexivity.
  - reflexivity.
Defined.

Lemma cycle_raise_skips_shutdown_witness :
  exists s', run_action_cycle numeric_world ∅ all_secrets __init__ = (Raise TypeError, s').
Proof.
  eexists.
  eapply (cycle_raise_skips_shutdown numeric_world ∅ all_secrets __init__ _ _ "reply"
            TypeError).
  - reflexivity.
  - reflexivity.
  - vm_compute. reflexivity.
  - vm_compute. reflexivity.
Defined.

(** ** The reply action *)

(** The reply goes to the permalink of the found target, and carries the
    length-enforced text of the answer, followed by the trailer step. *)
Theorem reply_goes_to_target W config secrets (s s1 s2 : State)
    target prompt response d (t : string) :
  _find_tweet_to_engage_with W config s = (Ok (Some target), s1) ->
  _create_engagement_prompt W config target s1 = (Ok prompt, s1) ->
  call_ai_model W secrets prompt false s1 = (Ok (Some response), s2) ->
  response <> "" ->
  json_loads W response = Ok (VDict d) ->
  dict_get d "tweet_text" = VStr t -> t <> "" ->
  exists (e : string) (s3 s' : State) (final : val),
    _truncate_or_summarize W secrets (VStr t) s2 = (Ok (VStr e), s3)
    /\ String.length e <= TWITTER_CHAR_LIMIT
    /\ append_required_text W config (VStr e) s3 = (Ok final, s3)
    /\ perform_reply_action W config secrets s = (Ok tt, s')
    /\ dispatched s' = Reply (url target) final :: dispatched s.
Proof.
  intros Hfind Hprompt Hcall Hresp Hparse Htext Ht.
  destruct (truncate_cases W secrets t s2) as (e & s3 & Htrunc & Hout).
  assert (Hlen : String.length e <= TWITTER_CHAR_LIMIT).
  { unfold enforced_from in Hout.
    destruct Hout as [[-> Hle]|[[_ Hsum]|[Hgt ->]]]; [exact Hle | lia |].
    rewrite (hard_truncation_length t Hgt). lia. }
  assert (Hd1 : dispatched s1 = dispatched s).
  { destruct (keeps_find_tweet_to_engage_with W config (same_dispatches (dispatched s))
                ltac:(frame) ltac:(frame) s eq_refl) as [Hi _].
    now rewrite Hfind in Hi. }
  assert (Hd2 : dispatched s2 = dispatched s1).
  { destruct (keeps_call_ai_model W secrets (same_dispatches (dispatched s1)) (fun _ => True)
                ltac:(frame) ltac:(frame) ltac:(frame) prompt false I s1 eq_refl) as [Hi _].
    now rewrite Hcall in Hi. }
  assert (Hd3 : dispatched s3 = dispatched s2).
  { destruct (truncate_dispatches W secrets (dispatched s2) (VStr t) s2 eq_refl) as [Hi _].
    now rewrite Htrunc in Hi. }
  destruct (append_required_text_spec W config (VStr e)) as [_ Hpure].
  assert (Happ : exists final, append_required_text W config (VStr e) s3 = (Ok final, s3)).
  { unfold append_required_text.
    destruct (truthy (dict_get config "required_text")) eqn:Er; [|now exists (VStr e)].
    unfold dict_get in Er. unfold dict_item.
    destruct (config !! "required_text") as [r|]; [|discriminate Er].
    eexists. reflexivity. }
  destruct Happ as (final & Happ).
  destruct (reply_dispatch W (url target) final s3) as (s4 & Hreply & Hd4).
  exists e, s3, s4, final. repeat split; try assumption.
  - unfold perform_reply_action.
    rewrite (run_bind_ok _ _ _ _ _ Hfind). rewrite (run_bind_ok _ _ _ _ _ Hprompt).
    rewrite (run_bind_ok _ _ _ _ _ Hcall). rewrite (truthy_str response Hresp). cbn [negb].
    unfold try_except. rewrite run_bind. unfold lift at 1. rewrite Hparse.
    rewrite run_bind. unfold lift at 1. cbn [get]. rewrite Htext, (truthy_str t Ht).
    rewrite (run_bind_ok _ _ _ _ _ Htrunc). rewrite (run_bind_ok _ _ _ _ _ Happ).
    now rewrite Hreply.
  - congruence.
Qed.

Lemma reply_goes_to_target_witness :
  exists (s2 : State) (e : string) (s3 s' : State) (final : val),
    _truncate_or_summarize hello_search_world all_secrets (VStr "Hello") s2 = (Ok (VStr e), s3)
    /\ String.length e <= TWITTER_CHAR_LIMIT
    /\ append_required_text hello_search_world bot_config (VStr e) s3 = (Ok final, s3)
    /\ perform_reply_action hello_search_world bot_config all_secrets __init__ = (Ok tt, s')
    /\ dispatched s' = Reply "https://x.com/bob/status/2" final :: dispatched __init__.
Proof.
  eexists.
  eapply (reply_goes_to_target hello_search_world bot_config all_secrets __init__ _ _
            {| author := "bob"; target_text := "Verified software";
               url := "https://x.com/bob/status/2" |} _ hello_reply _ "Hello").
  - vm_compute. reflexivity.
  - vm_compute. reflexivity.
  - vm_compute. reflexivity.
  - discriminate.
  - vm_compute. reflexivity.
  - vm_compute. reflexivity.
  - discriminate.
Defined.

(** The run of that scenario. *)
Example reply_run :
  dispatched (snd (perform_reply_action hello_search_world bot_config all_secrets __init__))
  = [Reply "https://x.com/bob/status/2" (VStr ("Hello" ++ nl ++ nl ++ "Posted by Bot"))].
Proof. vm_compute. reflexivity. Qed.

(** An answer that does not parse, or parses to something that is not an
    object, is dropped: the reply action returns and hands nothing over. *)
Theorem reply_unparsed_is_dropped W config secrets (s s1 s2 : State)
    target prompt response :
  _find_tweet_to_engage_with W config s = (Ok (Some target), s1) ->
  _create_engagement_prompt W config target s1 = (Ok prompt, s1) ->
  call_ai_model W secrets prompt false s1 = (Ok (Some response), s2) ->
  json_loads W response = Raise JSONDecodeError
  \/ (exists v, json_loads W response = Ok v /\ forall d, v <> VDict d) ->
  exists s', perform_reply_action W config secrets s = (Ok tt, s')
             /\ dispatched s' = dispatched s2.
Proof.
  intros Hfind Hprompt Hcall Hbad. unfold perform_reply_action.
  rewrite (run_bind_ok _ _ _ _ _ Hfind). rewrite (run_bind_ok _ _ _ _ _ Hprompt).
  rewrite (run_bind_ok _ _ _ _ _ Hcall).
  destruct (negb (truthy (VStr response))); [now exists s2|].
  unfold try_except. rewrite run_bind. unfold lift at 1.
  destruct Hbad as [->|(v & -> & Hv)].
  - eexists. split; reflexivity.
  - rewrite run_bind. unfold lift at 1.
    destruct v; try (eexists; split; reflexivity). now destruct (Hv d).
Qed.

Lemma reply_unparsed_is_dropped_witness :
  exists s2 s', perform_reply_action prose_world ∅ all_secrets __init__ = (Ok tt, s')
                /\ dispatched s' = dispatched s2.
Proof.
  eexists.
  eapply (reply_unparsed_is_dropped prose_world ∅ all_secrets __init__ _ _
            {| author := "bob"; target_text := "Verified software";
               url := "https://x.com/bob/status/2" |} _ "Sorry, I cannot help.").
  - vm_compute. reflexivity.
  - vm_compute. reflexivity.
  - vm_compute. reflexivity.
  - left. reflexivity.
Defined.

(** ** Engagement target discovery, further *)

(** The loop returns the first item of the sample that is not passed
    over, when that item is suitable; and nothing when every item is
    passed over. *)
Theorem discovery_returns_first_suitable (before after : list WebArticle)
    (article : WebArticle) (target : EngagementTarget) (s : State) :
  Forall passed_over before ->
  (suitable article target ->
   engage_loop (before ++ article :: after) s = (Ok (Some target), s))
  /\ engage_loop before s = (Ok None, s).
Proof.
  intros Hb. induction Hb as [|a rest Ha Hrest IH].
  - split; [|reflexivity].
    intros (t & u & x & h & Et & Ep & Eu & Ex & Eh & ->).
    cbn [app engage_loop]. rewrite run_bind. unfold try_except, inspect.
    rewrite run_bind. unfold lift at 1. rewrite Et, Ep. cbn [negb].
    rewrite !run_bind. unfold lift. rewrite Eu, Ex, Eh. reflexivity.
  - assert (Hskip : forall l, engage_loop (a :: l) s = engage_loop l s).
    { intros l. destruct Ha as [Ha|(t & Et & [Hp|Hf])].
      - cbn [engage_loop]. rewrite run_bind. unfold try_except, inspect.
        rewrite run_bind. unfold lift at 1. rewrite Ha. reflexivity.
      - now apply engage_loop_promoted with t.
      - destruct (promoted t) eqn:Ep;
          [now apply engage_loop_promoted with t | now apply engage_loop_not_found with t]. }
    destruct IH as [IH1 IH2]. split.
    + intros Hs. cbn [app]. rewrite Hskip. now apply IH1.
    + rewrite Hskip. exact IH2.
Qed.

Lemma discovery_returns_first_suitable_witness :
  engage_loop ([promoted_item; linkless_item] ++ good_item :: [stale_item]) __init__
  = (Ok (Some {| author := "bob"; target_text := "Verified software";
                 url := "https://x.com/bob/status/2" |}), __init__).
Proof.
  apply (discovery_returns_first_suitable [promoted_item; linkless_item] [stale_item]
           good_item _ __init__).
  - constructor; [|constructor; [|constructor]].
    + right. exists "Ads @ads Promoted Buy now". split; [reflexivity|]. left. reflexivity.
    + right. exists "Ann @ann Formal proofs". split; [reflexivity|]. right. reflexivity.
  - exists "Bob @bob Verified software", "@bob", "Verified software",
      "https://x.com/bob/status/2". repeat split.
Defined.

(** ** Images *)

(** The articles kept for their image are articles of the answer that
    have an image address. *)
Lemma with_images_kept (visited kept : list val) (article : val) :
  with_images visited = Ok kept -> article ∈ kept ->
  article ∈ visited
  /\ exists image, get article "urlToImage" = Ok image /\ truthy image = true.
Proof.
  revert kept. induction visited as [|a rest IH]; intros kept H Hin; cbn in H.
  - injection H as <-. now apply elem_of_nil in Hin.
  - destruct (get a "urlToImage") as [image|] eqn:Eg; [|discriminate].
    destruct (with_images rest) as [kept'|]; [|discriminate]. injection H as <-.
    destruct (truthy image) eqn:Et.
    + apply elem_of_cons in Hin as [->|Hin].
      * split; [apply list_elem_of_here | eauto].
      * destruct (IH kept' eq_refl Hin) as [H1 H2]. split; [now apply list_elem_of_further | exact H2].
    + destruct (IH kept' eq_refl Hin) as [H1 H2]. split; [now apply list_elem_of_further | exact H2].
Qed.

(** [random.choice] on a list returns one of its items, after one draw. *)
Lemma random_choice_list W (l : list val) s chosen s' :
  random_choice W (VList l) s = (Ok chosen, s') ->
  chosen ∈ l /\ clock s' = S (clock s).
Proof.
  unfold random_choice. intros H. minv_lift H as n En.
  destruct (Nat.eqb n 0); [apply lift_ok_inv in H as [? _]; discriminate|].
  minv H as i s1 Hi. apply lift_ok_inv in H as [Hidx <-]. cbn in Hidx.
  destruct (l !! i) as [x|] eqn:El; [|discriminate]. injection Hidx as <-.
  split; [apply list_elem_of_lookup; eauto|].
  unfold randbelow in Hi. minv_tick Hi. apply ret_ok_inv in Hi as [_ ->]. reflexivity.
Qed.

(** A downloaded image is the file [temp_post_image.jpg] of the working
    directory, seen on disk after the download. *)
Lemma download_image_result W image_url s path s' :
  _download_image W image_url s = (Ok (Some path), s') ->
  exists cwd, getcwd W (clock s) = Ok cwd
              /\ path = path_join cwd "temp_post_image.jpg"
              /\ urlretrieve W (1 + clock s) image_url path = Ok tt
              /\ file_exists W (2 + clock s) (VStr path) = true.
Proof.
  unfold _download_image. intros H. apply try_none_inv in H.
  minv_tick H. minv_lift H as cwd Ecwd. cbv zeta in H.
  minv_tick H. minv_lift H as u Eu. destruct u.
  minv H as present s1 Hex.
  destruct present; [|ret_absurd H].
  apply ret_ok_inv in H as [E _]. injection E as ->.
  unfold os_path_exists in Hex. minv_tick Hex. apply ret_ok_inv in Hex as [Hp _].
  exists cwd. repeat split; try eassumption. symmetry. exact Hp.
Qed.

(** The image search returns a path only after it downloaded the image of
    an article of the answer that has an image address, into the working
    directory as it was asked for in that run, and saw the file on disk. *)
Theorem image_search_result W secrets (query : val) (s : State) path s' :
  _get_image_from_newsapi W secrets query s = (Ok (Some path), s') ->
  exists d articles visited chosen image_url cwd,
    newsapi W (clock s) query (dict_get secrets "NEWSAPI_KEY") 20 "relevancy" = Ok (VDict d)
    /\ dict_get d "status" = VStr "ok"
    /\ d !! "articles" = Some articles
    /\ iter articles = Ok visited
    /\ chosen ∈ visited
    /\ get chosen "urlToImage" = Ok image_url /\ truthy image_url = true
    /\ getcwd W (2 + clock s) = Ok cwd
    /\ path = path_join cwd "temp_post_image.jpg"
    /\ urlretrieve W (3 + clock s) image_url path = Ok tt
    /\ file_exists W (4 + clock s) (VStr path) = true.
Proof.
  unfold _get_image_from_newsapi. intros H.
  destruct (negb (truthy (dict_get secrets "NEWSAPI_KEY"))); [ret_absurd H|].
  apply try_none_inv in H.
  minv_tick H. minv_lift H as api_data E1. minv_lift H as status E2.
  destruct (negb (eq_str status "ok")) eqn:Est; [ret_absurd H|].
  minv_lift H as articles0 E3.
  destruct (negb (truthy articles0)); [ret_absurd H|].
  minv_lift H as articles E4. minv_lift H as visited E5. minv_lift H as kept E6.
  destruct (negb (truthy (VList kept))); [ret_absurd H|].
  minv H as chosen s1 Hchoice. minv_lift H as image_url E7.
  apply get_ok_inv in E2 as (d & -> & ->).
  apply negb_false_iff, eq_str_true in Est.
  cbn [item] in E4. unfold dict_item in E4.
  destruct (d !! "articles") as [x|] eqn:Ea; [|discriminate]. injection E4 as <-.
  apply random_choice_list in Hchoice as [Hchoice Hclock]. cbn [tick snd clock] in Hclock.
  destruct (with_images_kept _ _ _ E6 Hchoice) as [Hv (image & Hg & Ht)].
  assert (image = image_url) as ->.
  { apply get_ok_inv in Hg as (c & -> & ->). cbn [item] in E7. unfold dict_item in E7.
    unfold dict_get. destruct (c !! "urlToImage"); [now injection E7 as ->|discriminate]. }
  destruct (download_image_result _ _ _ _ _ H) as (cwd & Hcwd & -> & Hu & Hf).
  rewrite Hclock in Hcwd, Hu, Hf.
  exists d, x, visited, chosen, image_url, cwd.
  repeat split; assumption.
Qed.

(** Removing the temporary image never fails the caller: the method
    returns whatever [os.remove] does, hands nothing over and, without a
    path, does nothing. *)
Theorem cleanup_never_raises W (image_path : option string) (s : State) :
  (exists s', _cleanup_temp_image W image_path s = (Ok tt, s') /\ same_trace s s')
  /\ (image_path = None \/ image_path = Some "" ->
      _cleanup_temp_image W image_path s = (Ok tt, s)).
Proof.
  split.
  - destruct (cleanup_returns W image_path s) as ([] & s' & E). exists s'. split; [exact E|].
    destruct (keeps_cleanup_temp_image W (same_trace s) ltac:(frame) ltac:(frame)
                image_path s) as [Hi _]; [now split|].
    now rewrite E in Hi.
  - intros [->| ->]; reflexivity.
Qed.

Lemma image_search_result_witness :
  exists d articles visited chosen image_url cwd,
    newsapi image_world (clock __init__) (VStr "moon") (dict_get all_secrets "NEWSAPI_KEY")
      20 "relevancy" = Ok (VDict d)
    /\ dict_get d "status" = VStr "ok"
    /\ d !! "articles" = Some articles
    /\ iter articles = Ok visited
    /\ chosen ∈ visited
    /\ get chosen "urlToImage" = Ok image_url /\ truthy image_url = true
    /\ getcwd image_world (2 + clock __init__) = Ok cwd
    /\ "/work/temp_post_image.jpg" = path_join cwd "temp_post_image.jpg"
    /\ urlretrieve image_world (3 + clock __init__) image_url "/work/temp_post_image.jpg" = Ok tt
    /\ file_exists image_world (4 + clock __init__) (VStr "/work/temp_post_image.jpg") = true.
Proof.
  eapply (image_search_result image_world all_secrets (VStr "moon") __init__).
  vm_compute. reflexivity.
Defined.

(** ** The entry point *)

(** [all(secrets.values())] looks at the four secrets. *)
Lemma all_values_secrets env :
  all_values (secrets_of env)
  = forallb (fun name => truthy (from_env env name)) secret_names.
Proof.
  unfold all_values, secrets_of, secret_names. cbn [forallb].
  generalize (from_env env "GEMINI_API_KEY"), (from_env env "NEWSAPI_KEY"),
             (from_env env "TWITTER_USERNAME"), (from_env env "TWITTER_PASSWORD").
  intros a b c d.
  change ((map_to_list ({[ "GEMINI_API_KEY" := a; "NEWSAPI_KEY" := b;
                           "TWITTER_USERNAME" := c; "TWITTER_PASSWORD" := d ]}
                        : gmap string val)).*2)
    with [a; b; c; d].
  reflexivity.
Qed.

Lemma truthy_from_env env name :
  truthy (from_env env name) = true <-> exists value, env name = Some value /\ value <> "".
Proof.
  unfold from_env. destruct (env name) as [value|]; cbn.
  - split.
    + intros H. exists value. split; [reflexivity|]. intros ->. discriminate H.
    + intros (v & [= <-] & Hv). now destruct value.
  - split; [discriminate|]. intros (v & Hv & _). discriminate Hv.
Qed.

(** The agent is built and its cycle run exactly when [config.json] loads
    and the four secrets are set and not empty; with a secret missing or
    empty the script exits before anything is started. *)
Theorem main_runs_with_all_secrets W (file : config_file) env :
  (forall result final,
      main W file env = Ran result final <->
      exists config,
        file = ConfigLoaded config
        /\ (forall name, name ∈ secret_names ->
                         exists value, env name = Some value /\ value <> "")
        /\ run_action_cycle_on W config (secrets_of env) __init__ = (result, final))
  /\ (forall config name,
        file = ConfigLoaded config -> name ∈ secret_names ->
        env name = None \/ env name = Some "" ->
        main W file env = SecretsMissing).
Proof.
  assert (Hall : all_values (secrets_of env) = true <->
                 forall name, name ∈ secret_names ->
                              exists value, env name = Some value /\ value <> "").
  { rewrite all_values_secrets, forallb_forall. split.
    - intros H name Hin. apply truthy_from_env, H. now apply list_elem_of_In.
    - intros H name Hin. apply truthy_from_env, H. now apply list_elem_of_In. }
  split.
  - intros result final. unfold main. split.
    + destruct file as [config| |]; [|discriminate|discriminate]. cbv zeta.
      destruct (all_values (secrets_of env)) eqn:Ea; cbn [negb]; [|discriminate].
      destruct (run_action_cycle_on W config (secrets_of env) __init__) as [r f] eqn:Er.
      intros [= <- <-]. exists config. split; [reflexivity|]. split; [now apply Hall | exact Er].
    + intros (config & -> & Hs & Er). apply Hall in Hs. cbv zeta. rewrite Hs, Er. reflexivity.
  - intros config name -> Hin Hbad. unfold main. cbv zeta.
    destruct (all_values (secrets_of env)) eqn:Ea; [|reflexivity].
    destruct (proj1 Hall eq_refl name Hin) as (value & Hv & Hne).
    destruct Hbad as [Hbad|Hbad]; rewrite Hbad in Hv; [discriminate|].
    injection Hv as <-. now destruct Hne.
Qed.

(** A configuration that is not an object is noticed only after the
    login: the cycle then raises [AttributeError] with the browser still
    running, and when the browser cannot be started it is not noticed at
    all. *)
Theorem cycle_on_malformed_config W (config : val) secrets (s : State) :
  (forall d, config <> VDict d) ->
  (edge_start W (clock s) = Ok tt -> login_flow W (S (clock s)) secrets = Ok tt ->
   run_action_cycle_on W config secrets s = (Raise AttributeError, action_start W secrets s)
   /\ driver (action_start W secrets s) = true)
  /\ (forall e, edge_start W (clock s) = Raise e ->
      fst (run_action_cycle_on W config secrets s) = Ok tt).
Proof.
  intros Hc.
  assert (E : run_action_cycle_on W config secrets =
              (started ← _setup_driver W;
               if negb started then mret tt
               else
                 logged_in ← _login_to_twitter W secrets;
                 (if (logged_in : bool) then
                    _log_message "--- New Action Cycle ---" "HEAD";;
                    lift (Raise AttributeError)
                  else mret tt);;
                 _shutdown_browser W)).
  { destruct config; try reflexivity. now destruct (Hc d). }
  rewrite E. clear E. split.
  - intros Hstart Hlogin. unfold action_start.
    assert (E1 : _setup_driver W s = (Ok true, snd (_setup_driver W s))
                 /\ clock (snd (_setup_driver W s)) = S (clock s)
                 /\ driver (snd (_setup_driver W s)) = true).
    { cbv [_setup_driver mbind M_bind mret M_ret try_except any_exception tick lift
           _log_message set_driver].
      cbn [clock]. rewrite Hstart. repeat split. }
    destruct E1 as (E1 & Hk & Hd).
    set (s1 := snd (_setup_driver W s)) in *.
    assert (E2 : _login_to_twitter W secrets s1 = (Ok true, snd (_login_to_twitter W secrets s1))
                 /\ driver (snd (_login_to_twitter W secrets s1)) = true).
    { cbv [_login_to_twitter mbind M_bind mret M_ret try_except any_exception tick lift
           _log_message].
      cbn [clock]. rewrite Hk, Hlogin. cbn [snd driver]. now split. }
    destruct E2 as (E2 & Hd2).
    rewrite (run_bind_ok _ _ _ _ _ E1). cbn [negb].
    rewrite (run_bind_ok _ _ _ _ _ E2).
    rewrite !run_bind. cbn [_log_message lift driver]. split; [reflexivity | exact Hd2].
  - intros e Hstart.
    assert (E1 : _setup_driver W s = (Ok false, snd (_setup_driver W s))).
    { cbv [_setup_driver mbind M_bind mret M_ret try_except any_exception tick lift
           _log_message set_driver].
      cbn [clock]. rewrite Hstart. reflexivity. }
    now rewrite (run_bind_ok _ _ _ _ _ E1).
Qed.

Lemma cycle_on_malformed_config_witness :
  run_action_cycle_on hello_world (VList []) all_secrets __init__
  = (Raise AttributeError, action_start hello_world all_secrets __init__)
  /\ driver (action_start hello_world all_secrets __init__) = true.
Proof.
  apply (cycle_on_malformed_config hello_world (VList []) all_secrets __init__);
    [discriminate | reflexivity | reflexivity].
Defined.

Lemma main_runs_with_all_secrets_witness :
  main silent_world (ConfigLoaded (VDict ∅))
    (fun name => if String.eqb name "NEWSAPI_KEY" then None else Some "secret")
  = SecretsMissing.
Proof.
  apply (main_runs_with_all_secrets silent_world (ConfigLoaded (VDict ∅))
           (fun name => if String.eqb name "NEWSAPI_KEY" then None else Some "secret"))
    with (config := VDict ∅) (name := "NEWSAPI_KEY").
  - reflexivity.
  - unfold secret_names. apply list_elem_of_further, list_elem_of_here.
  - left. reflexivity.
Defined.

(** ** Posting, further *)

(** Without [attach_image], a post handed over by a cycle has no image. *)
Theorem post_without_image W config secrets (s : State) t image_path :
  truthy (dict_get_default config "attach_image" (VBool false)) = false ->
  dispatched (snd (run_action_cycle W config secrets s)) = Post t image_path :: dispatched s ->
  image_path = None.
Proof.
  intros Ha Hd.
  destruct (cycle_hand_over W config secrets (dispatched s) s eq_refl) as [H|(d' & Hd' & Hok)].
  - unfold same_dispatches in H. rewrite H in Hd.
    apply (f_equal length) in Hd. cbn in Hd. lia.
  - rewrite Hd' in Hd. injection Hd as ->.
    destruct Hok as [(t' & image' & [= <- <-] & _ & Hi)|(u & t' & Hr & _)];
      [now apply Hi | discriminate Hr].
Qed.

Lemma post_without_image_witness :
  dispatched (snd (run_action_cycle hello_world bot_config all_secrets __init__))
  = Post (VStr ("Hello" ++ nl ++ nl ++ "Posted by Bot")) None :: dispatched __init__
  /\ (None : option string) = None.
Proof.
  split; [vm_compute; reflexivity|].
  apply (post_without_image hello_world bot_config all_secrets __init__
           (VStr ("Hello" ++ nl ++ nl ++ "Posted by Bot")) None).
  - reflexivity.
  - vm_compute. reflexivity.
Defined.

(** When the strategy returns nothing, or a package whose text is empty
    or missing, the post action ends there: no enforcement, no image
    search, nothing handed over. *)
Theorem post_action_nothing_to_post W config secrets (mode : val) (s s1 : State)
    g (content_package : option ContentPackage) :
  _get_generation_function config mode s = (Ok (Some g), s) ->
  call_generation W config secrets g s = (Ok content_package, s1) ->
  (content_package = None
   \/ exists pkg, content_package = Some pkg /\ truthy (text pkg) = false) ->
  exists s', perform_post_action W config secrets mode s = (Ok tt, s')
             /\ same_trace s1 s' /\ clock s' = clock s1.
Proof.
  intros Hgen Hcall Hnone. unfold perform_post_action.
  rewrite (run_bind_ok _ _ _ _ _ Hgen). rewrite (run_bind_ok _ _ _ _ _ Hcall).
  destruct Hnone as [->|(pkg & -> & Ht)].
  - eexists. split; [reflexivity|]. repeat split.
  - rewrite Ht. exists s1. repeat split.
Qed.

Lemma post_action_nothing_to_post_witness :
  exists s1 s',
    perform_post_action analysis_only_world ∅ all_secrets (VStr "post_only_controversy") __init__
    = (Ok tt, s')
    /\ same_trace s1 s' /\ clock s' = clock s1.
Proof.
  eexists.
  eapply (post_action_nothing_to_post analysis_only_world ∅ all_secrets
            (VStr "post_only_controversy") __init__ _
            analyze_and_generate_from_global_trends
            (Some {| text := VNone; query_for_image := VNone |})).
  - reflexivity.
  - vm_compute. reflexivity.
  - right. eexists. split; reflexivity.
Defined.

(** ** The document strategy, further *)

(** With the document on disk and the reader installed, the strategy
    asks the AI once, about at most the first 4000 characters of the
    paragraphs joined by line feeds. *)
Theorem word_file_prompt W config secrets (s : State) path paragraphs :
  dict_get config "word_file_path" = VStr path -> path <> "" ->
  file_exists W (clock s) (VStr path) = true ->
  docx_available W = true ->
  docx_paragraphs W (S (clock s)) (VStr path) = Ok paragraphs ->
  ai_calls (snd (_generate_from_word_file W config secrets s))
  = master_prompt W (history_context (tweet_history s)) (document_task paragraphs)
      (dict_get config "tone") (VStr "document analysis") false :: ai_calls s
  /\ String.length (str_take 4000 (join nl paragraphs)) <= 4000.
Proof.
  intros Hp Hne Hex Hdocx Hpar. split; [|rewrite str_length_take; lia].
  unfold _generate_from_word_file. rewrite Hp, (truthy_str path Hne). cbn [negb].
  rewrite run_bind. unfold os_path_exists. rewrite run_bind. cbn [tick]. rewrite run_ret.
  rewrite Hex. cbn [negb].
  unfold try_except. rewrite Hdocx. cbn [negb].
  rewrite run_bind. cbn [tick]. rewrite run_bind. unfold lift at 1. cbn [clock]. rewrite Hpar.
  cbv zeta. rewrite run_bind. unfold _create_master_prompt at 1.
  rewrite run_bind. cbn [get_state]. rewrite run_ret. cbn [tweet_history].
  fold (document_task paragraphs).
  set (prompt := master_prompt W (history_context (tweet_history s)) (document_task paragraphs)
                   (dict_get config "tone") (VStr "document analysis") false).
  rewrite run_bind.
  match goal with |- context [call_ai_model W secrets prompt false ?st] =>
    destruct (call_ai_model_trace W secrets prompt false st) as (answer & s2 & E & Ha & _)
  end.
  rewrite E.
  assert (Htail : forall (m : M (option ContentPackage)),
            ai_calls (snd (m s2)) = ai_calls s2 ->
            ai_calls (snd (match m s2 with
                           | (Ok a, s') => (Ok a, s')
                           | (Raise e, s') =>
                               (_log_message "Error reading Word file" "ERROR";; mret None) s'
                           end)) = prompt :: ai_calls s).
  { intros m Hm.
    assert (Hs : ai_calls s2 = prompt :: ai_calls s) by (rewrite Ha; reflexivity).
    rewrite <- Hs, <- Hm. destruct (m s2) as [[a|e] s']; reflexivity. }
  destruct answer as [response|]; [|now apply (Htail (mret None))].
  destruct (negb (truthy (VStr response))); [now apply (Htail (mret None))|].
  apply (Htail (parsed ← lift (json_loads W response);
                tweet_text ← lift (get parsed "tweet_text");
                query ← lift (slice_to 100 tweet_text);
                mret (Some {| text := tweet_text; query_for_image := query |}))).
  rewrite !run_bind. unfold lift.
  destruct (json_loads W response) as [parsed|]; [|reflexivity].
  rewrite !run_bind. destruct (get parsed "tweet_text") as [tweet_text|]; [|reflexivity].
  rewrite !run_bind. destruct (slice_to 100 tweet_text); reflexivity.
Qed.

Lemma word_file_prompt_witness :
  ai_calls (snd (_generate_from_word_file document_world document_config all_secrets __init__))
  = master_prompt document_world (history_context (tweet_history __init__))
      (document_task ["Proof assistants check proofs."; "They run."])
      (dict_get document_config "tone") (VStr "document analysis") false
    :: ai_calls __init__
  /\ String.length (str_take 4000 (join nl ["Proof assistants check proofs."; "They run."]))
     <= 4000.
Proof.
  apply (word_file_prompt document_world document_config all_secrets __init__ "notes.docx");
    [reflexivity | discriminate | reflexivity | reflexivity | reflexivity].
Defined.

Lemma word_file_package_witness :
  exists prompt s1 response d,
    call_ai_model document_world all_secrets prompt false s1
    = (Ok (Some response),
       snd (_generate_from_word_file document_world document_config all_secrets __init__))
    /\ json_loads document_world response = Ok (VDict d)
    /\ VStr "Proofs that run." = dict_get d "tweet_text"
    /\ ((exists t, VStr "Proofs that run." = VStr t
                   /\ VStr "Proofs that run." = VStr (str_take 100 t))
        \/ (exists l, VStr "Proofs that run." = VList l
                      /\ VStr "Proofs that run." = VList (take 100 l))).
Proof.
  apply (word_file_package document_world document_config all_secrets __init__
           {| text := VStr "Proofs that run."; query_for_image := VStr "Proofs that run." |}
           (snd (_generate_from_word_file document_world document_config all_secrets __init__))).
  vm_compute. reflexivity.
Defined.
